(** * Network topology simulator: model and properties

    A shallow embedding of [tools/simulators/network_topology.py]:
    the device classes, the [NetworkTopology] container with its validated
    mutations, the dictionary serializer with its loader, and the ring
    generator.

    Representation choices.
    - A Python [dict] is an association list in insertion order
      ([dict V]); assignment to an existing key keeps the key's position,
      assignment to a new key appends.
    - A reference to a device object is the device's id, the key under
      which the topology holds the object.  An interface slot therefore
      holds [Some (peer_id, peer_interface)] where the source holds
      [(peer_object, peer_interface)], and the topology's [devices]
      dictionary is the single store through which every holder of a
      reference sees a mutation.
    - [connections], a Python [set] of 4-tuples, is a duplicate-free list.
      The list keeps the records in the order they were added; a Python
      set has no such order, so what is stated about the records of a
      topology is stated up to their order: membership, number, or
      [Permutation].
    - Every [raise ValueError(...)] is an [Error] constructor named after
      the condition it reports; a raising call keeps the state it reached.
    - [random.randint] results are supplied by the caller. *)

From Stdlib Require Import ZArith List String Ascii Bool Lia Arith.
From Stdlib Require Import Permutation.
From Stdlib Require Import Decimal DecimalString DecimalNat.
From Stdlib Require Import Hexadecimal HexadecimalString HexadecimalNat.
Import ListNotations.
Open Scope list_scope.
Open Scope string_scope.

Set Warnings "-register-all".

(* ===================================================================== *)
(** ** Python values and dictionaries *)
(* ===================================================================== *)

(** Values a property can hold (what [json] can carry). *)
Inductive PyVal : Type :=
| VNone
| VBool (b : bool)
| VInt (z : Z)
| VStr (s : string)
| VList (l : list PyVal)
| VDict (d : list (string * PyVal)).

(** Python truthiness, as used by [if ip_address:]. *)
Definition py_truthy (v : PyVal) : bool :=
  match v with
  | VNone => false
  | VBool b => b
  | VInt z => negb (z =? 0)%Z
  | VStr s => negb (s =? "")
  | VList l => match l with [] => false | _ => true end
  | VDict d => match d with [] => false | _ => true end
  end.

(** [v == 'l3'] and the like. *)
Definition py_eq_str (v : PyVal) (s : string) : bool :=
  match v with VStr s' => s' =? s | _ => false end.

Definition dict (V : Type) : Type := list (string * V).

(** [d.get(k)]; [None] when [k not in d]. *)
Fixpoint dget {V} (k : string) (d : dict V) : option V :=
  match d with
  | [] => None
  | (k', v) :: r => if k' =? k then Some v else dget k r
  end.

(** [k in d] *)
Definition dmem {V} (k : string) (d : dict V) : bool :=
  match dget k d with Some _ => true | None => false end.

(** [d[k] = v] *)
Fixpoint dset {V} (k : string) (v : V) (d : dict V) : dict V :=
  match d with
  | [] => [(k, v)]
  | (k', v') :: r => if k' =? k then (k, v) :: r else (k', v') :: dset k v r
  end.

(** [del d[k]] *)
Fixpoint ddel {V} (k : string) (d : dict V) : dict V :=
  match d with
  | [] => []
  | (k', v') :: r => if k' =? k then r else (k', v') :: ddel k r
  end.

(** [list(d.keys())] *)
Definition dkeys {V} (d : dict V) : list string := map fst d.

(** [str(n)] for a non-negative integer. *)
Definition str (n : nat) : string :=
  DecimalString.NilEmpty.string_of_uint (Nat.to_uint n).

(** [f"{n:02x}"] for a non-negative integer. *)
Definition format_02x (n : nat) : string :=
  let h := HexadecimalString.NilEmpty.string_of_uint (Nat.to_hex_uint n) in
  if (String.length h <? 2)%nat then "0" ++ h else h.

(* ===================================================================== *)
(** ** Devices *)
(* ===================================================================== *)

(** What an interface slot points at: the peer device and its interface. *)
Definition Peer : Type := (string * string)%type.

Record NetworkDevice : Type := mkDevice {
  device_id : string;
  device_type : string;
  name : string;
  interfaces : dict (option Peer);
  properties : dict PyVal
}.

Definition with_interfaces (d : NetworkDevice) (i : dict (option Peer)) :=
  mkDevice (device_id d) (device_type d) (name d) i (properties d).

Definition with_properties (d : NetworkDevice) (p : dict PyVal) :=
  mkDevice (device_id d) (device_type d) (name d) (interfaces d) p.

(** [name or device_id] *)
Definition name_or (nm : option string) (dflt : string) : string :=
  match nm with
  | Some s => if s =? "" then dflt else s
  | None => dflt
  end.

(** [NetworkDevice.__init__] *)
Definition NetworkDevice_init (id ty : string) (nm : option string)
  : NetworkDevice :=
  mkDevice id ty (name_or nm id) [] [].

(** [NetworkDevice.add_interface] *)
Definition add_interface (d : NetworkDevice) (interface_name : string)
  : NetworkDevice :=
  if dmem interface_name (interfaces d) then d
  else with_interfaces d (dset interface_name None (interfaces d)).

(** [NetworkDevice.get_available_interface] *)
Fixpoint first_free (ifs : dict (option Peer)) : option string :=
  match ifs with
  | [] => None
  | (interface, connection) :: r =>
      match connection with
      | None => Some interface
      | Some _ => first_free r
      end
  end.

Definition get_available_interface (d : NetworkDevice) : option string :=
  first_free (interfaces d).

(** [NetworkDevice.set_property] *)
Definition set_property (d : NetworkDevice) (key : string) (value : PyVal)
  : NetworkDevice :=
  with_properties d (dset key value (properties d)).

(** [NetworkDevice.get_property] without a default. *)
Definition get_property (d : NetworkDevice) (key : string) : option PyVal :=
  dget key (properties d).

(** [Switch.__init__]: ports [port1..portN], then the seeded properties. *)
Definition Switch (id : string) (nm : option string) (num_ports : nat)
  (switch_type : PyVal) : NetworkDevice :=
  let d0 := NetworkDevice_init id "switch" nm in
  let d1 := fold_left (fun d i => add_interface d ("port" ++ str i))
              (seq 1 num_ports) d0 in
  let d2 := set_property d1 "switch_type" switch_type in
  let d3 := set_property d2 "vlans"
              (VDict [("1", VDict [("name", VStr "default");
                                   ("ports",
                                    VList (map VStr (dkeys (interfaces d2))))])]) in
  if py_eq_str switch_type "l3" then
    set_property (set_property d3 "routing_table" (VDict []))
      "ip_interfaces" (VDict [])
  else d3.

(** [Host._generate_mac_address]; [rnd] holds the three
    [random.randint(0, 255)] results in call order. *)
Definition generate_mac_address (rnd : nat * nat * nat) : string :=
  let '(a, b, c) := rnd in
  "02:00:00" ++ ":" ++ format_02x a ++ ":" ++ format_02x b
             ++ ":" ++ format_02x c.

(** [Host.__init__] *)
Definition Host (id : string) (nm : option string) (ip_address : PyVal)
  (rnd : nat * nat * nat) : NetworkDevice :=
  let d0 := NetworkDevice_init id "host" nm in
  let d1 := add_interface d0 "eth0" in
  if py_truthy ip_address then
    set_property (set_property d1 "ip_address" ip_address)
      "mac_address" (VStr (generate_mac_address rnd))
  else d1.

(* ===================================================================== *)
(** ** The topology and its error-raising operations *)
(* ===================================================================== *)

(** A connection record [(device1_id, intf1, device2_id, intf2)]. *)
Definition Conn : Type := (string * string * string * string)%type.

Definition conn_eqb (a b : Conn) : bool :=
  let '(a1, a2, a3, a4) := a in
  let '(b1, b2, b3, b4) := b in
  (a1 =? b1) && (a2 =? b2) && (a3 =? b3) && (a4 =? b4).

(** [connection in s], [s.add(connection)], [s.remove(connection)] *)
Definition set_mem (c : Conn) (s : list Conn) : bool := existsb (conn_eqb c) s.

Definition set_add (c : Conn) (s : list Conn) : list Conn :=
  if set_mem c s then s else (s ++ [c])%list.

Definition set_remove (c : Conn) (s : list Conn) : list Conn :=
  filter (fun x => negb (conn_eqb c x)) s.

Record NetworkTopology : Type := mkTopology {
  topo_name : string;
  devices : dict NetworkDevice;
  connections : list Conn
}.

(** [NetworkTopology.__init__] *)
Definition NetworkTopology_init (nm : string) : NetworkTopology :=
  mkTopology nm [] [].

Definition with_devices (T : NetworkTopology) (ds : dict NetworkDevice) :=
  mkTopology (topo_name T) ds (connections T).

Definition with_connections (T : NetworkTopology) (cs : list Conn) :=
  mkTopology (topo_name T) (devices T) cs.

(** The conditions the source reports through [ValueError], and the two
    built-in exceptions the generators can run into. *)
Inductive Error : Type :=
| DuplicateDeviceID (id : string)
| DeviceNotFound (id : string)
| InterfaceNotFound (id interface : string)
| InterfaceAlreadyConnected (id interface : string)
| ConnectionMismatch (id1 interface1 id2 interface2 : string)
| TypeMismatch (id : string)
| ZeroDivisionError
| IndexError.

(** A method of the topology: it returns or raises, and in both cases
    leaves a state behind. *)
Definition M (A : Type) : Type := NetworkTopology -> (Error + A) * NetworkTopology.

Definition ret {A} (a : A) : M A := fun T => (inr a, T).

Definition raise {A} (e : Error) : M A := fun T => (inl e, T).

Definition bind {A B} (m : M A) (k : A -> M B) : M B :=
  fun T => match m T with
           | (inl e, T') => (inl e, T')
           | (inr a, T') => k a T'
           end.

Declare Scope topo_scope.
Delimit Scope topo_scope with topo.
Notation "x <- m ;; k" := (bind m (fun x => k))
  (at level 61, m at next level, right associativity) : topo_scope.
Notation "m ;;; k" := (bind m (fun _ => k))
  (at level 61, right associativity) : topo_scope.
Open Scope topo_scope.

(** [for x in xs: body(x)] *)
Fixpoint for_each {A} (xs : list A) (body : A -> M unit) : M unit :=
  match xs with
  | [] => ret tt
  | x :: r => body x ;;; for_each r body
  end.

(** The slot of interface [i] of device [d]: [None] when the device or the
    interface is missing, [Some None] for an unconnected interface. *)
Definition slot (T : NetworkTopology) (d i : string) : option (option Peer) :=
  match dget d (devices T) with
  | Some dev => dget i (interfaces dev)
  | None => None
  end.

(** [self.devices[d].interfaces[i] = v] on an existing device. *)
Definition set_slot (d i : string) (v : option Peer) (T : NetworkTopology)
  : NetworkTopology :=
  match dget d (devices T) with
  | Some dev =>
      with_devices T
        (dset d (with_interfaces dev (dset i v (interfaces dev))) (devices T))
  | None => T
  end.

(** [NetworkTopology.add_device] *)
Definition add_device (device : NetworkDevice) : M unit := fun T =>
  if dmem (device_id device) (devices T)
  then (inl (DuplicateDeviceID (device_id device)), T)
  else (inr tt, with_devices T (dset (device_id device) device (devices T))).

(** [NetworkTopology.get_device] *)
Definition get_device (id : string) : M NetworkDevice := fun T =>
  match dget id (devices T) with
  | None => (inl (DeviceNotFound id), T)
  | Some dev => (inr dev, T)
  end.

(** [NetworkTopology.connect_devices] *)
Definition connect_devices (device1_id interface1 device2_id interface2 : string)
  : M unit := fun T =>
  match dget device1_id (devices T) with
  | None => (inl (DeviceNotFound device1_id), T)
  | Some device1 =>
  match dget device2_id (devices T) with
  | None => (inl (DeviceNotFound device2_id), T)
  | Some device2 =>
  match dget interface1 (interfaces device1) with
  | None => (inl (InterfaceNotFound device1_id interface1), T)
  | Some c1 =>
  match dget interface2 (interfaces device2) with
  | None => (inl (InterfaceNotFound device2_id interface2), T)
  | Some c2 =>
  match c1 with
  | Some _ => (inl (InterfaceAlreadyConnected device1_id interface1), T)
  | None =>
  match c2 with
  | Some _ => (inl (InterfaceAlreadyConnected device2_id interface2), T)
  | None =>
      let T1 := set_slot device1_id interface1
                  (Some (device2_id, interface2)) T in
      let T2 := set_slot device2_id interface2
                  (Some (device1_id, interface1)) T1 in
      (inr tt,
       with_connections T2
         (set_add (device1_id, interface1, device2_id, interface2)
            (connections T2)))
  end end end end end end.

(** [NetworkTopology.disconnect_devices]; only [conn1] is inspected, and
    the record is looked up in the orientation of the call. *)
Definition disconnect_devices (device1_id interface1 device2_id interface2 : string)
  : M unit := fun T =>
  match dget device1_id (devices T) with
  | None => (inl (DeviceNotFound device1_id), T)
  | Some device1 =>
  match dget device2_id (devices T) with
  | None => (inl (DeviceNotFound device2_id), T)
  | Some device2 =>
  match dget interface1 (interfaces device1) with
  | None => (inl (InterfaceNotFound device1_id interface1), T)
  | Some conn1 =>
  match dget interface2 (interfaces device2) with
  | None => (inl (InterfaceNotFound device2_id interface2), T)
  | Some conn2 =>
      let mismatch :=
        match conn1 with
        | None => true
        | Some (p, pi) => negb (p =? device2_id) || negb (pi =? interface2)
        end in
      if mismatch
      then (inl (ConnectionMismatch device1_id interface1
                   device2_id interface2), T)
      else
        let T1 := set_slot device1_id interface1 None T in
        let T2 := set_slot device2_id interface2 None T1 in
        let connection := (device1_id, interface1, device2_id, interface2) in
        (inr tt,
         if set_mem connection (connections T2)
         then with_connections T2 (set_remove connection (connections T2))
         else T2)
  end end end end.

(** [NetworkTopology.remove_device]; the loop runs over a copy of the
    device's interfaces taken before the first disconnect. *)
Definition remove_device (id : string) : M unit := fun T =>
  match dget id (devices T) with
  | None => (inl (DeviceNotFound id), T)
  | Some device =>
      (for_each (interfaces device)
         (fun '(intf, conn) =>
            match conn with
            | Some (remote_device, remote_intf) =>
                disconnect_devices id intf remote_device remote_intf
            | None => ret tt
            end) ;;;
       fun T' => (inr tt, with_devices T' (ddel id (devices T')))) T
  end.

(** [NetworkTopology.assign_ip_to_host] *)
Definition assign_ip_to_host (host_id : string) (ip_address subnet_mask : PyVal)
  : M unit := fun T =>
  match dget host_id (devices T) with
  | None => (inl (DeviceNotFound host_id), T)
  | Some device =>
      if negb (device_type device =? "host")
      then (inl (TypeMismatch host_id), T)
      else
        let d1 := set_property device "ip_address" ip_address in
        let d2 := set_property d1 "subnet_mask" subnet_mask in
        (inr tt, with_devices T (dset host_id d2 (devices T)))
  end.

(* ===================================================================== *)
(** ** Serializer *)
(* ===================================================================== *)

(** One entry of the document's ["devices"] object. *)
Record DeviceData : Type := mkDeviceData {
  dd_id : string;
  dd_type : string;
  dd_name : string;
  dd_interfaces : list string;
  dd_connections : dict (option Peer);
  dd_properties : dict PyVal
}.

(** The document [to_dict] produces and [load_from_file] reads back. *)
Record Document : Type := mkDocument {
  doc_name : option string;
  doc_devices : dict DeviceData;
  doc_connections : list Conn
}.

(** [NetworkDevice.to_dict] *)
Definition device_to_dict (d : NetworkDevice) : DeviceData :=
  let connections :=
    fold_left (fun acc '(intf, conn) => dset intf conn acc) (interfaces d) [] in
  mkDeviceData (device_id d) (device_type d) (name d)
    (dkeys (interfaces d)) connections (properties d).

(** [NetworkTopology.to_dict].  The source lists the records by iterating
    the set, in an order Python does not fix; the list here is one such
    order. *)
Definition to_dict (T : NetworkTopology) : Document :=
  mkDocument (Some (topo_name T))
    (map (fun '(id, device) => (id, device_to_dict device)) (devices T))
    (connections T).

(** [for key, value in props.items(): device.set_property(key, value)] *)
Definition replay_properties (props : dict PyVal) (d : NetworkDevice)
  : NetworkDevice :=
  fold_left (fun dev '(key, value) => set_property dev key value) props d.

(** The device [load_from_file] builds for one entry; [None] when the
    entry's type is neither ['switch'] nor ['host'] and the entry is
    passed over. *)
Definition load_device (id : string) (device_data : DeviceData)
  (rnd : nat * nat * nat) : option NetworkDevice :=
  if dd_type device_data =? "switch" then
    let switch_type :=
      match dget "switch_type" (dd_properties device_data) with
      | Some v => v
      | None => VStr "l2"
      end in
    let num_ports := List.length (dd_interfaces device_data) in
    Some (replay_properties (dd_properties device_data)
            (Switch id (Some (dd_name device_data)) num_ports switch_type))
  else if dd_type device_data =? "host" then
    let ip_address :=
      match dget "ip_address" (dd_properties device_data) with
      | Some v => v
      | None => VNone
      end in
    Some (replay_properties (dd_properties device_data)
            (Host id (Some (dd_name device_data)) ip_address rnd))
  else None.

(** The two loops of [load_from_file]; [rng k] is what [random.randint]
    yields while the [k]-th entry is built. *)
Definition load_devices (ds : dict DeviceData) (rng : nat -> nat * nat * nat)
  : M unit :=
  for_each (combine (seq 0 (List.length ds)) ds)
    (fun '(k, (id, device_data)) =>
       match load_device id device_data (rng k) with
       | Some device => add_device device
       | None => ret tt
       end).

Definition load_connections (cs : list Conn) : M unit :=
  for_each cs (fun '(d1, i1, d2, i2) => connect_devices d1 i1 d2 i2).

(** The result of a class or static method that builds a topology. *)
Definition built (m : M unit) (T0 : NetworkTopology) : Error + NetworkTopology :=
  match m T0 with
  | (inl e, _) => inl e
  | (inr _, T) => inr T
  end.

(** [NetworkTopology.load_from_file], from the parsed document on. *)
Definition load_from_file (data : Document) (rng : nat -> nat * nat * nat)
  : Error + NetworkTopology :=
  built (load_devices (doc_devices data) rng ;;;
         load_connections (doc_connections data))
    (NetworkTopology_init
       (match doc_name data with Some n => n | None => "Loaded Topology" end)).

(* ===================================================================== *)
(** ** Ring generator *)
(* ===================================================================== *)

(** [l[z]] with Python's negative indices. *)
Definition py_index {A} (l : list A) (z : Z) : option A :=
  let n := Z.of_nat (List.length l) in
  let z' := if (z <? 0)%Z then (z + n)%Z else z in
  if ((z' <? 0) || (n <=? z'))%Z then None else nth_error l (Z.to_nat z').

(** [if a and b] on two optional interface names. *)
Definition truthy (o : option string) : bool :=
  match o with
  | Some s => negb (s =? "")
  | None => false
  end.

(** The body shared by the generator's two connecting loops: ask both
    devices for an available interface and connect them when both have
    one. *)
Definition connect_available (d1 d2 : string) : M unit := fun T =>
  match dget d1 (devices T), dget d2 (devices T) with
  | Some dev1, Some dev2 =>
      match get_available_interface dev1, get_available_interface dev2 with
      | Some i1, Some i2 =>
          if truthy (Some i1) && truthy (Some i2)
          then connect_devices d1 i1 d2 i2 T
          else (inr tt, T)
      | _, _ => (inr tt, T)
      end
  | None, _ => (inl (DeviceNotFound d1), T)
  | _, None => (inl (DeviceNotFound d2), T)
  end.

Definition switch_id (i : nat) : string := "switch" ++ str i.
Definition host_id (i : nat) : string := "host" ++ str i.

Definition ring_switch (i : nat) : NetworkDevice :=
  Switch (switch_id i) (Some ("Switch " ++ str i)) 24 (VStr "l2").

Definition ring_host (rng : nat -> nat * nat * nat) (i : nat) : NetworkDevice :=
  Host (host_id i) (Some ("Host " ++ str i))
    (VStr ("192.168.1." ++ str (100 + i))) (rng i).

(** The statements of [create_ring_network] after the topology is made. *)
Definition ring_script (num_switches num_hosts : Z)
  (rng : nat -> nat * nat * nat) : M unit :=
  let switch_nums := seq 1 (Z.to_nat num_switches) in
  let host_nums := seq 1 (Z.to_nat num_hosts) in
  let switches := map switch_id switch_nums in
  let hosts := map host_id host_nums in
  for_each switch_nums (fun i => add_device (ring_switch i)) ;;;
  for_each host_nums (fun i => add_device (ring_host rng i)) ;;;
  (if (num_switches =? 0)%Z then raise ZeroDivisionError else ret tt) ;;;
  let hosts_per_switch := Z.max 1 (num_hosts / num_switches) in
  for_each (combine (seq 0 (List.length hosts)) hosts)
    (fun '(i, host) =>
       let switch_index :=
         Z.min (Z.of_nat i / hosts_per_switch) (num_switches - 1) in
       match py_index switches switch_index with
       | None => raise IndexError
       | Some switch => connect_available host switch
       end) ;;;
  for_each (seq 0 (Z.to_nat num_switches))
    (fun i =>
       match py_index switches (Z.of_nat i),
             py_index switches ((Z.of_nat i + 1) mod num_switches) with
       | Some switch1, Some switch2 => connect_available switch1 switch2
       | _, _ => raise IndexError
       end).

(** [NetworkTopology.create_ring_network] *)
Definition create_ring_network (num_switches num_hosts : Z)
  (rng : nat -> nat * nat * nat) : Error + NetworkTopology :=
  built (ring_script num_switches num_hosts rng)
    (NetworkTopology_init "Ring Network").

(* ===================================================================== *)
(** ** Sequences of public operations *)
(* ===================================================================== *)

Definition is_free (c : option Peer) : bool :=
  match c with None => true | Some _ => false end.

(** A device as its constructor leaves it: no interface is connected. *)
Definition standalone (d : NetworkDevice) : bool :=
  forallb (fun e => is_free (snd e)) (interfaces d).

Inductive Op : Type :=
| OpAddDevice (d : NetworkDevice)
| OpRemoveDevice (id : string)
| OpConnect (d1 i1 d2 i2 : string)
| OpDisconnect (d1 i1 d2 i2 : string).

Definition run_op (op : Op) : M unit :=
  match op with
  | OpAddDevice d => add_device d
  | OpRemoveDevice id => remove_device id
  | OpConnect d1 i1 d2 i2 => connect_devices d1 i1 d2 i2
  | OpDisconnect d1 i1 d2 i2 => disconnect_devices d1 i1 d2 i2
  end.

Definition run_ops (ops : list Op) : M unit := for_each ops run_op.

(** Devices handed to [add_device] come straight from a constructor. *)
Definition admissible (op : Op) : Prop :=
  match op with
  | OpAddDevice d => standalone d = true
  | _ => True
  end.

(** Topologies built from an empty one by successful public operations. *)
Inductive reachable : NetworkTopology -> Prop :=
| reach_init : forall nm, reachable (NetworkTopology_init nm)
| reach_step : forall T op T',
    reachable T -> admissible op -> run_op op T = (inr tt, T') ->
    reachable T'.

(* ===================================================================== *)
(** ** Consistency of records and slots *)
(* ===================================================================== *)

(** [c] is the record of the unordered pair [(d1,i1)-(d2,i2)]. *)
Definition pair_match (d1 i1 d2 i2 : string) (c : Conn) : bool :=
  conn_eqb c (d1, i1, d2, i2) || conn_eqb c (d2, i2, d1, i1).

Definition matching_records (T : NetworkTopology) (d1 i1 d2 i2 : string)
  : list Conn :=
  filter (pair_match d1 i1 d2 i2) (connections T).

(** [c] mentions device [id] as one of its endpoints. *)
Definition references (id : string) (c : Conn) : bool :=
  let '(d1, _, d2, _) := c in (d1 =? id) || (d2 =? id).

(** Both slots of a record point at each other. *)
Definition record_has_slots (T : NetworkTopology) (c : Conn) : Prop :=
  let '(d1, i1, d2, i2) := c in
  slot T d1 i1 = Some (Some (d2, i2)) /\ slot T d2 i2 = Some (Some (d1, i1)).

Definition records_have_slots (T : NetworkTopology) : Prop :=
  forall c, In c (connections T) -> record_has_slots T c.

(** Every connected slot has exactly one record for its pair. *)
Definition slots_have_records (T : NetworkTopology) : Prop :=
  forall d i p pi,
    slot T d i = Some (Some (p, pi)) ->
    List.length (matching_records T d i p pi) = 1.

Definition consistent (T : NetworkTopology) : Prop :=
  records_have_slots T /\ slots_have_records T.

(** A slot that exists and holds a peer. *)
Definition occupied (T : NetworkTopology) (d i : string) : Prop :=
  exists p, slot T d i = Some (Some p).

(** Two two-port switches, the first port of ["A"] wired to the first port
    of ["B"]; then the same after a disconnect called from ["B"]'s side. *)
Definition two_switch_ops : list Op :=
  [ OpAddDevice (Switch "A" None 2 (VStr "l2"));
    OpAddDevice (Switch "B" None 2 (VStr "l2"));
    OpConnect "A" "port1" "B" "port1" ].

Definition wired_pair : NetworkTopology :=
  snd (run_ops two_switch_ops (NetworkTopology_init "t")).

Definition after_reverse_disconnect : NetworkTopology :=
  snd (disconnect_devices "B" "port1" "A" "port1" wired_pair).

(** The state a successful [connect_devices] leaves. *)
Definition connect_post (d1 i1 d2 i2 : string) (T : NetworkTopology)
  : NetworkTopology :=
  let T2 := set_slot d2 i2 (Some (d1, i1))
              (set_slot d1 i1 (Some (d2, i2)) T) in
  with_connections T2 (set_add (d1, i1, d2, i2) (connections T2)).

Definition after_remove_B : NetworkTopology :=
  snd (remove_device "B" wired_pair).

Definition reconnected_reversed : NetworkTopology :=
  snd (connect_devices "B" "port1" "A" "port1" after_reverse_disconnect).

(** What no connect or disconnect touches: which devices there are, in
    which order, and everything about a device but the contents of its
    slots. *)
Definition same_shape (a b : NetworkDevice) : Prop :=
  device_id b = device_id a /\ device_type b = device_type a /\
  name b = name a /\ properties b = properties a /\
  dkeys (interfaces b) = dkeys (interfaces a).

Definition dev_frame (T T' : NetworkTopology) : Prop :=
  topo_name T' = topo_name T /\
  dkeys (devices T') = dkeys (devices T) /\
  forall d, match dget d (devices T), dget d (devices T') with
            | Some a, Some b => same_shape a b
            | None, None => True
            | _, _ => False
            end.

(** The devices the first loop of [load_from_file] adds, entry [k] on. *)
Fixpoint loaded_devices (k : nat) (ds : dict DeviceData)
  (rng : nat -> nat * nat * nat) : dict NetworkDevice :=
  match ds with
  | [] => []
  | (id, device_data) :: r =>
      match load_device id device_data (rng k) with
      | Some device => (id, device) :: loaded_devices (S k) r rng
      | None => loaded_devices (S k) r rng
      end
  end.

Definition port (i : nat) : string := "port" ++ str i.

(** The interfaces a constructor leaves: every name present, none
    connected. *)
Definition fresh_interfaces (names : list string) : dict (option Peer) :=
  map (fun n => (n, None)) names.

(** The properties [Switch.__init__] and [Host.__init__] seed. *)
Definition switch_defaults (num_ports : nat) (switch_type : PyVal)
  : dict PyVal :=
  let base :=
    [("switch_type", switch_type);
     ("vlans",
      VDict [("1", VDict [("name", VStr "default");
                          ("ports",
                           VList (map VStr (map port (seq 1 num_ports))))])])] in
  if py_eq_str switch_type "l3"
  then (base ++ [("routing_table", VDict []); ("ip_interfaces", VDict [])])%list
  else base.

Definition host_defaults (ip_address : PyVal) (rnd : nat * nat * nat)
  : dict PyVal :=
  if py_truthy ip_address
  then [("ip_address", ip_address);
        ("mac_address", VStr (generate_mac_address rnd))]
  else [].

(** The same document with another list of connection records. *)
Definition doc_with_connections (data : Document) (cs : list Conn) : Document :=
  mkDocument (doc_name data) (doc_devices data) cs.

(** A document with a one-port switch, a device of a type the loader does
    not know, and a record between the two. *)
Definition router_entry : DeviceData :=
  mkDeviceData "r1" "router" "r1" ["eth0"] [("eth0", None)] [].

Definition switch_entry : DeviceData :=
  mkDeviceData "s1" "switch" "s1" ["port1"] [("port1", None)]
    [("switch_type", VStr "l2")].

Definition router_document : Document :=
  mkDocument (Some "lab")
    [("s1", switch_entry); ("r1", router_entry)]
    [("s1", "port1", "r1", "eth0")].

Definition fixed_rng (k : nat) : nat * nat * nat := (1, 2, 3).

(* ===================================================================== *)
(** ** Round trip through the document *)
(* ===================================================================== *)

(** [(d, i)] is one of the two endpoints of the record. *)
Definition is_endpoint (d i : string) (c : Conn) : Prop :=
  let '(d1, i1, d2, i2) := c in (d = d1 /\ i = i1) \/ (d = d2 /\ i = i2).

Definition share_endpoint (c c' : Conn) : Prop :=
  exists d i, is_endpoint d i c /\ is_endpoint d i c'.

(** No two records of the list use the same interface. *)
Fixpoint pairwise_disjoint (cs : list Conn) : Prop :=
  match cs with
  | [] => True
  | c :: r => (forall c', In c' r -> ~ share_endpoint c c') /\ pairwise_disjoint r
  end.

Definition endpoints_free (T : NetworkTopology) (cs : list Conn) : Prop :=
  forall d1 i1 d2 i2,
    In (d1, i1, d2, i2) cs ->
    slot T d1 i1 = Some None /\ slot T d2 i2 = Some None.

(** Dictionaries as Python has them: no key twice. *)
Definition wf_device (dev : NetworkDevice) : Prop :=
  NoDup (dkeys (interfaces dev)) /\ NoDup (dkeys (properties dev)).

Definition wf_topology (T : NetworkTopology) : Prop :=
  NoDup (dkeys (devices T)) /\
  forall id dev, In (id, dev) (devices T) -> wf_device dev.

(** A switch with the ports, or a host with the interface, that its
    constructor gives it. *)
Definition constructor_shaped (dev : NetworkDevice) : Prop :=
  (device_type dev = "switch" /\
   dkeys (interfaces dev) = map port (seq 1 (List.length (interfaces dev)))) \/
  (device_type dev = "host" /\ dkeys (interfaces dev) = ["eth0"]).

(** The device [load_from_file] builds from the entry [to_dict] writes for
    [dev], before any connection is replayed. *)
Definition reloaded (id : string) (dev : NetworkDevice) (rnd : nat * nat * nat)
  : NetworkDevice :=
  replay_properties (properties dev)
    (if device_type dev =? "switch" then
       Switch id (Some (name dev)) (List.length (interfaces dev))
         match dget "switch_type" (properties dev) with
         | Some v => v
         | None => VStr "l2"
         end
     else
       Host id (Some (name dev))
         match dget "ip_address" (properties dev) with
         | Some v => v
         | None => VNone
         end rnd).

Fixpoint reload_all (k : nat) (ds : dict NetworkDevice)
  (rng : nat -> nat * nat * nat) : dict NetworkDevice :=
  match ds with
  | [] => []
  | (id, dev) :: r => (id, reloaded id dev (rng k)) :: reload_all (S k) r rng
  end.

(** The properties the constructor called by the loader seeds for [dev]. *)
Definition seeded_properties (dev : NetworkDevice) (rnd : nat * nat * nat)
  : dict PyVal :=
  if device_type dev =? "switch" then
    switch_defaults (List.length (interfaces dev))
      match dget "switch_type" (properties dev) with
      | Some v => v
      | None => VStr "l2"
      end
  else
    host_defaults
      match dget "ip_address" (properties dev) with
      | Some v => v
      | None => VNone
      end rnd.

(** A host made without an address that is given one afterwards. *)
Definition host_with_assigned_ip : NetworkTopology :=
  snd ((add_device (Host "h1" None VNone (0, 0, 0)) ;;;
        assign_ip_to_host "h1" (VStr "10.0.0.5") (VStr "255.255.255.0"))
         (NetworkTopology_init "t")).

Definition device_property (T : NetworkTopology) (id key : string)
  : option PyVal :=
  match dget id (devices T) with
  | Some dev => dget key (properties dev)
  | None => None
  end.

(** Decision procedures for the consistency of a given topology. *)
Definition slot_is (T : NetworkTopology) (d i p pi : string) : bool :=
  match slot T d i with
  | Some (Some (p', pi')) => (p' =? p) && (pi' =? pi)
  | _ => false
  end.

Definition records_have_slots_b (T : NetworkTopology) : bool :=
  forallb (fun c : Conn =>
             let '(d1, i1, d2, i2) := c in
             slot_is T d1 i1 d2 i2 && slot_is T d2 i2 d1 i1)
    (connections T).

Definition slots_have_records_b (T : NetworkTopology) : bool :=
  forallb (fun e : string * NetworkDevice =>
             forallb (fun s : string * option Peer =>
                        match snd s with
                        | Some (p, pi) =>
                            List.length (matching_records T (fst e) (fst s) p pi)
                            =? 1
                        | None => true
                        end%nat)
               (interfaces (snd e)))
    (devices T).

Definition consistent_b (T : NetworkTopology) : bool :=
  records_have_slots_b T && slots_have_records_b T.

(* ===================================================================== *)
(** ** First-fit wiring *)
(* ===================================================================== *)

(** The generators only ever connect the first available interface of a
    device.  Over a base topology whose devices are all unconnected, the
    state this produces is determined by the list of peers each device has
    been given so far, in the order of its interfaces, and by the list of
    records. *)
Record Wiring : Type := mkWiring {
  peers : string -> list Peer;
  recs : list Conn
}.

Definition upd {V} (f : string -> V) (k : string) (v : V) : string -> V :=
  fun x => if k =? x then v else f x.

Definition no_wiring : Wiring := mkWiring (fun _ => []) [].

(** The interface [get_available_interface] returns for [d]. *)
Definition free_name (B : NetworkTopology) (w : Wiring) (d : string)
  : option string :=
  match dget d (devices B) with
  | Some dev => nth_error (dkeys (interfaces dev)) (List.length (peers w d))
  | None => None
  end.

(** The effect of [connect_available d1 d2]. *)
Definition link (B : NetworkTopology) (d1 d2 : string) (w : Wiring) : Wiring :=
  match free_name B w d1, free_name B w d2 with
  | Some i1, Some i2 =>
      mkWiring
        (upd (upd (peers w) d1 (peers w d1 ++ [(d2, i2)])%list)
           d2 (peers w d2 ++ [(d1, i1)])%list)
        (recs w ++ [(d1, i1, d2, i2)])%list
  | _, _ => w
  end.

Definition link_all (B : NetworkTopology) (pairs : list (string * string))
  (w : Wiring) : Wiring :=
  fold_left (fun w '(d1, d2) => link B d1 d2 w) pairs w.

Definition interface_names_ok (dev : NetworkDevice) : Prop :=
  NoDup (dkeys (interfaces dev)) /\ ~ In "" (dkeys (interfaces dev)).

Definition base_ok (B : NetworkTopology) : Prop :=
  forall d dev, dget d (devices B) = Some dev -> interface_names_ok dev.

(** [T] is the base topology [B] wired as [w] says. *)
Definition represents (B : NetworkTopology) (w : Wiring) (T : NetworkTopology)
  : Prop :=
  dev_frame B T /\
  connections T = recs w /\
  records_have_slots T /\
  forall d dev,
    dget d (devices B) = Some dev ->
    List.length (peers w d) <= List.length (interfaces dev) /\
    forall k nm,
      nth_error (dkeys (interfaces dev)) k = Some nm ->
      slot T d nm = Some (nth_error (peers w d) k).

(* ===================================================================== *)
(** ** The ring generator as a wiring *)
(* ===================================================================== *)

(** The topology after the two device loops of [create_ring_network]. *)
Definition ring_base (N H : nat) (rng : nat -> nat * nat * nat)
  : NetworkTopology :=
  mkTopology "Ring Network"
    (map (fun i => (switch_id i, ring_switch i)) (seq 1 N) ++
     map (fun i => (host_id i, ring_host rng i)) (seq 1 H))%list
    [].

(** The number of the switch that host number [i + 1] is attached to, and
    of the switch after switch number [i + 1] in the ring. *)
Definition assigned (n h : Z) (i : nat) : nat :=
  Z.to_nat (Z.min (Z.of_nat i / Z.max 1 (h / n)) (n - 1)) + 1.

Definition next_switch (n : Z) (i : nat) : nat :=
  Z.to_nat ((Z.of_nat i + 1) mod n) + 1.

(** The calls of [connect_available] made by the two connecting loops. *)
Definition host_pairs (n h : Z) : list (string * string) :=
  map (fun i => (host_id (i + 1), switch_id (assigned n h i)))
    (seq 0 (Z.to_nat h)).

Definition ring_pairs (n : Z) : list (string * string) :=
  map (fun i => (switch_id (i + 1), switch_id (next_switch n i)))
    (seq 0 (Z.to_nat n)).

Definition ring_wiring (n h : Z) (rng : nat -> nat * nat * nat) : Wiring :=
  let B := ring_base (Z.to_nat n) (Z.to_nat h) rng in
  link_all B (ring_pairs n) (link_all B (host_pairs n h) no_wiring).

(** How often [d] is the first, or the second, device of a pair. *)
Definition deg (d : string) (pairs : list (string * string)) : nat :=
  List.length (filter (fun pr => fst pr =? d) pairs) +
  List.length (filter (fun pr => snd pr =? d) pairs).

(** The two devices of a record. *)
Definition conn_devices (c : Conn) : string * string :=
  let '(d1, _, d2, _) := c in (d1, d2).

(** * Counting switch-to-switch links *)

Definition is_switch (T : NetworkTopology) (d : string) : bool :=
  match dget d (devices T) with
  | Some dev => device_type dev =? "switch"
  | None => false
  end.

(** Records whose two devices are both switches of the topology. *)
Definition switch_to_switch (T : NetworkTopology) (c : Conn) : bool :=
  is_switch T (fst (conn_devices c)) && is_switch T (snd (conn_devices c)).

Definition ss_records (T : NetworkTopology) : list Conn :=
  filter (switch_to_switch T) (connections T).

(** Slots of a device whose peer is a switch other than the device. *)
Definition faces_other_switch (T : NetworkTopology) (self : string)
  (c : option Peer) : bool :=
  match c with
  | Some (p, _) => is_switch T p && negb (p =? self)
  | None => false
  end.

Definition switch_facing (T : NetworkTopology) (dev : NetworkDevice)
  : dict (option Peer) :=
  filter (fun e => faces_other_switch T (device_id dev) (snd e))
    (interfaces dev).

(** The number of hosts the generator assigns to switch number [a]. *)
Definition hosts_on (n h : Z) (a : nat) : nat :=
  List.length (filter (fun i => (assigned n h i =? a)%nat) (seq 0 (Z.to_nat h))).

(** The interfaces of a device whose first slots hold [ps], in order. *)
Definition wired_interfaces (names : list string) (ps : list Peer)
  : dict (option Peer) :=
  combine names
    (map Some ps ++ repeat None (List.length names - List.length ps))%list.

(* ===================================================================== *)
(** ** Kind-specific configuration *)
(* ===================================================================== *)

(** What a configuration method can raise: one of the [ValueError]s above,
    or the [TypeError] of an item assignment on a stored value that is not
    a dictionary. *)
Inductive PyException : Type :=
| ValueError (e : Error)
| TypeError.

Definition Cfg : Type := NetworkTopology -> (PyException + unit) * NetworkTopology.

(** [d[key] = value] on a stored value: only a dictionary takes it. *)
Definition py_setitem (d : PyVal) (key : string) (value : PyVal)
  : option PyVal :=
  match d with
  | VDict items => Some (VDict (dset key value items))
  | _ => None
  end.

(** [NetworkTopology.configure_vlan] *)
Definition configure_vlan (switch_id vlan_id vlan_name : string)
  (ports : list string) : Cfg := fun T =>
  match dget switch_id (devices T) with
  | None => (inl (ValueError (DeviceNotFound switch_id)), T)
  | Some device =>
      if negb (device_type device =? "switch")
      then (inl (ValueError (TypeMismatch switch_id)), T)
      else
        let vlans :=
          match get_property device "vlans" with
          | Some v => v
          | None => VDict []
          end in
        match py_setitem vlans vlan_id
                (VDict [("name", VStr vlan_name);
                        ("ports", VList (map VStr ports))]) with
        | None => (inl TypeError, T)
        | Some vlans' =>
            (inr tt,
             with_devices T
               (dset switch_id (set_property device "vlans" vlans')
                  (devices T)))
        end
  end.

(** [NetworkTopology.configure_stp] *)
Definition configure_stp (switch_id : string) (priority : Z) : Cfg := fun T =>
  match dget switch_id (devices T) with
  | None => (inl (ValueError (DeviceNotFound switch_id)), T)
  | Some device =>
      if negb (device_type device =? "switch")
      then (inl (ValueError (TypeMismatch switch_id)), T)
      else
        (inr tt,
         with_devices T
           (dset switch_id (set_property device "stp_priority" (VInt priority))
              (devices T)))
  end.

(** [x != 'l3'] for an optional stored value. *)
Definition is_l3 (v : option PyVal) : bool :=
  match v with
  | Some x => py_eq_str x "l3"
  | None => false
  end.

(** [NetworkTopology.configure_routing] *)
Definition configure_routing (switch_id dest_network next_hop : string)
  (metric : Z) : Cfg := fun T =>
  match dget switch_id (devices T) with
  | None => (inl (ValueError (DeviceNotFound switch_id)), T)
  | Some device =>
      if negb (device_type device =? "switch")
         || negb (is_l3 (get_property device "switch_type"))
      then (inl (ValueError (TypeMismatch switch_id)), T)
      else
        let routing_table :=
          match get_property device "routing_table" with
          | Some v => v
          | None => VDict []
          end in
        match py_setitem routing_table dest_network
                (VDict [("next_hop", VStr next_hop);
                        ("metric", VInt metric)]) with
        | None => (inl TypeError, T)
        | Some routing_table' =>
            (inr tt,
             with_devices T
               (dset switch_id
                  (set_property device "routing_table" routing_table')
                  (devices T)))
        end
  end.

(** An entry of a stored dictionary value. *)
Definition py_getitem (d : option PyVal) (key : string) : option PyVal :=
  match d with
  | Some (VDict items) => dget key items
  | _ => None
  end.

(* ===================================================================== *)
(** ** Reciprocity *)
(* ===================================================================== *)

(** Invariant 1 of the data model: a slot's peer points back. *)
Definition reciprocal (T : NetworkTopology) : Prop :=
  forall d i p pi,
    slot T d i = Some (Some (p, pi)) -> slot T p pi = Some (Some (d, i)).

(** Every connected slot has a record of its pair, in one orientation or
    the other. *)
Definition slots_recorded (T : NetworkTopology) : Prop :=
  forall d i p pi,
    slot T d i = Some (Some (p, pi)) ->
    In (d, i, p, pi) (connections T) \/ In (p, pi, d, i) (connections T).

(* ===================================================================== *)
(** ** Shapes used in statements *)
(* ===================================================================== *)

(** A lower-case hexadecimal digit. *)
Definition is_hex_digit (c : ascii) : bool :=
  let n := nat_of_ascii c in
  ((48 <=? n) && (n <=? 57) || (97 <=? n) && (n <=? 102))%nat.

(** Exactly two lower-case hexadecimal digits. *)
Definition two_hex_digits (s : string) : bool :=
  match s with
  | String a (String b EmptyString) => is_hex_digit a && is_hex_digit b
  | _ => false
  end.

(** The state a successful [disconnect_devices] leaves. *)
Definition disconnect_post (d1 i1 d2 i2 : string) (T : NetworkTopology)
  : NetworkTopology :=
  let T2 := set_slot d2 i2 None (set_slot d1 i1 None T) in
  if set_mem (d1, i1, d2, i2) (connections T2)
  then with_connections T2 (set_remove (d1, i1, d2, i2) (connections T2))
  else T2.

(** What the public operations keep true of a topology built from an
    empty one. *)
Definition sound (T : NetworkTopology) : Prop :=
  NoDup (dkeys (devices T)) /\ reciprocal T /\ slots_recorded T.

(** One pass of the loop of [remove_device]. *)
Definition remove_step (id : string) (e : string * option Peer) : M unit :=
  let '(intf, conn) := e in
  match conn with
  | Some (remote_device, remote_intf) =>
      disconnect_devices id intf remote_device remote_intf
  | None => ret tt
  end.

(* ===================================================================== *)
(** ** The line and mesh generators *)
(* ===================================================================== *)

(** The statements of [create_simple_network] after the topology is made:
    the same device and host loops as in the ring generator, then the
    switches connected in a line. *)
Definition simple_script (num_switches num_hosts : Z)
  (rng : nat -> nat * nat * nat) : M unit :=
  let switch_nums := seq 1 (Z.to_nat num_switches) in
  let host_nums := seq 1 (Z.to_nat num_hosts) in
  let switches := map switch_id switch_nums in
  let hosts := map host_id host_nums in
  for_each switch_nums (fun i => add_device (ring_switch i)) ;;;
  for_each host_nums (fun i => add_device (ring_host rng i)) ;;;
  (if (num_switches =? 0)%Z then raise ZeroDivisionError else ret tt) ;;;
  let hosts_per_switch := Z.max 1 (num_hosts / num_switches) in
  for_each (combine (seq 0 (List.length hosts)) hosts)
    (fun '(i, host) =>
       let switch_index :=
         Z.min (Z.of_nat i / hosts_per_switch) (num_switches - 1) in
       match py_index switches switch_index with
       | None => raise IndexError
       | Some switch => connect_available host switch
       end) ;;;
  for_each (seq 0 (Z.to_nat (Z.of_nat (List.length switches) - 1)))
    (fun i =>
       match py_index switches (Z.of_nat i),
             py_index switches (Z.of_nat i + 1) with
       | Some switch1, Some switch2 => connect_available switch1 switch2
       | _, _ => raise IndexError
       end).

(** [NetworkTopology.create_simple_network] *)
Definition create_simple_network (num_switches num_hosts : Z)
  (rng : nat -> nat * nat * nat) : Error + NetworkTopology :=
  built (simple_script num_switches num_hosts rng)
    (NetworkTopology_init "Simple Network").

(** The statements of [create_mesh_network] after the topology is made:
    the same device and host loops, then every pair of switches [i < j]. *)
Definition mesh_script (num_switches num_hosts : Z)
  (rng : nat -> nat * nat * nat) : M unit :=
  let switch_nums := seq 1 (Z.to_nat num_switches) in
  let host_nums := seq 1 (Z.to_nat num_hosts) in
  let switches := map switch_id switch_nums in
  let hosts := map host_id host_nums in
  for_each switch_nums (fun i => add_device (ring_switch i)) ;;;
  for_each host_nums (fun i => add_device (ring_host rng i)) ;;;
  (if (num_switches =? 0)%Z then raise ZeroDivisionError else ret tt) ;;;
  let hosts_per_switch := Z.max 1 (num_hosts / num_switches) in
  for_each (combine (seq 0 (List.length hosts)) hosts)
    (fun '(i, host) =>
       let switch_index :=
         Z.min (Z.of_nat i / hosts_per_switch) (num_switches - 1) in
       match py_index switches switch_index with
       | None => raise IndexError
       | Some switch => connect_available host switch
       end) ;;;
  for_each (seq 0 (Z.to_nat num_switches))
    (fun i =>
       for_each (seq (i + 1) (Z.to_nat num_switches - (i + 1)))
         (fun j =>
            match py_index switches (Z.of_nat i),
                  py_index switches (Z.of_nat j) with
            | Some switch1, Some switch2 => connect_available switch1 switch2
            | _, _ => raise IndexError
            end)).

(** [NetworkTopology.create_mesh_network] *)
Definition create_mesh_network (num_switches num_hosts : Z)
  (rng : nat -> nat * nat * nat) : Error + NetworkTopology :=
  built (mesh_script num_switches num_hosts rng)
    (NetworkTopology_init "Mesh Network").

(** The generators' devices under another topology name. *)
Definition named_base (nm : string) (N H : nat) (rng : nat -> nat * nat * nat)
  : NetworkTopology :=
  mkTopology nm (devices (ring_base N H rng)) [].

(** The calls of [connect_available] made by the line and mesh loops. *)
Definition line_pairs (n : Z) : list (string * string) :=
  map (fun i => (switch_id (i + 1), switch_id (i + 2)))
    (seq 0 (Z.to_nat n - 1)).

Definition mesh_pairs (n : Z) : list (string * string) :=
  flat_map
    (fun i => map (fun j => (switch_id (i + 1), switch_id (j + 1)))
                (seq (i + 1) (Z.to_nat n - (i + 1))))
    (seq 0 (Z.to_nat n)).

(** The topology under the name the ring generator gives it. *)
Definition as_ring (T : NetworkTopology) : NetworkTopology :=
  mkTopology "Ring Network" (devices T) (connections T).

(** Switch-to-switch pairs between different switches of the base. *)
Definition switch_pairs (N : nat) (pairs : list (string * string)) : Prop :=
  forall d1 d2, In (d1, d2) pairs ->
    exists a b, 1 <= a <= N /\ 1 <= b <= N /\ a <> b /\
                d1 = switch_id a /\ d2 = switch_id b.

(** Operations that only add: [add_device] of a device straight from its
    constructor, and [connect_devices]. *)
Definition grows (op : Op) : bool :=
  match op with
  | OpAddDevice d => standalone d
  | OpConnect _ _ _ _ => true
  | _ => false
  end.

(** What the generators keep true of the topology they build. *)
Definition well_built (T : NetworkTopology) : Prop :=
  reachable T /\ consistent T.

(* ===================================================================== *)
(** * Properties *)
(* ===================================================================== *)

(** ** Dictionaries *)

Lemma dget_dset_same {V} (k : string) (v : V) (d : dict V) :
  dget k (dset k v d) = Some v.
Proof.
  induction d as [|[k' v'] r IH]; simpl.
  - now rewrite String.eqb_refl.
  - destruct (k' =? k) eqn:E; simpl.
    + now rewrite String.eqb_refl.
    + now rewrite E.
Qed.

Lemma dget_dset_other {V} (k k' : string) (v : V) (d : dict V) :
  k <> k' -> dget k' (dset k v d) = dget k' d.
Proof.
  intros Hne. induction d as [|[k0 v0] r IH]; simpl.
  - apply String.eqb_neq in Hne. now rewrite Hne.
  - destruct (k0 =? k) eqn:E; simpl.
    + apply String.eqb_eq in E; subst k0.
      apply String.eqb_neq in Hne. now rewrite Hne.
    + now rewrite IH.
Qed.

Lemma dget_dset {V} (k k' : string) (v : V) (d : dict V) :
  dget k' (dset k v d) = if k =? k' then Some v else dget k' d.
Proof.
  destruct (String.eqb_spec k k') as [->|Hne].
  - apply dget_dset_same.
  - now apply dget_dset_other.
Qed.

Lemma dkeys_dset_present {V} (k : string) (v : V) (d : dict V) :
  dget k d <> None -> dkeys (dset k v d) = dkeys d.
Proof.
  induction d as [|[k0 v0] r IH]; simpl; intros H.
  - congruence.
  - destruct (k0 =? k) eqn:E; simpl.
    + apply String.eqb_eq in E. now subst.
    + f_equal. now apply IH.
Qed.

(** ** Slots *)

Lemma slot_set_slot (T : NetworkTopology) (d i : string) (v : option Peer)
  (d' i' : string) :
  dget d (devices T) <> None ->
  slot (set_slot d i v T) d' i' =
  if (d =? d') && (i =? i') then Some v else slot T d' i'.
Proof.
  intros Hd. unfold set_slot, slot.
  destruct (dget d (devices T)) as [dev|] eqn:E; [|congruence].
  simpl. rewrite dget_dset.
  destruct (String.eqb_spec d d') as [->|Hne]; simpl.
  - rewrite dget_dset, E. reflexivity.
  - reflexivity.
Qed.

Lemma devices_set_slot_get (T : NetworkTopology) (d i : string)
  (v : option Peer) (d' : string) :
  dget d' (devices (set_slot d i v T)) <> None <-> dget d' (devices T) <> None.
Proof.
  unfold set_slot. destruct (dget d (devices T)) as [dev|] eqn:E; [|tauto].
  simpl. rewrite dget_dset.
  destruct (String.eqb_spec d d') as [->|Hne]; [|tauto].
  rewrite E. split; congruence.
Qed.

Lemma connections_set_slot (T : NetworkTopology) (d i : string)
  (v : option Peer) :
  connections (set_slot d i v T) = connections T.
Proof.
  unfold set_slot. now destruct (dget d (devices T)).
Qed.

Lemma slot_some_device (T : NetworkTopology) (d i : string) c :
  slot T d i = Some c -> dget d (devices T) <> None.
Proof.
  unfold slot. destruct (dget d (devices T)); congruence.
Qed.

(** ** [connect_devices] *)

Lemma connect_devices_success (T : NetworkTopology) (d1 i1 d2 i2 : string) :
  slot T d1 i1 = Some None -> slot T d2 i2 = Some None ->
  connect_devices d1 i1 d2 i2 T = (inr tt, connect_post d1 i1 d2 i2 T).
Proof.
  unfold slot, connect_devices. intros H1 H2.
  destruct (dget d1 (devices T)) as [dev1|]; [|discriminate].
  destruct (dget d2 (devices T)) as [dev2|]; [|discriminate].
  now rewrite H1, H2.
Qed.

Lemma connect_devices_inv (T T' : NetworkTopology) (d1 i1 d2 i2 : string) :
  connect_devices d1 i1 d2 i2 T = (inr tt, T') ->
  slot T d1 i1 = Some None /\ slot T d2 i2 = Some None /\
  T' = connect_post d1 i1 d2 i2 T.
Proof.
  unfold slot, connect_devices.
  destruct (dget d1 (devices T)) as [dev1|]; [|discriminate].
  destruct (dget d2 (devices T)) as [dev2|]; [|discriminate].
  destruct (dget i1 (interfaces dev1)) as [[p1|]|]; try discriminate.
  all: destruct (dget i2 (interfaces dev2)) as [[p2|]|]; try discriminate.
  intros H. injection H as <-. auto.
Qed.

Lemma connect_devices_error_unchanged (T T' : NetworkTopology)
  (d1 i1 d2 i2 : string) (e : Error) :
  connect_devices d1 i1 d2 i2 T = (inl e, T') -> T' = T.
Proof.
  unfold connect_devices.
  destruct (dget d1 (devices T)) as [dev1|]; [|now intros [= _ <-]].
  destruct (dget d2 (devices T)) as [dev2|]; [|now intros [= _ <-]].
  destruct (dget i1 (interfaces dev1)) as [[p1|]|];
    destruct (dget i2 (interfaces dev2)) as [[p2|]|];
    intros H; try discriminate H; now injection H as _ <-.
Qed.

Lemma slot_connect_post (T : NetworkTopology) (d1 i1 d2 i2 d i : string) :
  dget d1 (devices T) <> None -> dget d2 (devices T) <> None ->
  slot (connect_post d1 i1 d2 i2 T) d i =
  if (d2 =? d) && (i2 =? i) then Some (Some (d1, i1))
  else if (d1 =? d) && (i1 =? i) then Some (Some (d2, i2))
  else slot T d i.
Proof.
  intros H1 H2. unfold connect_post.
  change (slot (with_connections ?X _) d i) with (slot X d i).
  rewrite slot_set_slot by now apply devices_set_slot_get.
  rewrite slot_set_slot by assumption. reflexivity.
Qed.

Lemma connections_connect_post (T : NetworkTopology) (d1 i1 d2 i2 : string) :
  connections (connect_post d1 i1 d2 i2 T) =
  set_add (d1, i1, d2, i2) (connections T).
Proof.
  unfold connect_post. simpl. now rewrite !connections_set_slot.
Qed.

Lemma conn_eqb_eq (a b : Conn) : conn_eqb a b = true <-> a = b.
Proof.
  destruct a as [[[a1 a2] a3] a4], b as [[[b1 b2] b3] b4]. simpl.
  rewrite !andb_true_iff, !String.eqb_eq. split.
  - intros [[[-> ->] ->] ->]. reflexivity.
  - intros [= -> -> -> ->]. auto.
Qed.

Lemma conn_eqb_refl (a : Conn) : conn_eqb a a = true.
Proof. now apply conn_eqb_eq. Qed.

Lemma set_mem_In (c : Conn) (s : list Conn) : set_mem c s = true <-> In c s.
Proof.
  unfold set_mem. rewrite existsb_exists. split.
  - intros [x [Hx E]]. apply conn_eqb_eq in E. now subst.
  - intros H. exists c. split; [assumption|apply conn_eqb_refl].
Qed.

Lemma In_set_add (c x : Conn) (s : list Conn) :
  In x (set_add c s) <-> x = c \/ In x s.
Proof.
  unfold set_add. destruct (set_mem c s) eqn:E.
  - apply set_mem_In in E. split; [auto|]. intros [->|H]; assumption.
  - rewrite in_app_iff. simpl. intuition congruence.
Qed.

(** ** Reachable topologies *)

Lemma reachable_run_ops (ops : list Op) :
  forall T T',
    reachable T -> Forall admissible ops ->
    run_ops ops T = (inr tt, T') -> reachable T'.
Proof.
  induction ops as [|op ops IH]; intros T T' HT Hadm Hrun.
  - injection Hrun as <-. assumption.
  - inversion Hadm as [|? ? Hop Hops]; subst.
    unfold run_ops in Hrun. simpl in Hrun. unfold bind in Hrun.
    destruct (run_op op T) as [[e|[]] T1] eqn:E; [discriminate|].
    eapply IH; [|eassumption|exact Hrun].
    eapply reach_step; eassumption.
Qed.

Lemma reachable_wired_pair : reachable wired_pair.
Proof.
  apply (@reachable_run_ops two_switch_ops (NetworkTopology_init "t")).
  - constructor.
  - repeat constructor.
  - reflexivity.
Qed.

Lemma reachable_after_reverse_disconnect : reachable after_reverse_disconnect.
Proof.
  apply reach_step with (T := wired_pair)
                        (op := OpDisconnect "B" "port1" "A" "port1").
  - exact reachable_wired_pair.
  - exact I.
  - reflexivity.
Qed.

(** ** Records left behind by [disconnect_devices] *)

(** C1 (fails on the code).  The topology reached by adding two switches,
    connecting A:port1 to B:port1 and disconnecting the pair with the
    endpoints given from B's side is reachable through successful public
    operations; its [connections] still holds the record
    (A, port1, B, port1) although both slots are empty, so records and slots
    are not consistent. *)
Theorem reachable_topology_with_stale_record :
  reachable after_reverse_disconnect /\
  In ("A", "port1", "B", "port1") (connections after_reverse_disconnect) /\
  slot after_reverse_disconnect "A" "port1" = Some None /\
  slot after_reverse_disconnect "B" "port1" = Some None /\
  ~ consistent after_reverse_disconnect.
Proof.
  split; [exact reachable_after_reverse_disconnect|].
  split; [simpl; auto|]. split; [reflexivity|]. split; [reflexivity|].
  intros [Hrec _].
  specialize (Hrec ("A", "port1", "B", "port1")).
  destruct Hrec as [H _]; [simpl; auto|]. discriminate H.
Qed.

(** C2 (fails on the code).  On the topology where A:port1 was connected to
    B:port1 in that order, [disconnect_devices("B","port1","A","port1")]
    succeeds and empties both slots, but the record of the pair stays in
    [connections]: the record is only looked up in the orientation of the
    disconnect call. *)
Theorem reverse_disconnect_keeps_record :
  disconnect_devices "B" "port1" "A" "port1" wired_pair
    = (inr tt, after_reverse_disconnect) /\
  slot after_reverse_disconnect "A" "port1" = Some None /\
  slot after_reverse_disconnect "B" "port1" = Some None /\
  matching_records after_reverse_disconnect "B" "port1" "A" "port1"
    = [("A", "port1", "B", "port1")].
Proof. repeat split. Qed.

(** C4 (fails on the code).  Removing B from the topology where A:port1 was
    connected to B:port1 succeeds, B is gone and no slot of A names it, but
    the record (A, port1, B, port1) is still in [connections]:
    [remove_device] disconnects from the removed device's side. *)
Theorem remove_device_keeps_record :
  remove_device "B" wired_pair = (inr tt, after_remove_B) /\
  dget "B" (devices after_remove_B) = None /\
  slot after_remove_B "A" "port1" = Some None /\
  filter (references "B") (connections after_remove_B)
    = [("A", "port1", "B", "port1")].
Proof. repeat split. Qed.

(** C7 (fails on the code).  After the connect and the reversed disconnect
    above, [connect_devices("B","port1","A","port1")] succeeds and sets both
    slots, and [connections] then holds two records for the one unordered
    pair: the one left behind and the new one. *)
Theorem reconnect_yields_two_records :
  connect_devices "B" "port1" "A" "port1" after_reverse_disconnect
    = (inr tt, reconnected_reversed) /\
  slot reconnected_reversed "B" "port1" = Some (Some ("A", "port1")) /\
  slot reconnected_reversed "A" "port1" = Some (Some ("B", "port1")) /\
  matching_records reconnected_reversed "B" "port1" "A" "port1"
    = [("A", "port1", "B", "port1"); ("B", "port1", "A", "port1")].
Proof. repeat split. Qed.

(** ** Failing and same-device calls of [connect_devices] *)

(** C8, as stated, fails: A:port1 is occupied, yet connecting it to an
    interface of a device that is not in the topology is reported as a
    missing device, not as an interface that is already connected. *)
Lemma connect_occupied_to_missing_device :
  occupied wired_pair "A" "port1" /\
  connect_devices "A" "port1" "Z" "port1" wired_pair
    = (inl (DeviceNotFound "Z"), wired_pair).
Proof.
  split; [|reflexivity]. exists ("B", "port1"). reflexivity.
Qed.

(** C8 (amended).  A failing [connect_devices] leaves the topology, and so
    its [to_dict] document, unchanged whatever the reason of the failure;
    and when both devices and both interfaces exist and one of the two
    slots is occupied, the failure is InterfaceAlreadyConnected. *)
Theorem connect_devices_failure_unchanged
  (T : NetworkTopology) (d1 i1 d2 i2 : string) :
  (forall e T', connect_devices d1 i1 d2 i2 T = (inl e, T') ->
                T' = T /\ to_dict T' = to_dict T) /\
  (forall c1 c2,
      slot T d1 i1 = Some c1 -> slot T d2 i2 = Some c2 ->
      c1 <> None \/ c2 <> None ->
      exists d i,
        connect_devices d1 i1 d2 i2 T = (inl (InterfaceAlreadyConnected d i), T)).
Proof.
  split.
  - intros e T' H. apply connect_devices_error_unchanged in H. now subst.
  - intros c1 c2 H1 H2 Hocc. unfold slot in H1, H2. unfold connect_devices.
    destruct (dget d1 (devices T)) as [dev1|]; [|discriminate].
    destruct (dget d2 (devices T)) as [dev2|]; [|discriminate].
    rewrite H1, H2.
    destruct c1 as [p1|].
    + exists d1, i1. reflexivity.
    + destruct c2 as [p2|].
      * exists d2, i2. reflexivity.
      * destruct Hocc; congruence.
Qed.

Lemma connect_devices_failure_unchanged_witness :
  exists d i,
    connect_devices "A" "port2" "B" "port1" wired_pair
      = (inl (InterfaceAlreadyConnected d i), wired_pair).
Proof.
  apply (proj2 (connect_devices_failure_unchanged wired_pair
                  "A" "port2" "B" "port1") None (Some ("A", "port1"))).
  - reflexivity.
  - reflexivity.
  - right. discriminate.
Defined.

(** C9.  [connect_devices] accepts two endpoints on one device: when [i]
    and [j] are empty interfaces of [d] (the same interface or two
    different ones) the call succeeds, slot [i] then holds [(d, j)] and slot
    [j] holds [(d, i)], and the record [(d, i, d, j)] is in [connections];
    for [j = i] this is an interface connected to itself and a self-loop
    record. *)
Theorem connect_devices_same_device
  (T : NetworkTopology) (d i j : string) :
  slot T d i = Some None -> slot T d j = Some None ->
  exists T',
    connect_devices d i d j T = (inr tt, T') /\
    slot T' d i = Some (Some (d, j)) /\
    slot T' d j = Some (Some (d, i)) /\
    connections T' = set_add (d, i, d, j) (connections T) /\
    In (d, i, d, j) (connections T').
Proof.
  intros Hi Hj. exists (connect_post d i d j T).
  pose proof (slot_some_device _ _ _ _ Hi) as Hd.
  split; [now apply connect_devices_success|].
  rewrite !slot_connect_post by assumption.
  rewrite connections_connect_post, !String.eqb_refl. simpl.
  repeat split.
  - destruct (String.eqb_spec j i) as [->|Hne]; reflexivity.
  - apply In_set_add. now left.
Qed.

Lemma connect_devices_same_device_witness :
  (exists T',
      connect_devices "A" "port2" "A" "port2" wired_pair = (inr tt, T') /\
      slot T' "A" "port2" = Some (Some ("A", "port2")) /\
      slot T' "A" "port2" = Some (Some ("A", "port2")) /\
      connections T' = set_add ("A", "port2", "A", "port2")
                         (connections wired_pair) /\
      In ("A", "port2", "A", "port2") (connections T')).
Proof.
  apply (connect_devices_same_device wired_pair "A" "port2" "port2");
    reflexivity.
Defined.

(** ** Frames *)

Lemma same_shape_refl (a : NetworkDevice) : same_shape a a.
Proof. repeat split. Qed.

Lemma same_shape_trans (a b c : NetworkDevice) :
  same_shape a b -> same_shape b c -> same_shape a c.
Proof.
  unfold same_shape. intros (A1 & A2 & A3 & A4 & A5) (B1 & B2 & B3 & B4 & B5).
  repeat split; congruence.
Qed.

Lemma dev_frame_refl (T : NetworkTopology) : dev_frame T T.
Proof.
  repeat split. intros d. destruct (dget d (devices T)); [|exact I].
  apply same_shape_refl.
Qed.

Lemma dev_frame_trans (T1 T2 T3 : NetworkTopology) :
  dev_frame T1 T2 -> dev_frame T2 T3 -> dev_frame T1 T3.
Proof.
  intros (N1 & K1 & F1) (N2 & K2 & F2). repeat split; try congruence.
  intros d. specialize (F1 d). specialize (F2 d).
  destruct (dget d (devices T1)), (dget d (devices T2)),
    (dget d (devices T3)); try tauto.
  eapply same_shape_trans; eassumption.
Qed.

Lemma dev_frame_mem (T T' : NetworkTopology) (d : string) :
  dev_frame T T' ->
  (dget d (devices T') = None <-> dget d (devices T) = None).
Proof.
  intros (_ & _ & F). specialize (F d).
  destruct (dget d (devices T)), (dget d (devices T')); try tauto.
  split; discriminate.
Qed.

Lemma dev_frame_set_slot (T : NetworkTopology) (d i : string)
  (v : option Peer) :
  slot T d i <> None -> dev_frame T (set_slot d i v T).
Proof.
  unfold slot, set_slot. intros H.
  destruct (dget d (devices T)) as [dev|] eqn:E; [|congruence].
  repeat split; simpl.
  - apply dkeys_dset_present. congruence.
  - intros d'. rewrite dget_dset.
    destruct (String.eqb_spec d d') as [<-|Hne].
    + rewrite E. repeat split. simpl. now apply dkeys_dset_present.
    + destruct (dget d' (devices T)); [apply same_shape_refl|exact I].
Qed.

Lemma dev_frame_with_connections (T : NetworkTopology) (cs : list Conn) :
  dev_frame T (with_connections T cs).
Proof.
  repeat split. intros d. simpl.
  destruct (dget d (devices T)); [apply same_shape_refl|exact I].
Qed.

Lemma dev_frame_connect_post (T : NetworkTopology) (d1 i1 d2 i2 : string) :
  slot T d1 i1 <> None -> slot T d2 i2 <> None ->
  dev_frame T (connect_post d1 i1 d2 i2 T).
Proof.
  intros H1 H2. unfold connect_post.
  eapply dev_frame_trans; [|apply dev_frame_with_connections].
  eapply dev_frame_trans; [apply dev_frame_set_slot; exact H1|].
  apply dev_frame_set_slot.
  rewrite slot_set_slot.
  - destruct ((d1 =? d2) && (i1 =? i2)); [discriminate|assumption].
  - unfold slot in H1. destruct (dget d1 (devices T)); congruence.
Qed.

Lemma dev_frame_connect_devices (T T' : NetworkTopology)
  (d1 i1 d2 i2 : string) r :
  connect_devices d1 i1 d2 i2 T = (r, T') -> dev_frame T T'.
Proof.
  destruct r as [e|[]]; intros H.
  - apply connect_devices_error_unchanged in H. subst. apply dev_frame_refl.
  - apply connect_devices_inv in H. destruct H as (H1 & H2 & ->).
    apply dev_frame_connect_post; congruence.
Qed.

(** ** Loops *)

Lemma for_each_app {A} (xs ys : list A) (body : A -> M unit) (T : NetworkTopology) :
  for_each (xs ++ ys) body T = (for_each xs body ;;; for_each ys body) T.
Proof.
  revert T. induction xs as [|x xs IH]; intros T; simpl; unfold bind in *.
  - reflexivity.
  - destruct (body x T) as [[e|[]] T1]; [reflexivity|]. now rewrite IH.
Qed.

Lemma for_each_frame {A} (R : NetworkTopology -> NetworkTopology -> Prop)
  (body : A -> M unit) :
  (forall T, R T T) ->
  (forall T1 T2 T3, R T1 T2 -> R T2 T3 -> R T1 T3) ->
  forall xs,
  (forall x T r T', In x xs -> body x T = (r, T') -> R T T') ->
  forall T r T', for_each xs body T = (r, T') -> R T T'.
Proof.
  intros Hrefl Htrans xs. induction xs as [|x xs IH]; intros Hbody T r T' H.
  - injection H as _ <-. apply Hrefl.
  - simpl in H. unfold bind in H.
    destruct (body x T) as [[e|[]] T1] eqn:E.
    + injection H as _ <-. eapply Hbody; [now left|exact E].
    + eapply Htrans.
      * eapply Hbody; [now left|exact E].
      * eapply IH; [|exact H]. intros; eapply Hbody; [right|]; eassumption.
Qed.

Lemma dev_frame_load_connections (cs : list Conn) (T T' : NetworkTopology) r :
  load_connections cs T = (r, T') -> dev_frame T T'.
Proof.
  unfold load_connections.
  apply for_each_frame with (R := dev_frame);
    [apply dev_frame_refl|apply dev_frame_trans|].
  intros [[[d1 i1] d2] i2] T0 r0 T0' _ H.
  eapply dev_frame_connect_devices; exact H.
Qed.

(** ** More on dictionaries *)

Lemma dget_None_iff {V} (k : string) (d : dict V) :
  dget k d = None <-> ~ In k (dkeys d).
Proof.
  induction d as [|[k' v] r IH]; simpl.
  - tauto.
  - destruct (String.eqb_spec k' k) as [->|Hne].
    + split; [discriminate|]. intros H. exfalso. apply H. now left.
    + rewrite IH. tauto.
Qed.

Lemma dget_Some_In {V} (k : string) (v : V) (d : dict V) :
  dget k d = Some v -> In (k, v) d.
Proof.
  induction d as [|[k' v'] r IH]; simpl; [discriminate|].
  destruct (String.eqb_spec k' k) as [->|Hne].
  - intros [= ->]. now left.
  - intros H. right. now apply IH.
Qed.

Lemma In_dget_NoDup {V} (k : string) (v : V) (d : dict V) :
  NoDup (dkeys d) -> In (k, v) d -> dget k d = Some v.
Proof.
  induction d as [|[k' v'] r IH]; simpl; [tauto|].
  intros Hnd [H|H].
  - injection H as -> ->. now rewrite String.eqb_refl.
  - inversion Hnd as [|? ? Hnotin Hnd']; subst.
    destruct (String.eqb_spec k' k) as [->|Hne].
    + exfalso. apply Hnotin. change k with (fst (k, v)). now apply in_map.
    + now apply IH.
Qed.

Lemma dset_absent {V} (k : string) (v : V) (d : dict V) :
  dget k d = None -> dset k v d = (d ++ [(k, v)])%list.
Proof.
  induction d as [|[k' v'] r IH]; simpl; [reflexivity|].
  destruct (k' =? k); [discriminate|]. intros H. now rewrite IH.
Qed.

Lemma dget_app {V} (k : string) (a b : dict V) :
  dget k (a ++ b)%list =
  match dget k a with Some v => Some v | None => dget k b end.
Proof.
  induction a as [|[k' v'] r IH]; simpl; [reflexivity|].
  now destruct (k' =? k).
Qed.

Lemma dget_single {V} (k k' : string) (v : V) :
  dget k [(k', v)] = if k' =? k then Some v else None.
Proof. reflexivity. Qed.

Lemma dkeys_app {V} (a b : dict V) :
  dkeys (a ++ b)%list = (dkeys a ++ dkeys b)%list.
Proof. apply map_app. Qed.

Lemma dict_ext {V} (a b : dict V) :
  dkeys a = dkeys b -> NoDup (dkeys a) ->
  (forall k, dget k a = dget k b) -> a = b.
Proof.
  revert b. induction a as [|[k v] r IH]; intros [|[k' v'] r'] Hk Hnd Hget;
    try discriminate Hk; [reflexivity|].
  simpl in Hk. injection Hk as <- Hk.
  inversion Hnd as [|? ? Hnotin Hnd']; subst.
  pose proof (Hget k) as H0. simpl in H0. rewrite String.eqb_refl in H0.
  injection H0 as <-. f_equal.
  apply IH; [assumption|assumption|].
  intros k0. specialize (Hget k0). simpl in Hget.
  destruct (String.eqb_spec k k0) as [E|Hne]; [subst k0|assumption].
  transitivity (@None V).
  - now apply dget_None_iff.
  - symmetry. apply dget_None_iff. now rewrite <- Hk.
Qed.

(** ** Decimal names *)

Lemma str_inj (a b : nat) : str a = str b -> a = b.
Proof.
  unfold str. intros H.
  apply DecimalNat.Unsigned.to_uint_inj.
  assert (Some (Nat.to_uint a) = Some (Nat.to_uint b)) as E.
  { rewrite <- !DecimalString.NilEmpty.usu. now rewrite H. }
  now injection E.
Qed.

Lemma port_inj (a b : nat) : port a = port b -> a = b.
Proof. unfold port. simpl. intros [= H]. now apply str_inj. Qed.

Lemma switch_id_inj (a b : nat) : switch_id a = switch_id b -> a = b.
Proof. unfold switch_id. simpl. intros [= H]. now apply str_inj. Qed.

Lemma host_id_inj (a b : nat) : host_id a = host_id b -> a = b.
Proof. unfold host_id. simpl. intros [= H]. now apply str_inj. Qed.

Lemma switch_id_not_host_id (a b : nat) : switch_id a <> host_id b.
Proof. unfold switch_id, host_id. simpl. discriminate. Qed.

(** ** Constructors *)

Lemma add_interface_fields (d : NetworkDevice) (n : string) :
  device_id (add_interface d n) = device_id d /\
  device_type (add_interface d n) = device_type d /\
  name (add_interface d n) = name d /\
  properties (add_interface d n) = properties d.
Proof. unfold add_interface. now destruct (dmem n (interfaces d)). Qed.

Lemma add_interface_new (d : NetworkDevice) (n : string) :
  dget n (interfaces d) = None ->
  interfaces (add_interface d n) = (interfaces d ++ [(n, None)])%list.
Proof.
  intros H. unfold add_interface, dmem. rewrite H. simpl.
  now apply dset_absent.
Qed.

Lemma add_ports_spec (l : list nat) :
  forall d,
    NoDup l -> (forall i, In i l -> dget (port i) (interfaces d) = None) ->
    let d' := fold_left (fun d i => add_interface d (port i)) l d in
    device_id d' = device_id d /\ device_type d' = device_type d /\
    name d' = name d /\ properties d' = properties d /\
    interfaces d' = (interfaces d ++ fresh_interfaces (map port l))%list.
Proof.
  induction l as [|i l IH]; intros d Hnd Hfree; simpl.
  - unfold fresh_interfaces. simpl. now rewrite app_nil_r.
  - inversion Hnd as [|? ? Hnotin Hnd']; subst.
    pose proof (add_interface_fields d (port i)) as (F1 & F2 & F3 & F4).
    pose proof (@add_interface_new d (port i) (Hfree i (or_introl eq_refl)))
      as Hifs.
    destruct (IH (add_interface d (port i)) Hnd') as (G1 & G2 & G3 & G4 & G5).
    { intros j Hj. rewrite Hifs, dget_app, (Hfree j (or_intror Hj)).
      rewrite dget_single.
      destruct (String.eqb_spec (port i) (port j)) as [E|_]; [|reflexivity].
      apply port_inj in E. subst. contradiction. }
    repeat split; try congruence.
    rewrite G5, Hifs, <- app_assoc. reflexivity.
Qed.

Lemma Switch_spec (id : string) (nm : option string) (n : nat) (st : PyVal) :
  Switch id nm n st =
  mkDevice id "switch" (name_or nm id) (fresh_interfaces (map port (seq 1 n)))
    (switch_defaults n st).
Proof.
  unfold Switch, switch_defaults.
  destruct (@add_ports_spec (seq 1 n) (NetworkDevice_init id "switch" nm))
    as (F1 & F2 & F3 & F4 & F5).
  { apply seq_NoDup. }
  { reflexivity. }
  fold port in *.
  change (fun d i => add_interface d ("port" ++ str i))
    with (fun d i => add_interface d (port i)).
  destruct (fold_left _ (seq 1 n) _) as [a b c ifs ps].
  simpl in F1, F2, F3, F4, F5. subst.
  unfold set_property, with_properties, dkeys, fresh_interfaces. simpl.
  rewrite !map_map. simpl.
  destruct (py_eq_str st "l3"); reflexivity.
Qed.

Lemma Host_spec (id : string) (nm : option string) (ip : PyVal)
  (rnd : nat * nat * nat) :
  Host id nm ip rnd =
  mkDevice id "host" (name_or nm id) (fresh_interfaces ["eth0"])
    (host_defaults ip rnd).
Proof.
  unfold Host, host_defaults. destruct (py_truthy ip); reflexivity.
Qed.

Lemma replay_properties_fields (ps : dict PyVal) :
  forall d,
    device_id (replay_properties ps d) = device_id d /\
    device_type (replay_properties ps d) = device_type d /\
    name (replay_properties ps d) = name d /\
    interfaces (replay_properties ps d) = interfaces d.
Proof.
  unfold replay_properties.
  induction ps as [|[k v] r IH]; intros d; simpl; [auto|].
  destruct (IH (set_property d k v)) as (A & B & C & D). auto.
Qed.

Lemma replay_properties_get (ps : dict PyVal) (k : string) :
  NoDup (dkeys ps) ->
  forall d,
    dget k (properties (replay_properties ps d)) =
    match dget k ps with
    | Some v => Some v
    | None => dget k (properties d)
    end.
Proof.
  unfold replay_properties.
  induction ps as [|[k0 v0] r IH]; intros Hnd d; simpl; [reflexivity|].
  inversion Hnd as [|? ? Hnotin Hnd']; subst.
  rewrite IH by assumption. simpl. rewrite dget_dset.
  destruct (String.eqb_spec k0 k) as [->|Hne]; [|reflexivity].
  apply dget_None_iff in Hnotin. now rewrite Hnotin.
Qed.

Lemma load_device_id (id : string) (dd : DeviceData) rnd (dev : NetworkDevice) :
  load_device id dd rnd = Some dev -> device_id dev = id.
Proof.
  unfold load_device.
  destruct (dd_type dd =? "switch").
  - intros [= <-].
    destruct (replay_properties_fields (dd_properties dd)
                (Switch id (Some (dd_name dd)) (List.length (dd_interfaces dd))
                   match dget "switch_type" (dd_properties dd) with
                   | Some v => v
                   | None => VStr "l2"
                   end)) as (A & _).
    rewrite A, Switch_spec. reflexivity.
  - destruct (dd_type dd =? "host"); [|discriminate].
    intros [= <-].
    destruct (replay_properties_fields (dd_properties dd)
                (Host id (Some (dd_name dd))
                   match dget "ip_address" (dd_properties dd) with
                   | Some v => v
                   | None => VNone
                   end rnd)) as (A & _).
    rewrite A, Host_spec. reflexivity.
Qed.

Lemma add_device_new (dev : NetworkDevice) (T : NetworkTopology) :
  dget (device_id dev) (devices T) = None ->
  add_device dev T =
  (inr tt, with_devices T (devices T ++ [(device_id dev, dev)])%list).
Proof.
  intros H. unfold add_device, dmem. rewrite H.
  now rewrite dset_absent.
Qed.

Lemma load_devices_from (rng : nat -> nat * nat * nat) (ds : dict DeviceData) :
  forall k T,
    NoDup (dkeys ds) ->
    (forall id, In id (dkeys ds) -> dget id (devices T) = None) ->
    for_each (combine (seq k (List.length ds)) ds)
      (fun '(k, (id, device_data)) =>
         match load_device id device_data (rng k) with
         | Some device => add_device device
         | None => ret tt
         end) T
    = (inr tt, with_devices T (devices T ++ loaded_devices k ds rng)%list).
Proof.
  induction ds as [|[id dd] r IH]; intros k T Hnd Hfree; simpl.
  - rewrite app_nil_r. now destruct T.
  - inversion Hnd as [|? ? Hnotin Hnd']; subst. unfold bind.
    destruct (load_device id dd (rng k)) as [dev|] eqn:E.
    + pose proof (load_device_id _ _ _ _ E) as Hid.
      rewrite add_device_new by (rewrite Hid; apply Hfree; now left).
      rewrite IH; [|assumption|].
      * simpl. rewrite Hid, <- app_assoc. reflexivity.
      * intros id' Hin. simpl. rewrite dget_app, (Hfree id' (or_intror Hin)).
        rewrite Hid, dget_single.
        destruct (String.eqb_spec id id') as [->|_]; [contradiction|reflexivity].
    + unfold ret. apply IH; [assumption|].
      intros id' Hin. apply Hfree. now right.
Qed.

Lemma load_devices_spec (rng : nat -> nat * nat * nat) (ds : dict DeviceData)
  (nm : string) :
  NoDup (dkeys ds) ->
  load_devices ds rng (NetworkTopology_init nm)
  = (inr tt, mkTopology nm (loaded_devices 0 ds rng) []).
Proof.
  intros Hnd. unfold load_devices.
  rewrite load_devices_from; [reflexivity|assumption|reflexivity].
Qed.

(** ** Loading *)

Lemma loaded_devices_keys (rng : nat -> nat * nat * nat) (ds : dict DeviceData)
  (id : string) :
  forall k, In id (dkeys (loaded_devices k ds rng)) -> In id (dkeys ds).
Proof.
  induction ds as [|[id0 dd0] r IH]; intros k; simpl; [tauto|].
  destruct (load_device id0 dd0 (rng k)); simpl.
  - intros [H|H]; [now left|right; eapply IH; exact H].
  - intros H. right. eapply IH; exact H.
Qed.

Lemma load_device_unknown_type (id : string) (dd : DeviceData) rnd :
  dd_type dd <> "switch" -> dd_type dd <> "host" ->
  load_device id dd rnd = None.
Proof.
  intros H1 H2. unfold load_device.
  apply String.eqb_neq in H1, H2. now rewrite H1, H2.
Qed.

Lemma loaded_devices_skips (rng : nat -> nat * nat * nat) (ds : dict DeviceData)
  (id : string) (dd : DeviceData) :
  NoDup (dkeys ds) -> In (id, dd) ds ->
  dd_type dd <> "switch" -> dd_type dd <> "host" ->
  forall k, dget id (loaded_devices k ds rng) = None.
Proof.
  intros Hnd Hin H1 H2.
  induction ds as [|[id0 dd0] r IH]; intros k; simpl; [reflexivity|].
  inversion Hnd as [|? ? Hnotin Hnd']; subst.
  destruct Hin as [E|Hin].
  - injection E as -> ->.
    rewrite load_device_unknown_type by assumption.
    apply dget_None_iff. intros H. apply Hnotin.
    eapply loaded_devices_keys; exact H.
  - assert (id0 <> id) as Hne.
    { intros ->. apply Hnotin. change id with (fst (id, dd)).
      now apply in_map. }
    destruct (load_device id0 dd0 (rng k)); simpl.
    + apply String.eqb_neq in Hne. rewrite Hne. now apply IH.
    + now apply IH.
Qed.

Lemma connect_devices_missing (T : NetworkTopology) (d1 i1 d2 i2 : string) :
  dget d1 (devices T) = None \/ dget d2 (devices T) = None ->
  exists x,
    connect_devices d1 i1 d2 i2 T = (inl (DeviceNotFound x), T) /\
    (x = d1 \/ x = d2).
Proof.
  intros H. unfold connect_devices.
  destruct (dget d1 (devices T)) as [dev1|].
  - destruct H as [H|H]; [discriminate|]. rewrite H. eauto.
  - eauto.
Qed.

Lemma load_from_file_unfold (data : Document) (rng : nat -> nat * nat * nat) :
  NoDup (dkeys (doc_devices data)) ->
  load_from_file data rng =
  built (load_connections (doc_connections data))
    (mkTopology
       (match doc_name data with Some n => n | None => "Loaded Topology" end)
       (loaded_devices 0 (doc_devices data) rng) []).
Proof.
  intros Hnd. unfold load_from_file, built, bind.
  now rewrite load_devices_spec.
Qed.

(** C10.  In a document whose device keys are distinct, an entry whose
    type is neither 'switch' nor 'host' is passed over without an error:
    the device loop succeeds and the topology has no device under that id,
    and so has every topology a load returns; and when the records before
    one that names the skipped id all connect, the load fails at that
    record with DeviceNotFound. *)
Theorem load_skips_unknown_device_type
  (data : Document) (rng : nat -> nat * nat * nat)
  (id : string) (dd : DeviceData) :
  NoDup (dkeys (doc_devices data)) ->
  In (id, dd) (doc_devices data) ->
  dd_type dd <> "switch" -> dd_type dd <> "host" ->
  (exists T0,
      load_from_file (doc_with_connections data []) rng = inr T0 /\
      dget id (devices T0) = None) /\
  (forall T, load_from_file data rng = inr T -> dget id (devices T) = None) /\
  (forall (pre : list Conn) d1 i1 d2 i2 (post : list Conn) T1,
      doc_connections data = (pre ++ (d1, i1, d2, i2) :: post)%list ->
      d1 = id \/ d2 = id ->
      load_from_file (doc_with_connections data pre) rng = inr T1 ->
      exists x,
        load_from_file data rng = inl (DeviceNotFound x) /\
        (x = d1 \/ x = d2)).
Proof.
  intros Hnd Hin Hty1 Hty2.
  pose proof (loaded_devices_skips rng _ _ _ Hnd Hin Hty1 Hty2 0) as Hskip.
  split; [|split].
  - eexists. split.
    + rewrite load_from_file_unfold by exact Hnd. reflexivity.
    + exact Hskip.
  - intros T. rewrite load_from_file_unfold by exact Hnd. unfold built.
    destruct (load_connections _ _) as [[e|[]] T'] eqn:E; [discriminate|].
    intros [= <-]. apply dev_frame_load_connections in E.
    now apply (dev_frame_mem _ _ id E).
  - intros pre d1 i1 d2 i2 post T1 Hcs Hd.
    rewrite !load_from_file_unfold by exact Hnd. simpl. rewrite Hcs.
    unfold built, load_connections. rewrite for_each_app. unfold bind.
    match goal with
    | |- context [@for_each ?A pre ?f ?T0] =>
        destruct (@for_each A pre f T0) as [[e|[]] T'] eqn:E;
        [simpl; intros H; discriminate H|]
    end.
    intros [= <-]. simpl. unfold bind.
    assert (dget id (devices T') = None) as Hid.
    { apply for_each_frame with (R := dev_frame) in E.
      - now apply (dev_frame_mem _ _ id E).
      - apply dev_frame_refl.
      - apply dev_frame_trans.
      - intros [[[a b] c] d] T0 r0 T0' _ H.
        eapply dev_frame_connect_devices; exact H. }
    destruct (@connect_devices_missing T' d1 i1 d2 i2) as (x & Hx & Hor).
    { destruct Hd as [->| ->]; auto. }
    rewrite Hx. exists x. auto.
Qed.

Lemma load_skips_unknown_device_type_witness :
  (exists T0,
      load_from_file (doc_with_connections router_document []) fixed_rng
        = inr T0 /\
      dget "r1" (devices T0) = None) /\
  (forall T, load_from_file router_document fixed_rng = inr T ->
             dget "r1" (devices T) = None) /\
  (forall (pre : list Conn) d1 i1 d2 i2 (post : list Conn) T1,
      doc_connections router_document = (pre ++ (d1, i1, d2, i2) :: post)%list ->
      d1 = "r1" \/ d2 = "r1" ->
      load_from_file (doc_with_connections router_document pre) fixed_rng
        = inr T1 ->
      exists x,
        load_from_file router_document fixed_rng = inl (DeviceNotFound x) /\
        (x = d1 \/ x = d2)).
Proof.
  apply (@load_skips_unknown_device_type router_document fixed_rng
           "r1" router_entry).
  - repeat constructor; simpl; intuition discriminate.
  - simpl. auto.
  - discriminate.
  - discriminate.
Defined.

(** ** Replaying connection records *)

Lemma endpoint_eqb (d i d' i' : string) :
  (d' =? d) && (i' =? i) = true <-> d = d' /\ i = i'.
Proof.
  rewrite andb_true_iff, !String.eqb_eq. intuition congruence.
Qed.

Lemma endpoint_eqb_false (d i d' i' : string) :
  ~ (d = d' /\ i = i') -> (d' =? d) && (i' =? i) = false.
Proof.
  intros H. destruct ((d' =? d) && (i' =? i)) eqn:E; [|reflexivity].
  apply endpoint_eqb in E. contradiction.
Qed.

Lemma share_endpoint_refl (c : Conn) : share_endpoint c c.
Proof.
  destruct c as [[[d1 i1] d2] i2]. exists d1, i1. simpl. auto.
Qed.

Lemma slot_connect_post_other (T : NetworkTopology) (d1 i1 d2 i2 d i : string) :
  slot T d1 i1 <> None -> slot T d2 i2 <> None ->
  ~ is_endpoint d i (d1, i1, d2, i2) ->
  slot (connect_post d1 i1 d2 i2 T) d i = slot T d i.
Proof.
  intros H1 H2 Hne. simpl in Hne.
  rewrite slot_connect_post.
  - rewrite !endpoint_eqb_false by tauto. reflexivity.
  - unfold slot in H1. destruct (dget d1 (devices T)); congruence.
  - unfold slot in H2. destruct (dget d2 (devices T)); congruence.
Qed.

Lemma slot_connect_post_ends (T : NetworkTopology) (d1 i1 d2 i2 : string) :
  slot T d1 i1 <> None -> slot T d2 i2 <> None ->
  slot (connect_post d1 i1 d2 i2 T) d1 i1 = Some (Some (d2, i2)) /\
  slot (connect_post d1 i1 d2 i2 T) d2 i2 = Some (Some (d1, i1)).
Proof.
  intros H1 H2.
  assert (dget d1 (devices T) <> None) as A1
    by (unfold slot in H1; destruct (dget d1 (devices T)); congruence).
  assert (dget d2 (devices T) <> None) as A2
    by (unfold slot in H2; destruct (dget d2 (devices T)); congruence).
  rewrite !slot_connect_post by assumption.
  rewrite !String.eqb_refl. simpl. split; [|reflexivity].
  destruct ((d2 =? d1) && (i2 =? i1)) eqn:E; [|reflexivity].
  apply endpoint_eqb in E. destruct E as [-> ->]. reflexivity.
Qed.

Lemma set_add_new (c : Conn) (s : list Conn) :
  ~ In c s -> set_add c s = (s ++ [c])%list.
Proof.
  intros H. unfold set_add.
  destruct (set_mem c s) eqn:E; [|reflexivity].
  apply set_mem_In in E. contradiction.
Qed.

Lemma replay_connections (cs : list Conn) :
  forall T,
    endpoints_free T cs -> pairwise_disjoint cs ->
    (forall c, In c cs -> ~ In c (connections T)) ->
    exists T',
      load_connections cs T = (inr tt, T') /\
      dev_frame T T' /\
      connections T' = (connections T ++ cs)%list /\
      (forall d1 i1 d2 i2,
          In (d1, i1, d2, i2) cs ->
          slot T' d1 i1 = Some (Some (d2, i2)) /\
          slot T' d2 i2 = Some (Some (d1, i1))) /\
      (forall d i, (forall c, In c cs -> ~ is_endpoint d i c) ->
                   slot T' d i = slot T d i).
Proof.
  induction cs as [|c r IH]; intros T Hfree Hdisj Hnew.
  - exists T. repeat split.
    + apply dev_frame_refl.
    + now rewrite app_nil_r.
    + contradiction.
    + contradiction.
  - destruct c as [[[d1 i1] d2] i2]. destruct Hdisj as [Hhead Hdisj].
    destruct (Hfree d1 i1 d2 i2 (or_introl eq_refl)) as [F1 F2].
    assert (slot T d1 i1 <> None) as N1 by congruence.
    assert (slot T d2 i2 <> None) as N2 by congruence.
    set (T1 := connect_post d1 i1 d2 i2 T).
    assert (forall c', In c' r -> forall d i,
               is_endpoint d i c' -> ~ is_endpoint d i (d1, i1, d2, i2)) as Hsep.
    { intros c' Hin d i He Hc. apply (Hhead c' Hin). exists d, i. auto. }
    destruct (IH T1) as (T' & Hrun & Hframe & Hconn & Hends & Hother).
    { intros e1 j1 e2 j2 Hin. destruct (Hfree e1 j1 e2 j2 (or_intror Hin)) as [G1 G2].
      unfold T1. rewrite !slot_connect_post_other; auto.
      - apply (Hsep _ Hin). simpl. auto.
      - apply (Hsep _ Hin). simpl. auto. }
    { exact Hdisj. }
    { intros c' Hin. unfold T1. rewrite connections_connect_post.
      rewrite In_set_add. intros [->|H].
      - apply (Hhead _ Hin). apply share_endpoint_refl.
      - apply (Hnew c' (or_intror Hin) H). }
    exists T'. split; [|split; [|split; [|split]]].
    + unfold load_connections in *. simpl. unfold bind.
      rewrite connect_devices_success by assumption. exact Hrun.
    + eapply dev_frame_trans; [|exact Hframe].
      now apply dev_frame_connect_post.
    + rewrite Hconn. unfold T1. rewrite connections_connect_post.
      rewrite set_add_new by (apply Hnew; now left).
      rewrite <- app_assoc. reflexivity.
    + intros e1 j1 e2 j2 [E|Hin]; [|now apply Hends].
      injection E as <- <- <- <-.
      destruct (slot_connect_post_ends T d1 i1 d2 i2 N1 N2) as [P1 P2].
      rewrite !Hother.
      * split; assumption.
      * intros c' Hin He. apply (Hsep c' Hin _ _ He). simpl. auto.
      * intros c' Hin He. apply (Hsep c' Hin _ _ He). simpl. auto.
    + intros d i Hno. rewrite Hother.
      * unfold T1. apply slot_connect_post_other; auto.
        apply Hno. now left.
      * intros c' Hin. apply Hno. now right.
Qed.

(** ** Consistent topologies have pairwise disjoint records *)

Lemma pair_match_iff (d1 i1 d2 i2 : string) (c : Conn) :
  pair_match d1 i1 d2 i2 c = true <->
  c = (d1, i1, d2, i2) \/ c = (d2, i2, d1, i1).
Proof.
  unfold pair_match. now rewrite orb_true_iff, !conn_eqb_eq.
Qed.

Lemma filter_length_cons_le {A} (f : A -> bool) (x : A) (l : list A) :
  List.length (filter f l) <= List.length (filter f (x :: l)).
Proof. simpl. destruct (f x); simpl; lia. Qed.

Lemma filter_two {A} (f : A -> bool) (x y : A) (l : list A) :
  f x = true -> f y = true -> In y l ->
  2 <= List.length (filter f (x :: l)).
Proof.
  intros Hx Hy Hin. simpl. rewrite Hx. simpl.
  assert (In y (filter f l)) as H by (apply filter_In; auto).
  destruct (filter f l); [contradiction|simpl; lia].
Qed.

Lemma shared_endpoint_same_pair (T : NetworkTopology) (c c' : Conn) :
  record_has_slots T c -> record_has_slots T c' -> share_endpoint c c' ->
  let '(d1, i1, d2, i2) := c in pair_match d1 i1 d2 i2 c' = true.
Proof.
  destruct c as [[[d1 i1] d2] i2], c' as [[[e1 j1] e2] j2].
  intros [S1 S2] [S1' S2'] (d & i & He & He'). simpl in He, He'.
  apply pair_match_iff.
  destruct He as [[-> ->]|[-> ->]], He' as [[E1 E2]|[E1 E2]]; subst.
  - left. congruence.
  - right. congruence.
  - right. congruence.
  - left. congruence.
Qed.

Lemma slots_give_disjoint_records (T : NetworkTopology) (l : list Conn) :
  (forall c, In c l -> record_has_slots T c) ->
  (forall d1 i1 d2 i2,
      In (d1, i1, d2, i2) l ->
      List.length (filter (pair_match d1 i1 d2 i2) l) <= 1) ->
  pairwise_disjoint l.
Proof.
  induction l as [|c r IH]; intros Hslots Hone; simpl; [exact I|].
  split.
  - intros c' Hin Hshare.
    pose proof (shared_endpoint_same_pair T c c'
                  (Hslots c (or_introl eq_refl))
                  (Hslots c' (or_intror Hin)) Hshare) as Hpm.
    destruct c as [[[d1 i1] d2] i2].
    pose proof (Hone d1 i1 d2 i2 (or_introl eq_refl)) as Hle.
    assert (pair_match d1 i1 d2 i2 (d1, i1, d2, i2) = true) as Hself
      by (apply pair_match_iff; now left).
    pose proof (filter_two _ _ _ r Hself Hpm Hin). lia.
  - apply IH.
    + intros c' Hin. apply Hslots. now right.
    + intros d1 i1 d2 i2 Hin.
      pose proof (Hone d1 i1 d2 i2 (or_intror Hin)) as Hle.
      pose proof (filter_length_cons_le (pair_match d1 i1 d2 i2) c r). lia.
Qed.

Lemma consistent_pairwise_disjoint (T : NetworkTopology) :
  consistent T -> pairwise_disjoint (connections T).
Proof.
  intros [Hrec Hslot]. apply (slots_give_disjoint_records T).
  - exact Hrec.
  - intros d1 i1 d2 i2 Hin.
    destruct (Hrec _ Hin) as [S1 _].
    pose proof (Hslot d1 i1 d2 i2 S1) as H. unfold matching_records in H. lia.
Qed.

Lemma consistent_slot_has_record (T : NetworkTopology) (d i p pi : string) :
  consistent T -> slot T d i = Some (Some (p, pi)) ->
  In (d, i, p, pi) (connections T) \/ In (p, pi, d, i) (connections T).
Proof.
  intros [_ Hslot] H. specialize (Hslot d i p pi H).
  unfold matching_records in Hslot.
  destruct (filter (pair_match d i p pi) (connections T)) as [|c l] eqn:E;
    [discriminate|].
  assert (In c (filter (pair_match d i p pi) (connections T))) as Hin
    by (rewrite E; now left).
  apply filter_In in Hin. destruct Hin as [Hin Hpm].
  apply pair_match_iff in Hpm. destruct Hpm as [->| ->]; auto.
Qed.

Lemma consistent_free_slot_no_endpoint (T : NetworkTopology) (d i : string) :
  consistent T ->
  (forall p, slot T d i <> Some (Some p)) ->
  forall c, In c (connections T) -> ~ is_endpoint d i c.
Proof.
  intros [Hrec _] Hfree [[[d1 i1] d2] i2] Hin He.
  destruct (Hrec _ Hin) as [S1 S2]. simpl in He.
  destruct He as [[-> ->]|[-> ->]].
  - exact (Hfree _ S1).
  - exact (Hfree _ S2).
Qed.

(** ** What the loader rebuilds from [to_dict] *)

Lemma dget_fresh_interfaces (i : string) (ifs : dict (option Peer)) :
  dget i (fresh_interfaces (dkeys ifs)) =
  match dget i ifs with Some _ => Some None | None => None end.
Proof.
  induction ifs as [|[k v] r IH]; simpl; [reflexivity|].
  now destruct (k =? i).
Qed.

Lemma dkeys_fresh_interfaces (names : list string) :
  dkeys (fresh_interfaces names) = names.
Proof.
  unfold dkeys, fresh_interfaces. rewrite map_map. simpl. apply map_id.
Qed.

Lemma loaded_devices_to_dict (rng : nat -> nat * nat * nat)
  (ds : dict NetworkDevice) :
  (forall id dev, In (id, dev) ds ->
                  device_type dev = "switch" \/ device_type dev = "host") ->
  forall k,
    loaded_devices k (map (fun '(id, device) => (id, device_to_dict device)) ds)
      rng
    = reload_all k ds rng.
Proof.
  induction ds as [|[id dev] r IH]; intros Hty k; simpl; [reflexivity|].
  rewrite IH by (intros; eapply Hty; right; eassumption).
  unfold load_device, reloaded, device_to_dict. simpl.
  unfold dkeys. rewrite length_map.
  destruct (Hty id dev (or_introl eq_refl)) as [E|E]; rewrite E; reflexivity.
Qed.

Lemma reload_all_keys (rng : nat -> nat * nat * nat) (ds : dict NetworkDevice) :
  forall k, dkeys (reload_all k ds rng) = dkeys ds.
Proof.
  induction ds as [|[id dev] r IH]; intros k; simpl; [reflexivity|].
  now rewrite IH.
Qed.

Lemma reload_all_get (rng : nat -> nat * nat * nat) (ds : dict NetworkDevice)
  (id : string) :
  forall k,
    match dget id ds with
    | Some dev =>
        exists rnd, dget id (reload_all k ds rng) = Some (reloaded id dev rnd)
    | None => dget id (reload_all k ds rng) = None
    end.
Proof.
  induction ds as [|[id0 dev0] r IH]; intros k; simpl; [reflexivity|].
  destruct (String.eqb_spec id0 id) as [->|Hne].
  - eauto.
  - apply IH.
Qed.

Lemma reloaded_spec (id : string) (dev : NetworkDevice) (rnd : nat * nat * nat) :
  constructor_shaped dev ->
  device_id (reloaded id dev rnd) = id /\
  device_type (reloaded id dev rnd) = device_type dev /\
  interfaces (reloaded id dev rnd) = fresh_interfaces (dkeys (interfaces dev)) /\
  (NoDup (dkeys (properties dev)) ->
   forall k,
     dget k (properties (reloaded id dev rnd)) =
     match dget k (properties dev) with
     | Some v => Some v
     | None => dget k (seeded_properties dev rnd)
     end).
Proof.
  intros Hshape. unfold reloaded, seeded_properties.
  destruct Hshape as [[Hty Hifs]|[Hty Hifs]]; rewrite Hty; simpl.
  - match goal with
    | |- context [replay_properties ?ps ?d] =>
        destruct (replay_properties_fields ps d) as (A & B & C & D)
    end.
    rewrite A, B, D, Switch_spec. simpl. rewrite Hifs.
    repeat split.
    intros Hnd k. rewrite replay_properties_get by assumption. reflexivity.
  - match goal with
    | |- context [replay_properties ?ps ?d] =>
        destruct (replay_properties_fields ps d) as (A & B & C & D)
    end.
    rewrite A, B, D, Host_spec. simpl. rewrite Hifs.
    repeat split.
    intros Hnd k. rewrite replay_properties_get by assumption. reflexivity.
Qed.

Lemma slot_reloaded (T : NetworkTopology) (rng : nat -> nat * nat * nat)
  (nm : string) (d i : string) :
  (forall id dev, In (id, dev) (devices T) -> constructor_shaped dev) ->
  slot (mkTopology nm (reload_all 0 (devices T) rng) []) d i =
  match slot T d i with Some _ => Some None | None => None end.
Proof.
  intros Hshape. unfold slot. simpl.
  pose proof (reload_all_get rng (devices T) d 0) as H.
  destruct (dget d (devices T)) as [dev|] eqn:E.
  - destruct H as [rnd ->].
    destruct (reloaded_spec d dev rnd) as (_ & _ & Hifs & _).
    { eapply Hshape. eapply dget_Some_In. exact E. }
    rewrite Hifs. apply dget_fresh_interfaces.
  - now rewrite H.
Qed.

(** ** Round trip *)

Lemma dkeys_to_dict (T : NetworkTopology) :
  dkeys (doc_devices (to_dict T)) = dkeys (devices T).
Proof.
  unfold to_dict, dkeys. simpl. rewrite map_map.
  apply map_ext. now intros [id dev].
Qed.

Lemma constructor_shaped_type (dev : NetworkDevice) :
  constructor_shaped dev ->
  device_type dev = "switch" \/ device_type dev = "host".
Proof. intros [[H _]|[H _]]; auto. Qed.

Lemma round_trip_slots (T T1 T' : NetworkTopology) :
  consistent T ->
  (forall d i, slot T1 d i =
               match slot T d i with Some _ => Some None | None => None end) ->
  (forall d1 i1 d2 i2,
      In (d1, i1, d2, i2) (connections T) ->
      slot T' d1 i1 = Some (Some (d2, i2)) /\
      slot T' d2 i2 = Some (Some (d1, i1))) ->
  (forall d i, (forall c, In c (connections T) -> ~ is_endpoint d i c) ->
               slot T' d i = slot T1 d i) ->
  forall d i, slot T' d i = slot T d i.
Proof.
  intros Hcons H1 Hends Hother d i.
  destruct (slot T d i) as [[[p pi]|]|] eqn:E.
  - destruct (consistent_slot_has_record T d i p pi Hcons E) as [Hin|Hin].
    + now destruct (Hends _ _ _ _ Hin).
    + now destruct (Hends _ _ _ _ Hin).
  - rewrite Hother, H1, E; [reflexivity|].
    apply consistent_free_slot_no_endpoint; [assumption|].
    intros p. rewrite E. discriminate.
  - rewrite Hother, H1, E; [reflexivity|].
    apply consistent_free_slot_no_endpoint; [assumption|].
    intros p. rewrite E. discriminate.
Qed.

(** C3, as stated, fails: a host created without an address and given one
    by [assign_ip_to_host] has no ['mac_address'] property, the topology
    has no connection and is consistent, and the host loaded back from its
    [to_dict] document has a ['mac_address']: the loader hands the stored
    address to [Host.__init__], which makes one up. *)
Lemma reloaded_host_gains_mac_address :
  consistent host_with_assigned_ip /\
  device_property host_with_assigned_ip "h1" "mac_address" = None /\
  exists T',
    load_from_file (to_dict host_with_assigned_ip) fixed_rng = inr T' /\
    device_property T' "h1" "mac_address" = Some (VStr "02:00:00:01:02:03").
Proof.
  split; [|split; [reflexivity|]].
  - split.
    + intros c H. destruct H.
    + intros d i p pi H. exfalso. unfold slot in H.
      assert (devices host_with_assigned_ip =
              [("h1", mkDevice "h1" "host" "h1" [("eth0", None)]
                        [("ip_address", VStr "10.0.0.5");
                         ("subnet_mask", VStr "255.255.255.0")])]) as E
        by reflexivity.
      rewrite E in H. cbn [dget] in H.
      destruct ("h1" =? d); [cbn [dget interfaces] in H|discriminate H].
      destruct ("eth0" =? i); discriminate H.
  - eexists. split; reflexivity.
Qed.

(** C3 (amended).  For a topology whose dictionaries have distinct keys,
    whose devices are switches with ports port1..portN or hosts with the
    one interface eth0, and whose records and slots are consistent,
    loading the [to_dict] document succeeds and gives a topology with the
    same name, the same device ids, the same connection records, and for
    each device the same type and the same slots; every property of the
    original device has the same value in the loaded one, and a key the
    original lacks has in the loaded device whatever the constructor seeds
    for it (for a host with an ['ip_address'] but no ['mac_address'], a
    new address). *)
Theorem load_to_dict_round_trip
  (T : NetworkTopology) (rng : nat -> nat * nat * nat) :
  wf_topology T ->
  (forall id dev, In (id, dev) (devices T) -> constructor_shaped dev) ->
  consistent T ->
  exists T',
    load_from_file (to_dict T) rng = inr T' /\
    topo_name T' = topo_name T /\
    dkeys (devices T') = dkeys (devices T) /\
    connections T' = connections T /\
    forall id dev,
      dget id (devices T) = Some dev ->
      exists dev' rnd,
        dget id (devices T') = Some dev' /\
        device_type dev' = device_type dev /\
        interfaces dev' = interfaces dev /\
        (forall k v, dget k (properties dev) = Some v ->
                     dget k (properties dev') = Some v) /\
        (forall k, dget k (properties dev) = None ->
                   dget k (properties dev') = dget k (seeded_properties dev rnd)).
Proof.
  intros [Hnd Hwf] Hshape Hcons.
  rewrite load_from_file_unfold by (rewrite dkeys_to_dict; exact Hnd).
  simpl. rewrite loaded_devices_to_dict
    by (intros id dev Hin; apply constructor_shaped_type; eauto).
  set (T1 := mkTopology (topo_name T) (reload_all 0 (devices T) rng) []).
  pose proof (fun d i => slot_reloaded T rng (topo_name T) d i Hshape) as HT1.
  fold T1 in HT1.
  destruct (replay_connections (connections T) T1)
    as (T' & Hrun & Hframe & Hconn & Hends & Hother).
  { intros d1 i1 d2 i2 Hin. destruct (proj1 Hcons _ Hin) as [S1 S2].
    now rewrite !HT1, S1, S2. }
  { now apply consistent_pairwise_disjoint. }
  { intros c _ H. destruct H. }
  pose proof (round_trip_slots T T1 T' Hcons HT1 Hends Hother) as Hslots.
  exists T'. unfold built. rewrite Hrun.
  destruct Hframe as (Fn & Fk & Fd).
  split; [reflexivity|]. split; [exact Fn|].
  split; [rewrite Fk; apply reload_all_keys|]. split; [exact Hconn|].
  intros id dev Hget.
  pose proof (reload_all_get rng (devices T) id 0) as Hre.
  rewrite Hget in Hre. destruct Hre as [rnd Hre].
  specialize (Fd id). unfold T1 in Fd at 1. simpl in Fd. rewrite Hre in Fd.
  destruct (dget id (devices T')) as [dev'|] eqn:E'; [|contradiction].
  destruct Fd as (S1 & S2 & S3 & S4 & S5).
  assert (In (id, dev) (devices T)) as Hin by now apply dget_Some_In.
  destruct (reloaded_spec id dev rnd (Hshape _ _ Hin)) as (R1 & R2 & R3 & R4).
  destruct (Hwf _ _ Hin) as [Wi Wp].
  exists dev', rnd. split; [reflexivity|]. split; [congruence|].
  split; [|split].
  - apply dict_ext.
    + rewrite S5, R3. apply dkeys_fresh_interfaces.
    + rewrite S5, R3, dkeys_fresh_interfaces. exact Wi.
    + intros k. pose proof (Hslots id k) as Hs. unfold slot in Hs.
      now rewrite E', Hget in Hs.
  - intros k v Hk. rewrite S4, R4, Hk by assumption. reflexivity.
  - intros k Hk. rewrite S4, R4, Hk by assumption. reflexivity.
Qed.

(** ** Deciding consistency *)

Lemma slot_is_true (T : NetworkTopology) (d i p pi : string) :
  slot_is T d i p pi = true -> slot T d i = Some (Some (p, pi)).
Proof.
  unfold slot_is. destruct (slot T d i) as [[[p' pi']|]|]; try discriminate.
  rewrite andb_true_iff, !String.eqb_eq. now intros [-> ->].
Qed.

Lemma consistent_b_sound (T : NetworkTopology) :
  consistent_b T = true -> consistent T.
Proof.
  unfold consistent_b. rewrite andb_true_iff. intros [Hr Hs]. split.
  - intros [[[d1 i1] d2] i2] Hin.
    unfold records_have_slots_b in Hr. rewrite forallb_forall in Hr.
    specialize (Hr _ Hin). simpl in Hr. apply andb_true_iff in Hr.
    destruct Hr as [H1 H2]. split; now apply slot_is_true.
  - intros d i p pi H. unfold slot in H.
    destruct (dget d (devices T)) as [dev|] eqn:Ed; [|discriminate].
    apply dget_Some_In in Ed. apply dget_Some_In in H.
    unfold slots_have_records_b in Hs. rewrite forallb_forall in Hs.
    specialize (Hs _ Ed). simpl in Hs. rewrite forallb_forall in Hs.
    specialize (Hs _ H). simpl in Hs. now apply Nat.eqb_eq in Hs.
Qed.

Lemma wired_pair_consistent : consistent wired_pair.
Proof. apply consistent_b_sound. reflexivity. Qed.

Lemma load_to_dict_round_trip_witness :
  exists T',
    load_from_file (to_dict wired_pair) fixed_rng = inr T' /\
    topo_name T' = topo_name wired_pair /\
    dkeys (devices T') = dkeys (devices wired_pair) /\
    connections T' = connections wired_pair /\
    forall id dev,
      dget id (devices wired_pair) = Some dev ->
      exists dev' rnd,
        dget id (devices T') = Some dev' /\
        device_type dev' = device_type dev /\
        interfaces dev' = interfaces dev /\
        (forall k v, dget k (properties dev) = Some v ->
                     dget k (properties dev') = Some v) /\
        (forall k, dget k (properties dev) = None ->
                   dget k (properties dev') = dget k (seeded_properties dev rnd)).
Proof.
  apply (load_to_dict_round_trip wired_pair fixed_rng).
  - split.
    + repeat constructor; simpl; intuition discriminate.
    + intros id dev [E|[E|[]]]; injection E as <- <-;
        split; repeat constructor; simpl; intuition discriminate.
  - intros id dev [E|[E|[]]]; injection E as <- <-; left; split; reflexivity.
  - exact wired_pair_consistent.
Defined.

(** ** First-fit wiring: the topology follows the wiring *)

Lemma nth_error_snoc {A} (l : list A) (x : A) (k : nat) :
  nth_error (l ++ [x]) k =
  if (k =? List.length l)%nat then Some x else nth_error l k.
Proof.
  destruct (Nat.eqb_spec k (List.length l)) as [->|Hne].
  - rewrite nth_error_app2 by lia. now rewrite Nat.sub_diag.
  - destruct (Nat.lt_ge_cases k (List.length l)) as [Hlt|Hge].
    + now apply nth_error_app1.
    + transitivity (@None A).
      * apply nth_error_None. rewrite length_app. simpl. lia.
      * symmetry. apply nth_error_None. lia.
Qed.

Lemma nth_error_NoDup_eq {A} (l : list A) (i j : nat) (x : A) :
  NoDup l -> nth_error l i = Some x -> nth_error l j = Some x -> i = j.
Proof.
  intros Hnd Hi Hj.
  assert (i < List.length l) as Li by (apply nth_error_Some; congruence).
  apply (proj1 (NoDup_nth_error l) Hnd i j Li). congruence.
Qed.

Lemma first_free_by_slots (ifs : dict (option Peer)) :
  forall ps,
    NoDup (dkeys ifs) ->
    (forall k nm, nth_error (dkeys ifs) k = Some nm ->
                  dget nm ifs = Some (nth_error ps k)) ->
    first_free ifs = nth_error (dkeys ifs) (List.length ps).
Proof.
  induction ifs as [|[k0 v0] r IH]; intros ps Hnd Hget; simpl.
  - now destruct ps.
  - inversion Hnd as [|? ? Hnotin Hnd']; subst.
    pose proof (Hget 0%nat k0 eq_refl) as H0. simpl in H0.
    rewrite String.eqb_refl in H0. injection H0 as ->.
    destruct ps as [|p ps]; simpl; [reflexivity|].
    apply IH; [assumption|].
    intros k nm Hk. specialize (Hget (S k) nm Hk). simpl in Hget.
    destruct (String.eqb_spec k0 nm) as [->|_]; [|assumption].
    exfalso. apply Hnotin. eapply nth_error_In. exact Hk.
Qed.

Lemma records_have_slots_connect_post (T : NetworkTopology)
  (d1 i1 d2 i2 : string) :
  records_have_slots T ->
  slot T d1 i1 = Some None -> slot T d2 i2 = Some None ->
  records_have_slots (connect_post d1 i1 d2 i2 T) /\
  ~ In (d1, i1, d2, i2) (connections T) /\
  ~ In (d2, i2, d1, i1) (connections T).
Proof.
  intros Hrec F1 F2.
  assert (slot T d1 i1 <> None) as N1 by congruence.
  assert (slot T d2 i2 <> None) as N2 by congruence.
  assert (forall c, In c (connections T) ->
                    ~ is_endpoint d1 i1 c /\ ~ is_endpoint d2 i2 c) as Hsep.
  { intros [[[e1 j1] e2] j2] Hin. destruct (Hrec _ Hin) as [S1 S2].
    split; intros [[-> ->]|[-> ->]]; congruence. }
  split; [|split].
  - intros c Hin. rewrite connections_connect_post, In_set_add in Hin.
    destruct Hin as [->|Hin].
    + apply slot_connect_post_ends; assumption.
    + destruct c as [[[e1 j1] e2] j2]. destruct (Hrec _ Hin) as [S1 S2].
      destruct (Hsep _ Hin) as [A1 A2]. simpl in A1, A2.
      simpl. rewrite !slot_connect_post_other; simpl; auto;
        intuition congruence.
  - intros Hin. apply (proj1 (Hsep _ Hin)). simpl. auto.
  - intros Hin. apply (proj1 (Hsep _ Hin)). simpl. auto.
Qed.

Lemma represents_lookup (B : NetworkTopology) (w : Wiring) (T : NetworkTopology)
  (d : string) (dev : NetworkDevice) :
  represents B w T -> dget d (devices B) = Some dev ->
  exists dev',
    dget d (devices T) = Some dev' /\
    same_shape dev dev' /\
    forall k nm,
      nth_error (dkeys (interfaces dev)) k = Some nm ->
      dget nm (interfaces dev') = Some (nth_error (peers w d) k).
Proof.
  intros ((_ & _ & Fd) & _ & _ & Hslots) Hd.
  specialize (Fd d). rewrite Hd in Fd.
  destruct (dget d (devices T)) as [dev'|] eqn:E; [|contradiction].
  exists dev'. split; [reflexivity|]. split; [assumption|].
  intros k nm Hk. destruct (Hslots d dev Hd) as [_ Hs].
  specialize (Hs k nm Hk). unfold slot in Hs. now rewrite E in Hs.
Qed.

Lemma represents_first_free (B : NetworkTopology) (w : Wiring)
  (T : NetworkTopology) (d : string) (dev dev' : NetworkDevice) :
  base_ok B -> represents B w T ->
  dget d (devices B) = Some dev -> dget d (devices T) = Some dev' ->
  get_available_interface dev' = free_name B w d.
Proof.
  intros Hok Hrep Hd Hd'.
  destruct (represents_lookup B w T d dev Hrep Hd) as (dev'' & E & Hshape & Hget).
  rewrite Hd' in E. injection E as <-.
  destruct Hshape as (_ & _ & _ & _ & Hkeys).
  destruct (Hok d dev Hd) as [Hnd _].
  unfold get_available_interface, free_name. rewrite Hd, <- Hkeys.
  apply first_free_by_slots.
  - now rewrite Hkeys.
  - intros k nm Hk. apply Hget. now rewrite <- Hkeys.
Qed.

Lemma free_name_spec (B : NetworkTopology) (w : Wiring) (T : NetworkTopology)
  (d i : string) :
  base_ok B -> represents B w T -> free_name B w d = Some i ->
  exists dev,
    dget d (devices B) = Some dev /\
    nth_error (dkeys (interfaces dev)) (List.length (peers w d)) = Some i /\
    List.length (peers w d) < List.length (interfaces dev) /\
    i <> "" /\ slot T d i = Some None.
Proof.
  intros Hok Hrep Hfree. unfold free_name in Hfree.
  destruct (dget d (devices B)) as [dev|] eqn:Hd; [|discriminate].
  exists dev. split; [reflexivity|]. split; [assumption|].
  destruct (Hok d dev Hd) as [_ Hne].
  destruct Hrep as (_ & _ & _ & Hslots). destruct (Hslots d dev Hd) as [_ Hs].
  split; [|split].
  - assert (List.length (peers w d) < List.length (dkeys (interfaces dev)))
      by (apply nth_error_Some; congruence).
    unfold dkeys in H. now rewrite length_map in H.
  - intros ->. apply Hne. eapply nth_error_In. exact Hfree.
  - rewrite (Hs _ _ Hfree). f_equal. apply nth_error_None. lia.
Qed.

Lemma upd_same {V} (f : string -> V) (k : string) (v : V) : upd f k v k = v.
Proof. unfold upd. now rewrite String.eqb_refl. Qed.

Lemma upd_other {V} (f : string -> V) (k x : string) (v : V) :
  k <> x -> upd f k v x = f x.
Proof. unfold upd. intros H. apply String.eqb_neq in H. now rewrite H. Qed.

Lemma represents_link (B : NetworkTopology) (w : Wiring) (T : NetworkTopology)
  (d1 i1 d2 i2 : string) :
  base_ok B -> represents B w T ->
  free_name B w d1 = Some i1 -> free_name B w d2 = Some i2 ->
  represents B
    (mkWiring
       (upd (upd (peers w) d1 (peers w d1 ++ [(d2, i2)])%list)
          d2 (peers w d2 ++ [(d1, i1)])%list)
       (recs w ++ [(d1, i1, d2, i2)])%list)
    (connect_post d1 i1 d2 i2 T).
Proof.
  intros Hok Hrep H1 H2.
  destruct (free_name_spec B w T d1 i1 Hok Hrep H1)
    as (b1 & Hb1 & Hn1 & Hl1 & _ & F1).
  destruct (free_name_spec B w T d2 i2 Hok Hrep H2)
    as (b2 & Hb2 & Hn2 & Hl2 & _ & F2).
  pose proof Hrep as (Hframe & Hconn & Hrec & Hslots).
  assert (slot T d1 i1 <> None) as N1 by congruence.
  assert (slot T d2 i2 <> None) as N2 by congruence.
  destruct (records_have_slots_connect_post T d1 i1 d2 i2 Hrec F1 F2)
    as (Hrec' & Hnew & _).
  split; [|split; [|split]].
  - eapply dev_frame_trans; [exact Hframe|].
    now apply dev_frame_connect_post.
  - rewrite connections_connect_post, set_add_new by assumption.
    simpl. now rewrite Hconn.
  - exact Hrec'.
  - intros d dev Hd. destruct (Hslots d dev Hd) as [Hlen Hs]. simpl.
    destruct (Hok d dev Hd) as [Hnd _].
    assert (dget d1 (devices T) <> None) as A1
      by (unfold slot in N1; destruct (dget d1 (devices T)); congruence).
    assert (dget d2 (devices T) <> None) as A2
      by (unfold slot in N2; destruct (dget d2 (devices T)); congruence).
    split.
    + unfold upd.
      destruct (String.eqb_spec d2 d) as [<-|_].
      * rewrite length_app. simpl. rewrite Hb2 in Hd. injection Hd as <-. lia.
      * destruct (String.eqb_spec d1 d) as [<-|_]; [|assumption].
        rewrite length_app. simpl. rewrite Hb1 in Hd. injection Hd as <-. lia.
    + intros k nm Hk. rewrite slot_connect_post by assumption.
      rewrite (Hs k nm Hk). unfold upd.
      destruct (String.eqb_spec d2 d) as [<-|Hd2]; simpl.
      * rewrite Hb2 in Hd. injection Hd as <-. rewrite nth_error_snoc.
        destruct (String.eqb_spec i2 nm) as [<-|Hi2].
        -- rewrite (nth_error_NoDup_eq _ _ _ _ Hnd Hk Hn2).
           now rewrite Nat.eqb_refl.
        -- destruct (Nat.eqb_spec k (List.length (peers w d2))) as [->|_];
             [congruence|].
           destruct (String.eqb_spec d1 d2) as [->|_]; simpl; [|reflexivity].
           destruct (String.eqb_spec i1 nm) as [<-|_]; [|reflexivity].
           rewrite Hb1 in Hb2. injection Hb2 as <-. congruence.
      * destruct (String.eqb_spec d1 d) as [<-|Hd1]; simpl; [|reflexivity].
        rewrite Hb1 in Hd. injection Hd as <-. rewrite nth_error_snoc.
        destruct (String.eqb_spec i1 nm) as [<-|Hi1].
        -- rewrite (nth_error_NoDup_eq _ _ _ _ Hnd Hk Hn1).
           now rewrite Nat.eqb_refl.
        -- destruct (Nat.eqb_spec k (List.length (peers w d1))) as [->|_];
             [congruence|reflexivity].
Qed.

(** [connect_available] never raises on devices of the base topology, and
    what it does is [link]. *)
Lemma connect_available_refines (B : NetworkTopology) (w : Wiring)
  (T : NetworkTopology) (d1 d2 : string) :
  base_ok B -> represents B w T ->
  dget d1 (devices B) <> None -> dget d2 (devices B) <> None ->
  exists T',
    connect_available d1 d2 T = (inr tt, T') /\
    represents B (link B d1 d2 w) T'.
Proof.
  intros Hok Hrep Hd1 Hd2.
  destruct (dget d1 (devices B)) as [b1|] eqn:Hb1; [|congruence].
  destruct (dget d2 (devices B)) as [b2|] eqn:Hb2; [|congruence].
  destruct (represents_lookup B w T d1 b1 Hrep Hb1) as (dev1 & E1 & _ & _).
  destruct (represents_lookup B w T d2 b2 Hrep Hb2) as (dev2 & E2 & _ & _).
  unfold connect_available, link. rewrite E1, E2.
  rewrite (represents_first_free B w T d1 b1 dev1 Hok Hrep Hb1 E1).
  rewrite (represents_first_free B w T d2 b2 dev2 Hok Hrep Hb2 E2).
  destruct (free_name B w d1) as [i1|] eqn:F1; [|eauto].
  destruct (free_name B w d2) as [i2|] eqn:F2; [|eauto].
  destruct (free_name_spec B w T d1 i1 Hok Hrep F1) as (_ & _ & _ & _ & Ne1 & S1).
  destruct (free_name_spec B w T d2 i2 Hok Hrep F2) as (_ & _ & _ & _ & Ne2 & S2).
  apply String.eqb_neq in Ne1, Ne2. simpl. rewrite Ne1, Ne2. simpl.
  exists (connect_post d1 i1 d2 i2 T). split.
  - now apply connect_devices_success.
  - now apply represents_link.
Qed.

Lemma link_all_refines (B : NetworkTopology) (pairs : list (string * string)) :
  base_ok B ->
  (forall d1 d2, In (d1, d2) pairs ->
                 dget d1 (devices B) <> None /\ dget d2 (devices B) <> None) ->
  forall w T,
    represents B w T ->
    exists T',
      for_each pairs (fun '(d1, d2) => connect_available d1 d2) T = (inr tt, T') /\
      represents B (link_all B pairs w) T'.
Proof.
  intros Hok. induction pairs as [|[d1 d2] r IH]; intros Hin w T Hrep.
  - exists T. split; [reflexivity|assumption].
  - destruct (Hin d1 d2 (or_introl eq_refl)) as [A1 A2].
    destruct (connect_available_refines B w T d1 d2 Hok Hrep A1 A2)
      as (T1 & Hrun & Hrep1).
    destruct (IH (fun a b H => Hin a b (or_intror H)) _ _ Hrep1)
      as (T' & Hrun' & Hrep').
    exists T'. split; [|exact Hrep'].
    simpl. unfold bind. rewrite Hrun. exact Hrun'.
Qed.

(** ** The ring generator follows its wiring *)

Lemma for_each_ext {A} (xs : list A) (f g : A -> M unit) :
  (forall x, In x xs -> forall T, f x T = g x T) ->
  forall T, for_each xs f T = for_each xs g T.
Proof.
  induction xs as [|x xs IH]; intros H T; simpl; [reflexivity|].
  unfold bind. rewrite (H x (or_introl eq_refl)).
  destruct (g x T) as [[e|[]] T1]; [reflexivity|].
  apply IH. intros y Hy. apply H. now right.
Qed.

Lemma for_each_map {A B} (h : A -> B) (xs : list A) (f : B -> M unit) :
  forall T, for_each (map h xs) f T = for_each xs (fun x => f (h x)) T.
Proof.
  induction xs as [|x xs IH]; intros T; simpl; [reflexivity|].
  unfold bind. destruct (f (h x) T) as [[e|[]] T1]; [reflexivity|apply IH].
Qed.

Lemma combine_seq_map {A} (f : nat -> A) (len : nat) :
  forall a b,
    combine (seq a len) (map f (seq b len)) =
    map (fun i => (a + i, f (b + i))) (seq 0 len).
Proof.
  induction len as [|len IH]; intros a b; simpl; [reflexivity|].
  rewrite !Nat.add_0_r. f_equal.
  rewrite IH, <- seq_shift, map_map.
  apply map_ext. intros i. now rewrite !Nat.add_succ_r.
Qed.

Lemma add_devices_spec (f : nat -> NetworkDevice) (l : list nat) :
  forall T,
    NoDup (map (fun i => device_id (f i)) l) ->
    (forall i, In i l -> dget (device_id (f i)) (devices T) = None) ->
    for_each l (fun i => add_device (f i)) T =
    (inr tt,
     with_devices T
       (devices T ++ map (fun i => (device_id (f i), f i)) l)%list).
Proof.
  induction l as [|i l IH]; intros T Hnd Hfree; simpl.
  - rewrite app_nil_r. now destruct T.
  - inversion Hnd as [|? ? Hnotin Hnd']; subst. unfold bind.
    rewrite add_device_new by (apply Hfree; now left).
    rewrite IH; [|assumption|].
    + simpl. now rewrite <- app_assoc.
    + intros j Hj. simpl. rewrite dget_app, (Hfree j (or_intror Hj)).
      rewrite dget_single.
      destruct (String.eqb_spec (device_id (f i)) (device_id (f j))) as [E|_];
        [|reflexivity].
      exfalso. apply Hnotin. rewrite E.
      apply (in_map (fun i => device_id (f i))). exact Hj.
Qed.

Lemma ring_switch_spec (i : nat) :
  ring_switch i =
  mkDevice (switch_id i) "switch" ("Switch " ++ str i)
    (fresh_interfaces (map port (seq 1 24))) (switch_defaults 24 (VStr "l2")).
Proof. unfold ring_switch. rewrite Switch_spec. reflexivity. Qed.

Lemma ring_host_spec (rng : nat -> nat * nat * nat) (i : nat) :
  exists nm ps,
    ring_host rng i =
    mkDevice (host_id i) "host" nm (fresh_interfaces ["eth0"]) ps.
Proof. unfold ring_host. rewrite Host_spec. eauto. Qed.

Lemma NoDup_map_injective {A B} (f : A -> B) (l : list A) :
  (forall x y, f x = f y -> x = y) -> NoDup l -> NoDup (map f l).
Proof.
  intros Hinj Hnd. apply NoDup_map_NoDup_ForallPairs; [|assumption].
  intros x y _ _. apply Hinj.
Qed.

Lemma dget_map_key {V} (key : nat -> string) (g : nat -> V) (l : list nat)
  (i : nat) :
  (forall x y, key x = key y -> x = y) -> In i l ->
  dget (key i) (map (fun j => (key j, g j)) l) = Some (g i).
Proof.
  intros Hinj. induction l as [|j l IH]; simpl; [tauto|].
  intros [->|Hin].
  - now rewrite String.eqb_refl.
  - destruct (String.eqb_spec (key j) (key i)) as [E|_].
    + apply Hinj in E. now subst.
    + now apply IH.
Qed.

Lemma dget_map_key_None {V} (key : nat -> string) (g : nat -> V)
  (l : list nat) (d : string) :
  (forall j, In j l -> key j <> d) ->
  dget d (map (fun j => (key j, g j)) l) = None.
Proof.
  induction l as [|j l IH]; simpl; intros H; [reflexivity|].
  destruct (String.eqb_spec (key j) d) as [E|_].
  - exfalso. apply (H j); auto.
  - apply IH. intros; apply H; now right.
Qed.

Lemma ring_base_switch (N H : nat) rng (a : nat) :
  1 <= a <= N ->
  dget (switch_id a) (devices (ring_base N H rng)) = Some (ring_switch a).
Proof.
  intros Ha. unfold ring_base. simpl. rewrite dget_app.
  rewrite (dget_map_key switch_id ring_switch); [reflexivity|apply switch_id_inj|].
  apply in_seq. lia.
Qed.

Lemma ring_base_host (N H : nat) rng (j : nat) :
  1 <= j <= H ->
  dget (host_id j) (devices (ring_base N H rng)) = Some (ring_host rng j).
Proof.
  intros Hj. unfold ring_base. simpl. rewrite dget_app.
  rewrite dget_map_key_None.
  - apply (dget_map_key host_id (ring_host rng)); [apply host_id_inj|].
    apply in_seq. lia.
  - intros a _. apply switch_id_not_host_id.
Qed.

Lemma ring_base_device (N H : nat) rng (d : string) (dev : NetworkDevice) :
  dget d (devices (ring_base N H rng)) = Some dev ->
  (exists a, 1 <= a <= N /\ d = switch_id a /\ dev = ring_switch a) \/
  (exists j, 1 <= j <= H /\ d = host_id j /\ dev = ring_host rng j).
Proof.
  intros Hd. apply dget_Some_In in Hd. unfold ring_base in Hd. simpl in Hd.
  apply in_app_or in Hd. destruct Hd as [Hd|Hd].
  - apply in_map_iff in Hd. destruct Hd as (a & E & Ha). injection E as <- <-.
    apply in_seq in Ha. left. exists a. repeat split; lia.
  - apply in_map_iff in Hd. destruct Hd as (j & E & Hj). injection E as <- <-.
    apply in_seq in Hj. right. exists j. repeat split; lia.
Qed.

Lemma port_names_ok (n : nat) :
  NoDup (map port (seq 1 n)) /\ ~ In "" (map port (seq 1 n)).
Proof.
  split.
  - apply NoDup_map_injective; [apply port_inj|apply seq_NoDup].
  - intros H. apply in_map_iff in H. destruct H as (i & E & _).
    unfold port in E. simpl in E. discriminate E.
Qed.

Lemma ring_base_ok (N H : nat) rng : base_ok (ring_base N H rng).
Proof.
  intros d dev Hd. unfold interface_names_ok.
  destruct (ring_base_device N H rng d dev Hd)
    as [(a & _ & _ & ->)|(j & _ & _ & ->)].
  - rewrite ring_switch_spec. cbn [interfaces].
    rewrite dkeys_fresh_interfaces. apply port_names_ok.
  - destruct (ring_host_spec rng j) as (nm & ps & ->). simpl. split.
    + repeat constructor. simpl. tauto.
    + simpl. intros [E|[]]. discriminate E.
Qed.

Lemma ring_base_fresh (N H : nat) rng (d : string) (dev : NetworkDevice) :
  dget d (devices (ring_base N H rng)) = Some dev ->
  interfaces dev = fresh_interfaces (dkeys (interfaces dev)).
Proof.
  intros Hd.
  destruct (ring_base_device N H rng d dev Hd)
    as [(a & _ & _ & ->)|(j & _ & _ & ->)].
  - rewrite ring_switch_spec. cbn [interfaces].
    now rewrite dkeys_fresh_interfaces.
  - destruct (ring_host_spec rng j) as (nm & ps & ->). reflexivity.
Qed.

Lemma represents_unwired (B : NetworkTopology) :
  (forall d dev, dget d (devices B) = Some dev ->
                 interfaces dev = fresh_interfaces (dkeys (interfaces dev))) ->
  connections B = [] ->
  represents B no_wiring B.
Proof.
  intros Hfresh Hconn. split; [apply dev_frame_refl|]. split; [assumption|].
  split.
  - intros c Hin. rewrite Hconn in Hin. destruct Hin.
  - intros d dev Hd. simpl. split; [lia|].
    intros k nm Hk. unfold slot. rewrite Hd, (Hfresh d dev Hd).
    rewrite dget_fresh_interfaces.
    destruct (dget nm (interfaces dev)) eqn:E.
    + now destruct k.
    + exfalso. apply dget_None_iff in E. apply E.
      eapply nth_error_In. exact Hk.
Qed.

Lemma py_index_switches (N : nat) (z : Z) :
  (0 <= z < Z.of_nat N)%Z ->
  py_index (map switch_id (seq 1 N)) z = Some (switch_id (Z.to_nat z + 1)).
Proof.
  intros Hz. unfold py_index. rewrite length_map, length_seq.
  destruct (Z.ltb_spec z 0) as [?|_]; [lia|].
  destruct (Z.ltb_spec z 0) as [?|_]; [lia|].
  destruct (Z.leb_spec (Z.of_nat N) z) as [?|_]; [lia|]. simpl.
  rewrite nth_error_map, nth_error_seq.
  destruct (Nat.ltb_spec (Z.to_nat z) N) as [_|?]; [|lia].
  simpl. f_equal. f_equal. lia.
Qed.

Lemma assigned_range (n h : Z) (i : nat) :
  (1 <= n)%Z -> 1 <= assigned n h i <= Z.to_nat n.
Proof.
  intros Hn. unfold assigned.
  assert (0 <= Z.of_nat i / Z.max 1 (h / n))%Z
    by (apply Z.div_pos; lia).
  lia.
Qed.

Lemma next_switch_range (n : Z) (i : nat) :
  (1 <= n)%Z -> 1 <= next_switch n i <= Z.to_nat n.
Proof.
  intros Hn. unfold next_switch.
  pose proof (Z.mod_pos_bound (Z.of_nat i + 1) n ltac:(lia)). lia.
Qed.

Lemma device_id_ring_switch (i : nat) : device_id (ring_switch i) = switch_id i.
Proof. now rewrite ring_switch_spec. Qed.

Lemma device_id_ring_host rng (i : nat) : device_id (ring_host rng i) = host_id i.
Proof. destruct (ring_host_spec rng i) as (nm & ps & ->). reflexivity. Qed.

Lemma ring_script_devices (n h : Z) rng :
  (for_each (seq 1 (Z.to_nat n)) (fun i => add_device (ring_switch i)) ;;;
   for_each (seq 1 (Z.to_nat h)) (fun i => add_device (ring_host rng i)))
    (NetworkTopology_init "Ring Network")
  = (inr tt, ring_base (Z.to_nat n) (Z.to_nat h) rng).
Proof.
  unfold bind.
  rewrite (add_devices_spec ring_switch).
  - rewrite (add_devices_spec (ring_host rng)).
    + unfold ring_base, with_devices, NetworkTopology_init.
      cbn [devices topo_name connections app].
      rewrite (map_ext (fun i => (device_id (ring_switch i), ring_switch i))
                 (fun i => (switch_id i, ring_switch i)))
        by (intros i; now rewrite device_id_ring_switch).
      rewrite (map_ext (fun i => (device_id (ring_host rng i), ring_host rng i))
                 (fun i => (host_id i, ring_host rng i)))
        by (intros i; now rewrite device_id_ring_host).
      reflexivity.
    + apply NoDup_map_injective; [|apply seq_NoDup].
      intros x y. rewrite !device_id_ring_host. apply host_id_inj.
    + intros j _. rewrite device_id_ring_host.
      unfold with_devices, NetworkTopology_init.
      cbn [devices topo_name connections app].
      apply dget_map_key_None. intros a _. rewrite device_id_ring_switch.
      apply switch_id_not_host_id.
  - apply NoDup_map_injective; [|apply seq_NoDup].
    intros x y. rewrite !device_id_ring_switch. apply switch_id_inj.
  - intros i _. reflexivity.
Qed.

Lemma host_loop_pairs (n h : Z) (T : NetworkTopology) :
  (1 <= n)%Z ->
  for_each
    (combine (seq 0 (List.length (map host_id (seq 1 (Z.to_nat h)))))
       (map host_id (seq 1 (Z.to_nat h))))
    (fun '(i, host) =>
       match py_index (map switch_id (seq 1 (Z.to_nat n)))
               (Z.min (Z.of_nat i / Z.max 1 (h / n)) (n - 1)) with
       | None => raise IndexError
       | Some switch => connect_available host switch
       end) T
  = for_each (host_pairs n h) (fun '(d1, d2) => connect_available d1 d2) T.
Proof.
  intros Hn. rewrite length_map, length_seq, combine_seq_map.
  unfold host_pairs. rewrite !for_each_map.
  apply for_each_ext. intros i _ T0.
  rewrite py_index_switches.
  - change (0 + i) with i. rewrite (Nat.add_comm 1 i). reflexivity.
  - assert (0 <= Z.of_nat (0 + i) / Z.max 1 (h / n))%Z
      by (apply Z.div_pos; lia).
    lia.
Qed.

Lemma ring_loop_pairs (n : Z) (T : NetworkTopology) :
  (1 <= n)%Z ->
  for_each (seq 0 (Z.to_nat n))
    (fun i =>
       match py_index (map switch_id (seq 1 (Z.to_nat n))) (Z.of_nat i),
             py_index (map switch_id (seq 1 (Z.to_nat n)))
               ((Z.of_nat i + 1) mod n) with
       | Some switch1, Some switch2 => connect_available switch1 switch2
       | _, _ => raise IndexError
       end) T
  = for_each (ring_pairs n) (fun '(d1, d2) => connect_available d1 d2) T.
Proof.
  intros Hn. unfold ring_pairs. rewrite for_each_map.
  apply for_each_ext. intros i Hi T0. apply in_seq in Hi.
  rewrite !py_index_switches.
  - rewrite Nat2Z.id. reflexivity.
  - pose proof (Z.mod_pos_bound (Z.of_nat i + 1) n ltac:(lia)). lia.
  - lia.
Qed.

Lemma ring_pairs_in_base (n h : Z) rng (d1 d2 : string) :
  (1 <= n)%Z -> In (d1, d2) (ring_pairs n) ->
  dget d1 (devices (ring_base (Z.to_nat n) (Z.to_nat h) rng)) <> None /\
  dget d2 (devices (ring_base (Z.to_nat n) (Z.to_nat h) rng)) <> None.
Proof.
  intros Hn Hin. unfold ring_pairs in Hin. apply in_map_iff in Hin.
  destruct Hin as (i & E & Hi). injection E as <- <-. apply in_seq in Hi.
  pose proof (next_switch_range n i Hn).
  rewrite !ring_base_switch by lia. split; discriminate.
Qed.

Lemma host_pairs_in_base (n h : Z) rng (d1 d2 : string) :
  (1 <= n)%Z -> In (d1, d2) (host_pairs n h) ->
  dget d1 (devices (ring_base (Z.to_nat n) (Z.to_nat h) rng)) <> None /\
  dget d2 (devices (ring_base (Z.to_nat n) (Z.to_nat h) rng)) <> None.
Proof.
  intros Hn Hin. unfold host_pairs in Hin. apply in_map_iff in Hin.
  destruct Hin as (i & E & Hi). injection E as <- <-. apply in_seq in Hi.
  pose proof (assigned_range n h i Hn).
  rewrite ring_base_switch, ring_base_host by lia. split; discriminate.
Qed.

(** With at least one switch the generator never raises, and the topology
    it returns is the base topology wired first-fit along the host pairs
    and then the ring pairs. *)
Lemma ring_script_refines (n h : Z) rng :
  (1 <= n)%Z ->
  exists T,
    ring_script n h rng (NetworkTopology_init "Ring Network") = (inr tt, T) /\
    represents (ring_base (Z.to_nat n) (Z.to_nat h) rng) (ring_wiring n h rng) T.
Proof.
  intros Hn.
  set (B := ring_base (Z.to_nat n) (Z.to_nat h) rng).
  pose proof (ring_base_ok (Z.to_nat n) (Z.to_nat h) rng) as Hok. fold B in Hok.
  assert (represents B no_wiring B) as Hrep0.
  { apply represents_unwired; [|reflexivity].
    intros d dev Hd. eapply ring_base_fresh. exact Hd. }
  destruct (link_all_refines B (host_pairs n h) Hok
              (fun a b H => host_pairs_in_base n h rng a b Hn H) _ _ Hrep0)
    as (T1 & Hrun1 & Hrep1).
  destruct (link_all_refines B (ring_pairs n) Hok
              (fun a b H => ring_pairs_in_base n h rng a b Hn H) _ _ Hrep1)
    as (T2 & Hrun2 & Hrep2).
  exists T2. split; [|exact Hrep2].
  pose proof (ring_script_devices n h rng) as Hdev. fold B in Hdev.
  unfold ring_script. unfold bind in Hdev |- *.
  destruct (for_each (seq 1 (Z.to_nat n)) _ _) as [[e|[]] Ta];
    [discriminate Hdev|].
  rewrite Hdev.
  destruct (Z.eqb_spec n 0) as [?|_]; [lia|]. unfold ret.
  rewrite (host_loop_pairs n h B Hn), Hrun1.
  rewrite (ring_loop_pairs n T1 Hn). exact Hrun2.
Qed.

(** ** What a sequence of links adds to a wiring *)

Lemma link_cases (B : NetworkTopology) (d1 d2 : string) (w : Wiring) :
  (exists i1 i2,
      free_name B w d1 = Some i1 /\ free_name B w d2 = Some i2 /\
      link B d1 d2 w =
      mkWiring
        (upd (upd (peers w) d1 (peers w d1 ++ [(d2, i2)])%list)
           d2 (peers w d2 ++ [(d1, i1)])%list)
        (recs w ++ [(d1, i1, d2, i2)])%list) \/
  ((free_name B w d1 = None \/ free_name B w d2 = None) /\ link B d1 d2 w = w).
Proof.
  unfold link.
  destruct (free_name B w d1) as [i1|]; [|right; auto].
  destruct (free_name B w d2) as [i2|]; [|right; auto].
  left. eauto 6.
Qed.

Lemma link_peers (B : NetworkTopology) (d1 d2 : string) (w : Wiring)
  (d : string) :
  exists sp,
    peers (link B d1 d2 w) d = (peers w d ++ sp)%list /\
    List.length sp <= (if d1 =? d then 1 else 0) + (if d2 =? d then 1 else 0) /\
    forall p, In p sp -> (d = d1 /\ fst p = d2) \/ (d = d2 /\ fst p = d1).
Proof.
  destruct (link_cases B d1 d2 w) as [(i1 & i2 & _ & _ & ->)|[_ ->]].
  - simpl. unfold upd.
    destruct (String.eqb_spec d2 d) as [<-|_].
    + exists [(d1, i1)]. split; [reflexivity|]. split; [simpl; lia|].
      intros p [<-|[]]. right. auto.
    + destruct (String.eqb_spec d1 d) as [<-|_].
      * exists [(d2, i2)]. split; [reflexivity|]. split; [simpl; lia|].
        intros p [<-|[]]. left. auto.
      * exists []. split; [now rewrite app_nil_r|]. split; [simpl; lia|].
        intros p [].
  - exists []. split; [now rewrite app_nil_r|]. split; [simpl; lia|].
    intros p [].
Qed.

Lemma deg_cons (d d1 d2 : string) (pairs : list (string * string)) :
  deg d ((d1, d2) :: pairs) =
  (if d1 =? d then 1 else 0) + (if d2 =? d then 1 else 0) + deg d pairs.
Proof.
  unfold deg. simpl.
  destruct (d1 =? d), (d2 =? d); simpl; lia.
Qed.

Lemma link_all_peers (B : NetworkTopology) (pairs : list (string * string))
  (d : string) :
  forall w,
  exists sp,
    peers (link_all B pairs w) d = (peers w d ++ sp)%list /\
    List.length sp <= deg d pairs /\
    forall p, In p sp -> In (d, fst p) pairs \/ In (fst p, d) pairs.
Proof.
  induction pairs as [|[d1 d2] r IH]; intros w.
  - exists []. split; [now rewrite app_nil_r|]. split; [simpl; lia|].
    intros p [].
  - destruct (link_peers B d1 d2 w d) as (sp1 & E1 & L1 & P1).
    destruct (IH (link B d1 d2 w)) as (sp2 & E2 & L2 & P2).
    exists (sp1 ++ sp2)%list. split; [|split].
    + unfold link_all in *. simpl. rewrite E2, E1, app_assoc. reflexivity.
    + rewrite length_app, deg_cons. lia.
    + intros p Hp. apply in_app_or in Hp. destruct Hp as [Hp|Hp].
      * destruct (P1 p Hp) as [[-> <-]|[-> <-]].
        -- left. left. now destruct p.
        -- right. left. now destruct p.
      * destruct (P2 p Hp); [left|right]; now right.
Qed.

Lemma link_all_recs (B : NetworkTopology) (pairs : list (string * string)) :
  forall w,
  exists extra,
    recs (link_all B pairs w) = (recs w ++ extra)%list /\
    List.length extra <= List.length pairs /\
    forall c, In c extra -> In (conn_devices c) pairs.
Proof.
  induction pairs as [|[d1 d2] r IH]; intros w.
  - exists []. split; [now rewrite app_nil_r|]. split; [simpl; lia|].
    intros c [].
  - destruct (IH (link B d1 d2 w)) as (ex & E & L & P).
    unfold link_all in *. simpl. rewrite E.
    destruct (link_cases B d1 d2 w) as [(i1 & i2 & _ & _ & ->)|[_ ->]].
    + exists ((d1, i1, d2, i2) :: ex). simpl. split; [|split].
      * now rewrite <- app_assoc.
      * lia.
      * intros c [<-|Hc]; [now left|right; now apply P].
    + exists ex. split; [reflexivity|]. split; [simpl; lia|].
      intros c Hc. right. now apply P.
Qed.

Lemma free_name_Some (B : NetworkTopology) (w : Wiring) (d : string)
  (dev : NetworkDevice) :
  dget d (devices B) = Some dev ->
  List.length (peers w d) < List.length (interfaces dev) ->
  free_name B w d <> None.
Proof.
  intros Hd Hlt. unfold free_name. rewrite Hd.
  apply nth_error_Some. unfold dkeys. now rewrite length_map.
Qed.

Lemma deg_first_pos (d d2 : string) (pairs : list (string * string)) :
  1 <= deg d ((d, d2) :: pairs).
Proof. rewrite deg_cons, String.eqb_refl. lia. Qed.

Lemma deg_second_pos (d d1 : string) (pairs : list (string * string)) :
  1 <= deg d ((d1, d) :: pairs).
Proof. rewrite deg_cons, String.eqb_refl. lia. Qed.

Lemma link_all_exact (B : NetworkTopology) (pairs : list (string * string)) :
  (forall d1 d2, In (d1, d2) pairs ->
                 d1 <> d2 /\ dget d1 (devices B) <> None /\
                 dget d2 (devices B) <> None) ->
  forall w,
    (forall d dev, dget d (devices B) = Some dev ->
                   List.length (peers w d) + deg d pairs
                   <= List.length (interfaces dev)) ->
    (exists extra,
        recs (link_all B pairs w) = (recs w ++ extra)%list /\
        map conn_devices extra = pairs) /\
    forall d,
      List.length (peers (link_all B pairs w) d)
      = List.length (peers w d) + deg d pairs.
Proof.
  induction pairs as [|[d1 d2] r IH]; intros Hpairs w Hcap.
  - split.
    + exists []. split; [now rewrite app_nil_r|reflexivity].
    + intros d. unfold deg. simpl. lia.
  - destruct (Hpairs d1 d2 (or_introl eq_refl)) as (Hne & Hd1 & Hd2).
    destruct (dget d1 (devices B)) as [b1|] eqn:Hb1; [|congruence].
    destruct (dget d2 (devices B)) as [b2|] eqn:Hb2; [|congruence].
    pose proof (Hcap d1 b1 Hb1) as C1. pose proof (Hcap d2 b2 Hb2) as C2.
    pose proof (deg_first_pos d1 d2 r). pose proof (deg_second_pos d2 d1 r).
    assert (free_name B w d1 <> None) as F1
      by (apply (free_name_Some B w d1 b1 Hb1); lia).
    assert (free_name B w d2 <> None) as F2
      by (apply (free_name_Some B w d2 b2 Hb2); lia).
    destruct (link_cases B d1 d2 w) as [(i1 & i2 & _ & _ & E)|[[?|?] _]];
      [|congruence|congruence].
    assert (forall d, List.length (peers (link B d1 d2 w) d) =
                      List.length (peers w d) +
                      (if d1 =? d then 1 else 0) + (if d2 =? d then 1 else 0))
      as Hlen.
    { intros d. rewrite E. simpl. unfold upd.
      destruct (String.eqb_spec d2 d) as [<-|_].
      - destruct (String.eqb_spec d1 d2) as [?|_]; [contradiction|].
        rewrite length_app. simpl. lia.
      - destruct (String.eqb_spec d1 d) as [<-|_].
        + rewrite length_app. simpl. lia.
        + lia. }
    destruct (IH (fun a b H => Hpairs a b (or_intror H)) (link B d1 d2 w))
      as ((ex & Eex & Mex) & Hdeg).
    { intros d dev Hd. specialize (Hcap d dev Hd).
      rewrite deg_cons in Hcap. rewrite Hlen. lia. }
    unfold link_all in *. simpl. split.
    + exists ((d1, i1, d2, i2) :: ex). split.
      * rewrite Eex, E. simpl. now rewrite <- app_assoc.
      * simpl. now rewrite Mex.
    + intros d. rewrite Hdeg, Hlen, deg_cons. lia.
Qed.

(** ** From the wiring back to the topology *)

Lemma dkeys_combine {V} (names : list string) :
  forall vs : list V,
    List.length vs = List.length names -> dkeys (combine names vs) = names.
Proof.
  induction names as [|nm names IH]; intros [|v vs] H; try discriminate H;
    [reflexivity|].
  simpl. f_equal. apply IH. now injection H.
Qed.

Lemma dget_combine {V} (names : list string) :
  forall (vs : list V) j k,
    NoDup names -> List.length vs = List.length names ->
    nth_error names j = Some k ->
    dget k (combine names vs) = nth_error vs j.
Proof.
  induction names as [|nm names IH]; intros [|v vs] j k Hnd Hlen Hj;
    try discriminate Hlen; [now destruct j|].
  inversion Hnd as [|? ? Hnotin Hnd']; subst.
  destruct j as [|j]; simpl in *.
  - injection Hj as ->. now rewrite String.eqb_refl.
  - destruct (String.eqb_spec nm k) as [->|_].
    + exfalso. apply Hnotin. eapply nth_error_In. exact Hj.
    + apply IH; auto.
Qed.

Lemma nth_error_wired (ps : list Peer) (m j : nat) :
  j < List.length ps + m ->
  nth_error (map Some ps ++ repeat None m)%list j = Some (nth_error ps j).
Proof.
  intros Hj. destruct (Nat.lt_ge_cases j (List.length ps)) as [Hlt|Hge].
  - rewrite nth_error_app1 by now rewrite length_map.
    rewrite nth_error_map.
    destruct (nth_error ps j) eqn:E; [reflexivity|].
    apply nth_error_None in E. lia.
  - rewrite nth_error_app2 by now rewrite length_map.
    rewrite length_map, nth_error_repeat by lia.
    f_equal. symmetry. now apply nth_error_None.
Qed.

Lemma represents_interfaces (B : NetworkTopology) (w : Wiring)
  (T : NetworkTopology) (d : string) (dev dev' : NetworkDevice) :
  base_ok B -> represents B w T ->
  dget d (devices B) = Some dev -> dget d (devices T) = Some dev' ->
  interfaces dev' = wired_interfaces (dkeys (interfaces dev)) (peers w d).
Proof.
  intros Hok Hrep Hd Hd'.
  destruct (represents_lookup B w T d dev Hrep Hd) as (dev'' & E & Hshape & Hget).
  rewrite Hd' in E. injection E as <-.
  destruct Hshape as (_ & _ & _ & _ & Hkeys).
  destruct (Hok d dev Hd) as [Hnd _].
  destruct Hrep as (_ & _ & _ & Hslots). destruct (Hslots d dev Hd) as [Hlen _].
  set (names := dkeys (interfaces dev)) in *.
  assert (List.length names = List.length (interfaces dev)) as Hn
    by (unfold names, dkeys; now rewrite length_map).
  assert (List.length (map Some (peers w d) ++
                       repeat None (List.length names - List.length (peers w d)))%list
          = List.length names) as Hvs.
  { rewrite length_app, length_map, repeat_length. lia. }
  unfold wired_interfaces. apply dict_ext.
  - rewrite Hkeys. symmetry. now apply dkeys_combine.
  - now rewrite Hkeys.
  - intros k.
    destruct (in_dec string_dec k names) as [Hin|Hnotin].
    + destruct (In_nth_error names k Hin) as [j Hj].
      rewrite (Hget j k Hj), (dget_combine names _ j k Hnd Hvs Hj).
      symmetry. apply nth_error_wired.
      assert (j < List.length names) by (apply nth_error_Some; congruence).
      lia.
    + transitivity (@None (option Peer)).
      * apply dget_None_iff. now rewrite Hkeys.
      * symmetry. apply dget_None_iff. now rewrite dkeys_combine.
Qed.

Lemma filter_combine_snd {V} (g : V -> bool) (names : list string) :
  forall vs : list V,
    List.length vs = List.length names ->
    List.length (filter (fun e => g (snd e)) (combine names vs))
    = List.length (filter g vs).
Proof.
  induction names as [|nm names IH]; intros [|v vs] H; try discriminate H;
    [reflexivity|].
  simpl. injection H as H. destruct (g v); simpl; now rewrite IH.
Qed.

Lemma filter_repeat_false {V} (g : V -> bool) (x : V) (m : nat) :
  g x = false -> filter g (repeat x m) = [].
Proof.
  intros H. induction m as [|m IH]; simpl; [reflexivity|]. now rewrite H.
Qed.

Lemma filter_wired_length (g : option Peer -> bool) (names : list string)
  (ps : list Peer) :
  g None = false -> List.length ps <= List.length names ->
  List.length (filter (fun e => g (snd e)) (wired_interfaces names ps))
  = List.length (filter (fun p => g (Some p)) ps).
Proof.
  intros Hnone Hlen. unfold wired_interfaces.
  rewrite filter_combine_snd
    by (rewrite length_app, length_map, repeat_length; lia).
  rewrite filter_app, filter_repeat_false, app_nil_r by assumption.
  clear. induction ps as [|p ps IH]; simpl; [reflexivity|].
  destruct (g (Some p)); simpl; now rewrite IH.
Qed.

Lemma is_switch_frame (B T : NetworkTopology) (d : string) :
  dev_frame B T -> is_switch T d = is_switch B d.
Proof.
  intros (_ & _ & F). specialize (F d). unfold is_switch.
  destruct (dget d (devices B)), (dget d (devices T)); try tauto.
  destruct F as (_ & -> & _). reflexivity.
Qed.

Lemma is_switch_ring_base (N H : nat) rng (d : string) :
  is_switch (ring_base N H rng) d = true <->
  exists a, 1 <= a <= N /\ d = switch_id a.
Proof.
  unfold is_switch. split.
  - destruct (dget d (devices (ring_base N H rng))) as [dev|] eqn:E;
      [|discriminate].
    destruct (ring_base_device N H rng d dev E)
      as [(a & Ha & -> & _)|(j & _ & _ & ->)]; [eauto|].
    destruct (ring_host_spec rng j) as (nm & ps & ->). discriminate.
  - intros (a & Ha & ->). rewrite ring_base_switch by assumption.
    now rewrite ring_switch_spec.
Qed.

(** ** Counting *)

Lemma filter_map_length {A B} (p : B -> bool) (f : A -> B) (l : list A) :
  List.length (filter p (map f l))
  = List.length (filter (fun x => p (f x)) l).
Proof.
  induction l as [|x l IH]; simpl; [reflexivity|].
  destruct (p (f x)); simpl; now rewrite IH.
Qed.

Lemma filter_none {A} (p : A -> bool) (l : list A) :
  (forall x, In x l -> p x = false) -> filter p l = [].
Proof.
  induction l as [|x l IH]; intros H; simpl; [reflexivity|].
  rewrite (H x (or_introl eq_refl)). apply IH. intros; apply H; now right.
Qed.

Lemma filter_all {A} (p : A -> bool) (l : list A) :
  (forall x, In x l -> p x = true) -> filter p l = l.
Proof.
  induction l as [|x l IH]; intros H; simpl; [reflexivity|].
  rewrite (H x (or_introl eq_refl)). f_equal.
  apply IH. intros; apply H; now right.
Qed.

Lemma count_unique {A} (p : A -> bool) (l : list A) (x : A) :
  NoDup l -> In x l -> p x = true ->
  (forall y, In y l -> p y = true -> y = x) ->
  List.length (filter p l) = 1.
Proof.
  induction l as [|y l IH]; intros Hnd Hin Hpx Huniq; [destruct Hin|].
  inversion Hnd as [|? ? Hnotin Hnd']; subst. simpl.
  destruct Hin as [->|Hin].
  - rewrite Hpx. simpl. rewrite filter_none; [reflexivity|].
    intros z Hz. destruct (p z) eqn:E; [|reflexivity].
    exfalso. apply Hnotin. rewrite <- (Huniq z (or_intror Hz) E). exact Hz.
  - destruct (p y) eqn:E.
    + exfalso. apply Hnotin. rewrite (Huniq y (or_introl eq_refl) E). exact Hin.
    + apply IH; auto. intros z Hz. apply Huniq. now right.
Qed.

Lemma switch_id_eqb (a b : nat) : (switch_id a =? switch_id b) = (a =? b)%nat.
Proof.
  destruct (Nat.eqb_spec a b) as [->|Hne].
  - apply String.eqb_refl.
  - apply String.eqb_neq. intros E. apply Hne. now apply switch_id_inj.
Qed.

Lemma host_id_eqb_switch_id (a b : nat) : (host_id a =? switch_id b) = false.
Proof.
  apply String.eqb_neq. intros E. symmetry in E.
  now apply switch_id_not_host_id in E.
Qed.

(** ** The pairs of the ring generator *)

Lemma next_switch_nat (n : Z) (i : nat) :
  (1 <= n)%Z -> i < Z.to_nat n ->
  next_switch n i = if (i + 1 <? Z.to_nat n)%nat then i + 2 else 1.
Proof.
  intros Hn Hi. unfold next_switch.
  destruct (Nat.ltb_spec (i + 1) (Z.to_nat n)) as [Hlt|Hge].
  - rewrite Z.mod_small by lia. lia.
  - replace (Z.of_nat i + 1)%Z with n by lia.
    rewrite Z.mod_same by lia. reflexivity.
Qed.

Lemma next_switch_other (n : Z) (i : nat) :
  (2 <= n)%Z -> i < Z.to_nat n -> next_switch n i <> i + 1.
Proof.
  intros Hn Hi. rewrite next_switch_nat by lia.
  destruct (Nat.ltb_spec (i + 1) (Z.to_nat n)); lia.
Qed.

Lemma deg_host_pairs (n h : Z) (a : nat) :
  deg (switch_id a) (host_pairs n h) = hosts_on n h a.
Proof.
  unfold deg, host_pairs, hosts_on. rewrite !filter_map_length. cbn [fst snd].
  rewrite filter_none by (intros; apply host_id_eqb_switch_id).
  cbn [List.length Nat.add]. f_equal. apply filter_ext. intros i. apply switch_id_eqb.
Qed.

Lemma deg_ring_pairs_switch (n : Z) (a : nat) :
  (2 <= n)%Z -> 1 <= a <= Z.to_nat n ->
  deg (switch_id a) (ring_pairs n) = 2.
Proof.
  intros Hn Ha. unfold deg, ring_pairs. rewrite !filter_map_length. cbn [fst snd].
  rewrite (count_unique _ _ (a - 1)).
  - rewrite (count_unique _ _ (if (a =? 1)%nat then Z.to_nat n - 1 else a - 2)).
    + reflexivity.
    + apply seq_NoDup.
    + apply in_seq. destruct (Nat.eqb_spec a 1); lia.
    + rewrite switch_id_eqb. apply Nat.eqb_eq.
      rewrite next_switch_nat by (destruct (Nat.eqb_spec a 1); lia).
      destruct (Nat.eqb_spec a 1);
        match goal with |- context [(?x <? ?y)%nat] =>
          destruct (Nat.ltb_spec x y) end; lia.
    + intros i Hi E. apply in_seq in Hi. rewrite switch_id_eqb in E.
      apply Nat.eqb_eq in E. rewrite next_switch_nat in E by lia.
      destruct (Nat.eqb_spec a 1);
        destruct (Nat.ltb_spec (i + 1) (Z.to_nat n)); lia.
  - apply seq_NoDup.
  - apply in_seq. lia.
  - rewrite switch_id_eqb. apply Nat.eqb_eq. lia.
  - intros i _ E. rewrite switch_id_eqb in E. apply Nat.eqb_eq in E. lia.
Qed.

Lemma deg_ring_pairs_host (n : Z) (j : nat) :
  deg (host_id j) (ring_pairs n) = 0.
Proof.
  unfold deg, ring_pairs. rewrite !filter_map_length. cbn [fst snd].
  rewrite !filter_none; [reflexivity| |].
  - intros i _. rewrite String.eqb_sym. apply host_id_eqb_switch_id.
  - intros i _. rewrite String.eqb_sym. apply host_id_eqb_switch_id.
Qed.

Lemma ring_pairs_spec (n : Z) (d1 d2 : string) :
  (2 <= n)%Z -> In (d1, d2) (ring_pairs n) ->
  exists a b,
    1 <= a <= Z.to_nat n /\ 1 <= b <= Z.to_nat n /\ a <> b /\
    d1 = switch_id a /\ d2 = switch_id b.
Proof.
  intros Hn Hin. unfold ring_pairs in Hin. apply in_map_iff in Hin.
  destruct Hin as (i & E & Hi). injection E as <- <-. apply in_seq in Hi.
  exists (i + 1), (next_switch n i).
  pose proof (next_switch_range n i ltac:(lia)).
  pose proof (next_switch_other n i Hn ltac:(lia)).
  repeat split; lia.
Qed.

Lemma host_pairs_spec (n h : Z) (d1 d2 : string) :
  In (d1, d2) (host_pairs n h) ->
  exists j a, d1 = host_id j /\ d2 = switch_id a.
Proof.
  intros Hin. unfold host_pairs in Hin. apply in_map_iff in Hin.
  destruct Hin as (i & E & _). injection E as <- <-. eauto.
Qed.

(** ** The ring generator: results *)

Lemma host_wiring_represented (n h : Z) rng :
  (1 <= n)%Z ->
  exists T1,
    represents (ring_base (Z.to_nat n) (Z.to_nat h) rng)
      (link_all (ring_base (Z.to_nat n) (Z.to_nat h) rng) (host_pairs n h)
         no_wiring) T1.
Proof.
  intros Hn.
  set (B := ring_base (Z.to_nat n) (Z.to_nat h) rng).
  pose proof (ring_base_ok (Z.to_nat n) (Z.to_nat h) rng) as Hok. fold B in Hok.
  assert (represents B no_wiring B) as Hrep0.
  { apply represents_unwired; [|reflexivity].
    intros d dev Hd. eapply ring_base_fresh. exact Hd. }
  destruct (link_all_refines B (host_pairs n h) Hok
              (fun a b H => host_pairs_in_base n h rng a b Hn H) _ _ Hrep0)
    as (T1 & _ & Hrep1).
  eauto.
Qed.

Lemma create_ring_network_wired (n h : Z) rng :
  (1 <= n)%Z ->
  exists T,
    create_ring_network n h rng = inr T /\
    represents (ring_base (Z.to_nat n) (Z.to_nat h) rng) (ring_wiring n h rng) T.
Proof.
  intros Hn. destruct (ring_script_refines n h rng Hn) as (T & Hrun & Hrep).
  exists T. split; [|exact Hrep].
  unfold create_ring_network, built. now rewrite Hrun.
Qed.

Lemma host_records_not_switch (n h : Z) rng (T : NetworkTopology)
  (ex : list Conn) :
  dev_frame (ring_base (Z.to_nat n) (Z.to_nat h) rng) T ->
  (forall c, In c ex -> In (conn_devices c) (host_pairs n h)) ->
  filter (switch_to_switch T) ex = [].
Proof.
  intros Hframe Hex. apply filter_none. intros c Hc.
  specialize (Hex c Hc). destruct (conn_devices c) as [d1 d2] eqn:E.
  destruct (host_pairs_spec n h d1 d2 Hex) as (j & a & -> & ->).
  unfold switch_to_switch. rewrite E. cbn [fst snd].
  rewrite (is_switch_frame _ T (host_id j) Hframe).
  destruct (is_switch (ring_base (Z.to_nat n) (Z.to_nat h) rng) (host_id j))
    eqn:Es; [|reflexivity].
  apply is_switch_ring_base in Es. destruct Es as (b & _ & Eb).
  symmetry in Eb. now apply switch_id_not_host_id in Eb.
Qed.

(** With at least one switch the generator returns, and the topology has
    at most one switch-to-switch record per switch. *)
Lemma ring_ss_records_bound (n h : Z) rng :
  (1 <= n)%Z ->
  exists T,
    create_ring_network n h rng = inr T /\
    List.length (ss_records T) <= Z.to_nat n.
Proof.
  intros Hn. destruct (create_ring_network_wired n h rng Hn) as (T & Hrun & Hrep).
  exists T. split; [exact Hrun|].
  destruct Hrep as (Hframe & Hconn & _ & _).
  unfold ss_records. rewrite Hconn. unfold ring_wiring.
  set (B := ring_base (Z.to_nat n) (Z.to_nat h) rng) in *.
  destruct (link_all_recs B (host_pairs n h) no_wiring) as (ex1 & E1 & _ & P1).
  destruct (link_all_recs B (ring_pairs n) (link_all B (host_pairs n h) no_wiring))
    as (ex2 & E2 & L2 & _).
  rewrite E2, E1. simpl. rewrite filter_app, length_app.
  rewrite (host_records_not_switch n h rng T ex1 Hframe P1). simpl.
  pose proof (filter_length_le (switch_to_switch T) ex2) as Hle.
  unfold ring_pairs in L2. rewrite length_map, length_seq in L2. lia.
Qed.

Lemma py_index_nil {A} (z : Z) : py_index (@nil A) z = None.
Proof.
  unfold py_index. simpl.
  destruct (Z.ltb_spec z 0); [rewrite Z.add_0_r|];
    destruct (Z.ltb_spec z 0); destruct (Z.leb_spec 0 z); simpl;
    try reflexivity; lia.
Qed.

(** Without switches the generator divides by zero, or indexes an empty
    list as soon as there is a host. *)
Lemma create_ring_network_no_switch (n h : Z) rng :
  (n <= 0)%Z ->
  create_ring_network n h rng =
  if (n =? 0)%Z then inl ZeroDivisionError
  else if (h <=? 0)%Z then inr (NetworkTopology_init "Ring Network")
       else inl IndexError.
Proof.
  intros Hn. unfold create_ring_network, built, ring_script.
  pose proof (ring_script_devices n h rng) as Hdev.
  unfold bind in Hdev |- *.
  destruct (for_each (seq 1 (Z.to_nat n)) _ _) as [[e|[]] Ta];
    [discriminate Hdev|].
  rewrite Hdev.
  destruct (Z.eqb_spec n 0) as [E|Hne]; [reflexivity|]. unfold ret.
  replace (Z.to_nat n) with 0 by lia. rewrite length_map, length_seq.
  destruct (Z.leb_spec h 0) as [Hh|Hh].
  - replace (Z.to_nat h) with 0 by lia. reflexivity.
  - destruct (Z.to_nat h) as [|H'] eqn:EH; [lia|].
    cbn [seq map combine for_each]. unfold bind.
    rewrite py_index_nil. reflexivity.
Qed.

(** C5, as stated, fails: with two switches and four hosts the ring loop
    connects switch1 to switch2 and then switch2 to switch1 on the next two
    free ports, which gives two switch-to-switch records; and with one
    switch it connects the first free port of switch1 to itself, which is a
    ring edge. *)
Lemma ring_of_two_has_two_links :
  (exists T,
      create_ring_network 2 4 fixed_rng = inr T /\
      List.length (ss_records T) = 2 /\
      In ("switch1", "port3", "switch2", "port3") (ss_records T) /\
      In ("switch2", "port4", "switch1", "port4") (ss_records T)) /\
  (exists T,
      create_ring_network 1 0 fixed_rng = inr T /\
      List.length (ss_records T) = 1 /\
      In ("switch1", "port1", "switch1", "port1") (ss_records T)).
Proof.
  split; eexists; (split; [vm_compute; reflexivity|]).
  - split; [vm_compute; reflexivity|].
    split; vm_compute; [left|right; left]; reflexivity.
  - split; [vm_compute; reflexivity|]. vm_compute. left. reflexivity.
Qed.

Lemma ring_capacity (n h : Z) rng (T1 : NetworkTopology) :
  (2 <= n)%Z ->
  (forall a, 1 <= a <= Z.to_nat n -> hosts_on n h a <= 22) ->
  represents (ring_base (Z.to_nat n) (Z.to_nat h) rng)
    (link_all (ring_base (Z.to_nat n) (Z.to_nat h) rng) (host_pairs n h)
       no_wiring) T1 ->
  forall d dev,
    dget d (devices (ring_base (Z.to_nat n) (Z.to_nat h) rng)) = Some dev ->
    List.length
      (peers (link_all (ring_base (Z.to_nat n) (Z.to_nat h) rng)
                (host_pairs n h) no_wiring) d)
    + deg d (ring_pairs n) <= List.length (interfaces dev).
Proof.
  intros Hn Hcap Hrep1 d dev Hd.
  destruct (ring_base_device _ _ _ d dev Hd)
    as [(a & Ha & -> & ->)|(j & Hj & -> & ->)].
  - destruct (link_all_peers (ring_base (Z.to_nat n) (Z.to_nat h) rng)
                (host_pairs n h) (switch_id a) no_wiring)
      as (sp & E & L & _).
    rewrite deg_host_pairs in L. rewrite E.
    cbn [peers no_wiring]. rewrite app_nil_l.
    rewrite deg_ring_pairs_switch by assumption.
    rewrite ring_switch_spec. cbn [interfaces]. unfold fresh_interfaces.
    rewrite !length_map, length_seq. specialize (Hcap a Ha). lia.
  - rewrite deg_ring_pairs_host, Nat.add_0_r.
    destruct Hrep1 as (_ & _ & _ & Hs). now destruct (Hs _ _ Hd).
Qed.

Lemma ring_exact (n h : Z) rng :
  (2 <= n)%Z ->
  (forall a, 1 <= a <= Z.to_nat n -> hosts_on n h a <= 22) ->
  exists T,
    create_ring_network n h rng = inr T /\
    List.length (ss_records T) = Z.to_nat n /\
    (forall a, 1 <= a <= Z.to_nat n -> is_switch T (switch_id a) = true) /\
    (forall d dev,
        dget d (devices T) = Some dev -> device_type dev = "switch" ->
        List.length (switch_facing T dev) = 2).
Proof.
  intros Hn Hcap.
  assert (1 <= n)%Z as Hn1 by lia.
  destruct (create_ring_network_wired n h rng Hn1) as (T & Hrun & Hrep).
  destruct (host_wiring_represented n h rng Hn1) as (T1 & Hrep1).
  exists T. split; [exact Hrun|].
  pose proof (ring_base_ok (Z.to_nat n) (Z.to_nat h) rng) as Hok.
  unfold ring_wiring in Hrep.
  set (B := ring_base (Z.to_nat n) (Z.to_nat h) rng) in *.
  set (w1 := link_all B (host_pairs n h) no_wiring) in *.
  destruct (link_all_exact B (ring_pairs n)) with (w := w1)
    as ((ex2 & E2 & M2) & Hdeg).
  { intros d1 d2 Hin.
    destruct (ring_pairs_spec n d1 d2 Hn Hin) as (a & b & Ha & Hb & Hab & -> & ->).
    split; [|now apply (ring_pairs_in_base n h rng)].
    intros E. apply Hab. now apply switch_id_inj. }
  { apply (ring_capacity n h rng T1); assumption. }
  pose proof Hrep as (Hframe & Hconn & _ & Hslots).
  assert (forall a, 1 <= a <= Z.to_nat n -> is_switch B (switch_id a) = true)
    as Hsw by (intros a Ha; apply is_switch_ring_base; eauto).
  assert (forall j, is_switch B (host_id j) = false) as Hho.
  { intros j. destruct (is_switch B (host_id j)) eqn:Es; [|reflexivity].
    apply is_switch_ring_base in Es. destruct Es as (b & _ & Eb).
    symmetry in Eb. now apply switch_id_not_host_id in Eb. }
  split; [|split].
  - unfold ss_records. rewrite Hconn, E2.
    destruct (link_all_recs B (host_pairs n h) no_wiring) as (ex1 & E1 & _ & P1).
    fold w1 in E1. rewrite E1. cbn [recs no_wiring]. rewrite app_nil_l.
    rewrite filter_app, length_app.
    rewrite (host_records_not_switch n h rng T ex1 Hframe P1).
    cbn [List.length Nat.add].
    rewrite filter_all.
    + rewrite <- (length_map conn_devices), M2. unfold ring_pairs.
      now rewrite length_map, length_seq.
    + intros c Hc. apply (in_map conn_devices) in Hc. rewrite M2 in Hc.
      destruct (conn_devices c) as [d1 d2] eqn:Ec.
      destruct (ring_pairs_spec n d1 d2 Hn Hc) as (a & b & Ha & Hb & _ & -> & ->).
      unfold switch_to_switch. rewrite Ec. cbn [fst snd].
      rewrite !(is_switch_frame B T _ Hframe).
      now rewrite (Hsw a Ha), (Hsw b Hb).
  - intros a Ha. rewrite (is_switch_frame B T _ Hframe). now apply Hsw.
  - intros d dev' Hd' Hty.
    destruct Hframe as (Fn & Fk & Fd). pose proof (Fd d) as Fdd.
    rewrite Hd' in Fdd.
    destruct (dget d (devices B)) as [dev|] eqn:Hd; [|contradiction].
    destruct Fdd as (Sid & Sty & _).
    destruct (ring_base_device _ _ _ d dev Hd)
      as [(a & Ha & -> & ->)|(j & Hj & -> & ->)].
    2:{ destruct (ring_host_spec rng j) as (nm & ps & E). rewrite E in Sty.
        cbn [device_type] in Sty. rewrite Hty in Sty. discriminate Sty. }
    unfold switch_facing.
    rewrite (represents_interfaces B _ T (switch_id a) (ring_switch a) dev'
               Hok Hrep Hd Hd').
    rewrite Sid, ring_switch_spec. cbn [device_id interfaces].
    rewrite dkeys_fresh_interfaces.
    destruct (Hslots _ _ Hd) as [Hlen _].
    rewrite ring_switch_spec in Hlen. cbn [interfaces] in Hlen.
    unfold fresh_interfaces in Hlen. rewrite length_map in Hlen.
    rewrite filter_wired_length; [|reflexivity|exact Hlen].
    destruct (link_all_peers B (ring_pairs n) (switch_id a) w1)
      as (sp2 & Ep2 & _ & P2).
    destruct (link_all_peers B (host_pairs n h) (switch_id a) no_wiring)
      as (sp1 & Ep1 & _ & P1).
    fold w1 in Ep1. cbn [peers no_wiring] in Ep1. rewrite app_nil_l in Ep1.
    pose proof (Hdeg (switch_id a)) as Hl.
    rewrite deg_ring_pairs_switch in Hl by assumption.
    rewrite Ep2 in Hl |- *. rewrite length_app in Hl.
    rewrite filter_app, length_app.
    rewrite filter_none, filter_all; [cbn [List.length Nat.add]; lia| |].
    + intros [p pi] Hp. specialize (P2 _ Hp). cbn [fst] in P2.
      assert (exists b, 1 <= b <= Z.to_nat n /\ b <> a /\ p = switch_id b)
        as (b & Hb & Hba & ->).
      { destruct P2 as [Hin|Hin];
          destruct (ring_pairs_spec n _ _ Hn Hin)
            as (x & y & Hx & Hy & Hxy & Ex & Ey).
        - apply switch_id_inj in Ex. subst x. exists y. auto.
        - apply switch_id_inj in Ey. subst y. exists x. auto. }
      cbn [faces_other_switch].
      rewrite (is_switch_frame B T _ (conj Fn (conj Fk Fd))).
      rewrite (Hsw b Hb), switch_id_eqb.
      destruct (Nat.eqb_spec b a); [contradiction|reflexivity].
    + intros [p pi] Hp. rewrite Ep1 in Hp. specialize (P1 _ Hp).
      cbn [fst] in P1.
      assert (exists j, p = host_id j) as (j & ->).
      { destruct P1 as [Hin|Hin];
          destruct (host_pairs_spec n h _ _ Hin) as (j & b & Ej & Eb).
        - now apply switch_id_not_host_id in Ej.
        - eauto. }
      cbn [faces_other_switch].
      rewrite (is_switch_frame B T _ (conj Fn (conj Fk Fd))).
      now rewrite Hho.
Qed.

(** ** How many hosts a switch gets *)

Lemma count_in_interval (p : nat -> bool) (l : list nat) (lo len : nat) :
  NoDup l ->
  (forall i, In i l -> p i = true -> lo <= i < lo + len) ->
  List.length (filter p l) <= len.
Proof.
  intros Hnd Hin.
  apply Nat.le_trans with (List.length (seq lo len));
    [|now rewrite length_seq].
  apply NoDup_incl_length.
  - now apply NoDup_filter.
  - intros i Hi. apply filter_In in Hi. destruct Hi as [Hi Hp].
    apply in_seq. now apply Hin.
Qed.

(** Every switch but the last gets [hosts_per_switch] hosts at most, and
    the last one gets the remaining ones. *)
Lemma hosts_on_bound (n h : Z) (a : nat) :
  (1 <= n)%Z -> 1 <= a <= Z.to_nat n ->
  (h - (n - 1) * Z.max 1 (h / n) <= 22)%Z ->
  hosts_on n h a <= 22.
Proof.
  intros Hn Ha Hcap. unfold hosts_on.
  set (hps := Z.max 1 (h / n)) in *.
  assert (1 <= hps)%Z as Hhps by (unfold hps; lia).
  assert (hps <= 22)%Z as Hhps22.
  { unfold hps in *. destruct (Z.max_spec 1 (h / n)) as [[_ E]|[_ E]];
      rewrite E in *; [|lia].
    pose proof (Z.mul_div_le h n ltac:(lia)). lia. }
  assert (0 <= (n - 1) * hps)%Z as Hprod
    by (apply Z.mul_nonneg_nonneg; lia).
  destruct (Nat.eq_dec a (Z.to_nat n)) as [Elast|Hnot].
  - apply Nat.le_trans
      with (Z.to_nat h - Z.to_nat ((n - 1) * hps)); [|lia].
    apply (count_in_interval _ _ (Z.to_nat ((n - 1) * hps))).
    + apply seq_NoDup.
    + intros i Hi E. apply in_seq in Hi. apply Nat.eqb_eq in E.
      unfold assigned in E. fold hps in E.
      pose proof (Z.mul_div_le (Z.of_nat i) hps ltac:(lia)) as Hm.
      assert (0 <= Z.of_nat i / hps)%Z as Hq0 by (apply Z.div_pos; lia).
      remember (Z.of_nat i / hps)%Z as q eqn:Eq.
      assert (n - 1 <= q)%Z as Hq by lia.
      assert ((n - 1) * hps <= hps * q)%Z as Hmono.
      { rewrite (Z.mul_comm (n - 1) hps).
        apply Z.mul_le_mono_nonneg_l; lia. }
      lia.
  - apply Nat.le_trans with (Z.to_nat hps); [|lia].
    apply (count_in_interval _ _ (Z.to_nat ((Z.of_nat a - 1) * hps))).
    + apply seq_NoDup.
    + intros i Hi E. apply Nat.eqb_eq in E.
      unfold assigned in E. fold hps in E.
      assert (0 <= Z.of_nat i / hps)%Z as Hq0 by (apply Z.div_pos; lia).
      pose proof (Z.div_mod (Z.of_nat i) hps ltac:(lia)) as Hdm.
      pose proof (Z.mod_pos_bound (Z.of_nat i) hps ltac:(lia)) as Hmb.
      remember (Z.of_nat i / hps)%Z as q eqn:Eq.
      remember (Z.of_nat i mod hps)%Z as r eqn:Er.
      assert (q = Z.of_nat a - 1)%Z as Hq by lia.
      rewrite Hq in Hdm.
      rewrite (Z.mul_comm hps (Z.of_nat a - 1)) in Hdm.
      assert (0 <= (Z.of_nat a - 1) * hps)%Z by (apply Z.mul_nonneg_nonneg; lia).
      lia.
Qed.

(** C6, as stated, fails: with three switches and 72 hosts every switch
    gets 24 hosts, which fill its 24 ports, so the ring loop finds no
    available interface and adds no switch-to-switch record at all. *)
Lemma ring_without_free_ports_has_no_links :
  exists T,
    create_ring_network 3 72 fixed_rng = inr T /\
    ss_records T = [] /\
    (forall a, 1 <= a <= 3 ->
       exists dev, dget (switch_id a) (devices T) = Some dev /\
                   switch_facing T dev = []).
Proof.
  eexists. split; [vm_compute; reflexivity|]. split; [vm_compute; reflexivity|].
  intros a Ha.
  assert (a = 1 \/ a = 2 \/ a = 3) as [->|[->| ->]] by lia;
    (eexists; split; [vm_compute; reflexivity|vm_compute; reflexivity]).
Qed.

(** C6 (amended).  For every numSwitches n >= 3 and every numHosts h that
    leaves each switch two free ports after the hosts are attached, that
    is, with at most 22 hosts on the last switch,
    h - (n - 1) * max(1, h // n) <= 22, the ring generator returns a
    topology with exactly n switch-to-switch records in which switch1 ..
    switchn are switches and every switch has exactly 2 interface slots
    whose peer is another switch. *)
Theorem ring_has_n_links (n h : Z) (rng : nat -> nat * nat * nat) :
  (3 <= n)%Z ->
  (h - (n - 1) * Z.max 1 (h / n) <= 22)%Z ->
  exists T,
    create_ring_network n h rng = inr T /\
    List.length (ss_records T) = Z.to_nat n /\
    (forall a, 1 <= a <= Z.to_nat n -> is_switch T (switch_id a) = true) /\
    (forall d dev,
        dget d (devices T) = Some dev -> device_type dev = "switch" ->
        List.length (switch_facing T dev) = 2).
Proof.
  intros Hn Hcap. apply ring_exact; [lia|].
  intros a Ha. apply hosts_on_bound; [lia|assumption|assumption].
Qed.

Lemma ring_has_n_links_witness :
  exists T,
    create_ring_network 4 4 fixed_rng = inr T /\
    List.length (ss_records T) = Z.to_nat 4 /\
    (forall a, 1 <= a <= Z.to_nat 4 -> is_switch T (switch_id a) = true) /\
    (forall d dev,
        dget d (devices T) = Some dev -> device_type dev = "switch" ->
        List.length (switch_facing T dev) = 2).
Proof.
  apply (ring_has_n_links 4 4 fixed_rng).
  - lia.
  - vm_compute. discriminate.
Defined.

(* ===================================================================== *)
(** * Further properties of the device and topology operations *)
(* ===================================================================== *)

(** ** Devices *)

(** [add_interface] is idempotent: a second call with the same name changes
    nothing; a call with a name the device has leaves the device as it is,
    connection included; a call with a new name appends an unconnected
    interface after the existing ones. *)
Theorem add_interface_idempotent (d : NetworkDevice) (n : string) :
  add_interface (add_interface d n) n = add_interface d n /\
  (forall c, dget n (interfaces d) = Some c ->
             add_interface d n = d /\
             dget n (interfaces (add_interface d n)) = Some c) /\
  (dget n (interfaces d) = None ->
   interfaces (add_interface d n) = (interfaces d ++ [(n, None)])%list /\
   properties (add_interface d n) = properties d).
Proof.
  split; [|split].
  - unfold add_interface at 1.
    unfold dmem. destruct (dget n (interfaces (add_interface d n))) eqn:E;
      [reflexivity|].
    exfalso. unfold add_interface, dmem in E.
    destruct (dget n (interfaces d)) eqn:E0; [congruence|].
    simpl in E. rewrite dget_dset_same in E. discriminate E.
  - intros c Hc. unfold add_interface, dmem. rewrite Hc. auto.
  - intros Hn. split; [now apply add_interface_new|].
    apply add_interface_fields.
Qed.

Lemma add_interface_idempotent_witness :
  add_interface (Host "h" None VNone (0, 0, 0)) "eth0"
    = Host "h" None VNone (0, 0, 0) /\
  dget "eth0" (interfaces (add_interface (Host "h" None VNone (0, 0, 0)) "eth0"))
    = Some None.
Proof.
  apply (proj1 (proj2 (add_interface_idempotent
                         (Host "h" None VNone (0, 0, 0)) "eth0")) None).
  reflexivity.
Defined.

(** [get_available_interface] is first-fit: the interface it returns is
    unconnected and every interface before it, in insertion order, is
    connected; it returns nothing exactly when every interface is
    connected. *)
Theorem get_available_interface_first_fit (d : NetworkDevice) :
  match get_available_interface d with
  | Some i =>
      exists before after,
        interfaces d = (before ++ (i, None) :: after)%list /\
        forall e, In e before -> snd e <> None
  | None => forall e, In e (interfaces d) -> snd e <> None
  end.
Proof.
  unfold get_available_interface.
  induction (interfaces d) as [|[k [p|]] r IH]; simpl.
  - intros e [].
  - destruct (first_free r) as [i|].
    + destruct IH as (before & after & E & Hb).
      exists ((k, Some p) :: before), after. split.
      * simpl. now rewrite E.
      * intros e [<-|He]; [discriminate|now apply Hb].
    + intros e [<-|He]; [discriminate|now apply IH].
  - exists [], r. split; [reflexivity|]. intros e [].
Qed.

(** ** Generated MAC addresses *)

Lemma format_02x_two_digits (n : nat) :
  n < 256 -> two_hex_digits (format_02x n) = true.
Proof.
  intros Hn.
  assert (forallb (fun k => two_hex_digits (format_02x k)) (seq 0 256) = true)
    as Hall by (vm_compute; reflexivity).
  rewrite forallb_forall in Hall. apply Hall. apply in_seq. lia.
Qed.

(** For random octets in 0..255 the generated address is the prefix
    02:00:00 followed by three groups of two lower-case hexadecimal
    digits, 17 characters in all. *)
Theorem generate_mac_address_pattern (a b c : nat) :
  a < 256 -> b < 256 -> c < 256 ->
  exists x y z,
    generate_mac_address (a, b, c)
      = "02:00:00:" ++ x ++ ":" ++ y ++ ":" ++ z /\
    two_hex_digits x = true /\ two_hex_digits y = true /\
    two_hex_digits z = true /\
    String.length (generate_mac_address (a, b, c)) = 17.
Proof.
  intros Ha Hb Hc.
  pose proof (format_02x_two_digits a Ha) as Xa.
  pose proof (format_02x_two_digits b Hb) as Xb.
  pose proof (format_02x_two_digits c Hc) as Xc.
  exists (format_02x a), (format_02x b), (format_02x c).
  unfold generate_mac_address.
  destruct (format_02x a) as [|a1 [|a2 [|? ?]]]; try discriminate Xa.
  destruct (format_02x b) as [|b1 [|b2 [|? ?]]]; try discriminate Xb.
  destruct (format_02x c) as [|c1 [|c2 [|? ?]]]; try discriminate Xc.
  repeat split; assumption.
Qed.

Lemma generate_mac_address_pattern_witness :
  exists x y z,
    generate_mac_address (1, 171, 255)
      = "02:00:00:" ++ x ++ ":" ++ y ++ ":" ++ z /\
    two_hex_digits x = true /\ two_hex_digits y = true /\
    two_hex_digits z = true /\
    String.length (generate_mac_address (1, 171, 255)) = 17.
Proof.
  apply (generate_mac_address_pattern 1 171 255); lia.
Defined.

(** [Host.__init__] with a non-empty address stores the address and a
    generated MAC address; without one it stores no property.  In both cases
    the host has the single unconnected interface eth0. *)
Theorem Host_properties (id : string) (nm : option string) (ip : PyVal)
  (rnd : nat * nat * nat) :
  interfaces (Host id nm ip rnd) = [("eth0", None)] /\
  device_type (Host id nm ip rnd) = "host" /\
  (py_truthy ip = true ->
   get_property (Host id nm ip rnd) "ip_address" = Some ip /\
   get_property (Host id nm ip rnd) "mac_address"
     = Some (VStr (generate_mac_address rnd))) /\
  (py_truthy ip = false -> properties (Host id nm ip rnd) = []).
Proof.
  rewrite Host_spec. unfold host_defaults, get_property.
  cbn [interfaces device_type properties].
  split; [reflexivity|]. split; [reflexivity|].
  split; intros E; rewrite E.
  - split; reflexivity.
  - reflexivity.
Qed.

Lemma Host_properties_witness :
  get_property (Host "h1" None (VStr "10.0.0.5") (1, 2, 3)) "ip_address"
    = Some (VStr "10.0.0.5") /\
  get_property (Host "h1" None (VStr "10.0.0.5") (1, 2, 3)) "mac_address"
    = Some (VStr (generate_mac_address (1, 2, 3))).
Proof.
  apply (proj1 (proj2 (proj2 (Host_properties "h1" None (VStr "10.0.0.5")
                                (1, 2, 3))))).
  reflexivity.
Defined.

(** ** [add_device] and [get_device] *)

(** After a successful [add_device], [get_device] with the device's id
    returns that device, every other id resolves as before, and the
    connection records are untouched. *)
Theorem add_device_then_get_device (T T' : NetworkTopology)
  (d : NetworkDevice) :
  add_device d T = (inr tt, T') ->
  get_device (device_id d) T' = (inr d, T') /\
  (forall id, id <> device_id d ->
              dget id (devices T') = dget id (devices T)) /\
  connections T' = connections T.
Proof.
  unfold add_device, get_device.
  destruct (dmem (device_id d) (devices T)); [discriminate|].
  intros [= <-]. simpl. rewrite dget_dset_same. repeat split.
  intros id Hne. apply dget_dset_other. congruence.
Qed.

Lemma add_device_then_get_device_witness :
  get_device "s" (snd (add_device (Switch "s" None 2 (VStr "l2"))
                         (NetworkTopology_init "t")))
  = (inr (Switch "s" None 2 (VStr "l2")),
     snd (add_device (Switch "s" None 2 (VStr "l2"))
            (NetworkTopology_init "t"))).
Proof.
  apply (add_device_then_get_device (NetworkTopology_init "t") _
           (Switch "s" None 2 (VStr "l2"))).
  reflexivity.
Defined.

(** A device whose id is taken is rejected with DuplicateDeviceID and the
    topology stays as it was, the device already stored under that id
    included; a device with a new id is always accepted. *)
Theorem add_device_duplicate_rejected (T : NetworkTopology) (d : NetworkDevice) :
  (forall old, dget (device_id d) (devices T) = Some old ->
               add_device d T = (inl (DuplicateDeviceID (device_id d)), T)) /\
  (dget (device_id d) (devices T) = None ->
   exists T', add_device d T = (inr tt, T')).
Proof.
  unfold add_device, dmem. split.
  - intros old ->. reflexivity.
  - intros ->. eauto.
Qed.

Lemma add_device_duplicate_rejected_witness :
  add_device (Host "A" None VNone (0, 0, 0)) wired_pair
  = (inl (DuplicateDeviceID "A"), wired_pair).
Proof.
  eapply (proj1 (add_device_duplicate_rejected wired_pair
                   (Host "A" None VNone (0, 0, 0)))).
  vm_compute. reflexivity.
Defined.

(** ** [disconnect_devices] *)

Lemma disconnect_devices_success (T : NetworkTopology) (d1 i1 d2 i2 : string)
  (c2 : option Peer) :
  slot T d1 i1 = Some (Some (d2, i2)) -> slot T d2 i2 = Some c2 ->
  disconnect_devices d1 i1 d2 i2 T = (inr tt, disconnect_post d1 i1 d2 i2 T).
Proof.
  unfold slot, disconnect_devices, disconnect_post. intros H1 H2.
  destruct (dget d1 (devices T)) as [dev1|]; [|discriminate].
  destruct (dget d2 (devices T)) as [dev2|]; [|discriminate].
  rewrite H1, H2, !String.eqb_refl. reflexivity.
Qed.

Lemma disconnect_devices_inv (T T' : NetworkTopology) (d1 i1 d2 i2 : string) :
  disconnect_devices d1 i1 d2 i2 T = (inr tt, T') ->
  slot T d1 i1 = Some (Some (d2, i2)) /\ slot T d2 i2 <> None /\
  T' = disconnect_post d1 i1 d2 i2 T.
Proof.
  unfold slot, disconnect_devices, disconnect_post.
  destruct (dget d1 (devices T)) as [dev1|]; [|discriminate].
  destruct (dget d2 (devices T)) as [dev2|]; [|discriminate].
  destruct (dget i1 (interfaces dev1)) as [[[p pi]|]|]; try discriminate;
    destruct (dget i2 (interfaces dev2)) as [c2|]; try discriminate.
  destruct (String.eqb_spec p d2) as [->|?]; [|discriminate].
  destruct (String.eqb_spec pi i2) as [->|?]; [|discriminate].
  simpl. intros [= <-]. repeat split. discriminate.
Qed.

Lemma disconnect_devices_error_unchanged (T T' : NetworkTopology)
  (d1 i1 d2 i2 : string) (e : Error) :
  disconnect_devices d1 i1 d2 i2 T = (inl e, T') -> T' = T.
Proof.
  unfold disconnect_devices.
  destruct (dget d1 (devices T)) as [dev1|]; [|now intros [= _ <-]].
  destruct (dget d2 (devices T)) as [dev2|]; [|now intros [= _ <-]].
  destruct (dget i1 (interfaces dev1)) as [c1|]; [|now intros [= _ <-]].
  destruct (dget i2 (interfaces dev2)) as [c2|]; [|now intros [= _ <-]].
  match goal with |- (if ?b then _ else _) = _ -> _ => destruct b end;
    [now intros [= _ <-]|discriminate].
Qed.

Lemma set_remove_notin (c : Conn) (s : list Conn) :
  ~ In c s -> set_remove c s = s.
Proof.
  intros H. unfold set_remove. apply filter_all. intros x Hx.
  destruct (conn_eqb c x) eqn:E; [|reflexivity].
  apply conn_eqb_eq in E. subst. contradiction.
Qed.

Lemma In_set_remove (c x : Conn) (s : list Conn) :
  In x (set_remove c s) <-> In x s /\ x <> c.
Proof.
  unfold set_remove. rewrite filter_In. split; intros [H1 H2]; split; auto.
  - intros ->. now rewrite conn_eqb_refl in H2.
  - destruct (conn_eqb c x) eqn:E; [|reflexivity].
    apply conn_eqb_eq in E. congruence.
Qed.

Lemma connections_disconnect_post (T : NetworkTopology) (d1 i1 d2 i2 : string) :
  connections (disconnect_post d1 i1 d2 i2 T) =
  set_remove (d1, i1, d2, i2) (connections T).
Proof.
  unfold disconnect_post. rewrite !connections_set_slot.
  destruct (set_mem (d1, i1, d2, i2) (connections T)) eqn:E.
  - reflexivity.
  - rewrite !connections_set_slot. symmetry. apply set_remove_notin.
    intros H. apply set_mem_In in H. congruence.
Qed.

Lemma slot_disconnect_post (T : NetworkTopology) (d1 i1 d2 i2 d i : string) :
  dget d1 (devices T) <> None -> dget d2 (devices T) <> None ->
  slot (disconnect_post d1 i1 d2 i2 T) d i =
  if (d2 =? d) && (i2 =? i) then Some None
  else if (d1 =? d) && (i1 =? i) then Some None
  else slot T d i.
Proof.
  intros H1 H2.
  assert (slot (disconnect_post d1 i1 d2 i2 T) d i =
          slot (set_slot d2 i2 None (set_slot d1 i1 None T)) d i) as ->.
  { unfold disconnect_post. now destruct (set_mem _ _). }
  rewrite slot_set_slot by now apply devices_set_slot_get.
  rewrite slot_set_slot by assumption. reflexivity.
Qed.

Lemma dev_frame_disconnect_post (T : NetworkTopology) (d1 i1 d2 i2 : string) :
  slot T d1 i1 <> None -> slot T d2 i2 <> None ->
  dev_frame T (disconnect_post d1 i1 d2 i2 T).
Proof.
  intros H1 H2.
  assert (dev_frame T (set_slot d2 i2 None (set_slot d1 i1 None T))) as F.
  { eapply dev_frame_trans; [apply dev_frame_set_slot; exact H1|].
    apply dev_frame_set_slot. rewrite slot_set_slot.
    - destruct ((d1 =? d2) && (i1 =? i2)); [discriminate|assumption].
    - unfold slot in H1. destruct (dget d1 (devices T)); congruence. }
  unfold disconnect_post. destruct (set_mem _ _); [|exact F].
  eapply dev_frame_trans; [exact F|apply dev_frame_with_connections].
Qed.

(** A [disconnect_devices] right after a successful [connect_devices] with
    the same arguments succeeds and puts every slot back as it was before
    the connect.  The records it leaves are those from before the connect
    other than the record of the call itself: on a topology whose records
    all match their slots the set of records is as before, while a stale
    record of the same call is removed along with the new one. *)
Theorem connect_then_disconnect_restores
  (T T1 : NetworkTopology) (d1 i1 d2 i2 : string) :
  connect_devices d1 i1 d2 i2 T = (inr tt, T1) ->
  exists T2,
    disconnect_devices d1 i1 d2 i2 T1 = (inr tt, T2) /\
    (forall d i, slot T2 d i = slot T d i) /\
    (forall c, In c (connections T2) <->
               In c (connections T) /\ c <> (d1, i1, d2, i2)) /\
    (records_have_slots T ->
     forall c, In c (connections T2) <-> In c (connections T)) /\
    dev_frame T T2.
Proof.
  intros Hc. apply connect_devices_inv in Hc.
  destruct Hc as (F1 & F2 & ->).
  assert (slot T d1 i1 <> None) as N1 by congruence.
  assert (slot T d2 i2 <> None) as N2 by congruence.
  assert (dget d1 (devices T) <> None) as A1
    by (unfold slot in N1; destruct (dget d1 (devices T)); congruence).
  assert (dget d2 (devices T) <> None) as A2
    by (unfold slot in N2; destruct (dget d2 (devices T)); congruence).
  destruct (slot_connect_post_ends T d1 i1 d2 i2 N1 N2) as [E1 E2].
  pose proof (dev_frame_connect_post T d1 i1 d2 i2 N1 N2) as Fr.
  exists (disconnect_post d1 i1 d2 i2 (connect_post d1 i1 d2 i2 T)).
  split; [eapply disconnect_devices_success; eassumption|].
  assert (forall c,
             In c (connections
                     (disconnect_post d1 i1 d2 i2 (connect_post d1 i1 d2 i2 T)))
             <-> In c (connections T) /\ c <> (d1, i1, d2, i2)) as Hrecs.
  { intros c. rewrite connections_disconnect_post, connections_connect_post.
    rewrite In_set_remove, In_set_add. tauto. }
  split; [|split; [exact Hrecs|split]].
  - intros d i. rewrite slot_disconnect_post.
    + rewrite slot_connect_post by assumption.
      destruct ((d2 =? d) && (i2 =? i)) eqn:B2.
      * apply endpoint_eqb in B2. destruct B2 as [-> ->]. now rewrite F2.
      * destruct ((d1 =? d) && (i1 =? i)) eqn:B1; [|reflexivity].
        apply endpoint_eqb in B1. destruct B1 as [-> ->]. now rewrite F1.
    + intros H. now apply (dev_frame_mem _ _ d1 Fr) in H.
    + intros H. now apply (dev_frame_mem _ _ d2 Fr) in H.
  - intros Hrec c. rewrite Hrecs. split; [tauto|].
    intros Hin. split; [exact Hin|]. intros ->.
    destruct (Hrec _ Hin) as [S1 _]. congruence.
  - eapply dev_frame_trans; [exact Fr|].
    apply dev_frame_disconnect_post; congruence.
Qed.

Lemma connect_then_disconnect_restores_witness :
  exists T2,
    disconnect_devices "A" "port2" "B" "port2"
      (snd (connect_devices "A" "port2" "B" "port2" wired_pair))
      = (inr tt, T2) /\
    (forall d i, slot T2 d i = slot wired_pair d i) /\
    (forall c, In c (connections T2) <->
               In c (connections wired_pair) /\
               c <> ("A", "port2", "B", "port2")) /\
    (records_have_slots wired_pair ->
     forall c, In c (connections T2) <-> In c (connections wired_pair)) /\
    dev_frame wired_pair T2.
Proof.
  apply (connect_then_disconnect_restores wired_pair _ "A" "port2" "B" "port2").
  reflexivity.
Defined.

(** [disconnect_devices] succeeds exactly when both interfaces exist and
    the first one points at the second; the slot of the second interface
    is not inspected.  Otherwise, with both endpoints present, it fails with
    ConnectionMismatch, and whatever the failure the topology is
    unchanged. *)
Theorem disconnect_devices_outcomes
  (T : NetworkTopology) (d1 i1 d2 i2 : string) :
  ((exists T', disconnect_devices d1 i1 d2 i2 T = (inr tt, T')) <->
   slot T d1 i1 = Some (Some (d2, i2)) /\ slot T d2 i2 <> None) /\
  (forall c1 c2,
      slot T d1 i1 = Some c1 -> slot T d2 i2 = Some c2 ->
      c1 <> Some (d2, i2) ->
      disconnect_devices d1 i1 d2 i2 T
      = (inl (ConnectionMismatch d1 i1 d2 i2), T)) /\
  (forall e T', disconnect_devices d1 i1 d2 i2 T = (inl e, T') -> T' = T).
Proof.
  split; [|split].
  - split.
    + intros [T' H]. apply disconnect_devices_inv in H. tauto.
    + intros [H1 H2]. destruct (slot T d2 i2) as [c2|] eqn:E2; [|congruence].
      eexists. eapply disconnect_devices_success; eassumption.
  - intros c1 c2 H1 H2 Hne. unfold slot in H1, H2. unfold disconnect_devices.
    destruct (dget d1 (devices T)) as [dev1|]; [|discriminate].
    destruct (dget d2 (devices T)) as [dev2|]; [|discriminate].
    rewrite H1, H2. destruct c1 as [[p pi]|]; [|reflexivity].
    destruct (String.eqb_spec p d2) as [Ep|?]; [|reflexivity].
    destruct (String.eqb_spec pi i2) as [Epi|?]; [|reflexivity].
    subst p pi. exfalso. now apply Hne.
  - intros e T'. apply disconnect_devices_error_unchanged.
Qed.

Lemma disconnect_devices_outcomes_witness :
  disconnect_devices "A" "port2" "B" "port1" wired_pair
  = (inl (ConnectionMismatch "A" "port2" "B" "port1"), wired_pair).
Proof.
  apply (proj1 (proj2 (disconnect_devices_outcomes wired_pair
                         "A" "port2" "B" "port1"))
           None (Some ("A", "port1"))).
  - reflexivity.
  - reflexivity.
  - discriminate.
Defined.

(** ** What every reachable topology satisfies *)

Lemma for_each_inv {A} (P : NetworkTopology -> Prop) (body : A -> M unit)
  (xs : list A) :
  (forall x T T', In x xs -> P T -> body x T = (inr tt, T') -> P T') ->
  forall T T', P T -> for_each xs body T = (inr tt, T') -> P T'.
Proof.
  induction xs as [|x xs IH]; intros Hbody T T' HP Hrun.
  - injection Hrun as <-. exact HP.
  - simpl in Hrun. unfold bind in Hrun.
    destruct (body x T) as [[e|[]] T1] eqn:E; [discriminate|].
    apply (IH (fun y U U' Hy => Hbody y U U' (or_intror Hy)) T1 T').
    + apply (Hbody x T T1); auto. now left.
    + exact Hrun.
Qed.

Lemma slot_exists_device (T : NetworkTopology) (d i : string) :
  slot T d i <> None -> dget d (devices T) <> None.
Proof. unfold slot. destruct (dget d (devices T)); congruence. Qed.

Lemma disconnect_devices_monotone (T T' : NetworkTopology)
  (d1 i1 d2 i2 : string) r (d i : string) (x : Peer) :
  disconnect_devices d1 i1 d2 i2 T = (r, T') ->
  slot T' d i = Some (Some x) -> slot T d i = Some (Some x).
Proof.
  destruct r as [e|[]]; intros H.
  - apply disconnect_devices_error_unchanged in H. now subst.
  - apply disconnect_devices_inv in H. destruct H as (S1 & S2 & ->).
    rewrite slot_disconnect_post.
    + destruct ((d2 =? d) && (i2 =? i)); [discriminate|].
      destruct ((d1 =? d) && (i1 =? i)); [discriminate|auto].
    + apply (slot_exists_device T d1 i1). congruence.
    + apply (slot_exists_device T d2 i2). exact S2.
Qed.

Lemma sound_connect (T T' : NetworkTopology) (d1 i1 d2 i2 : string) :
  sound T -> connect_devices d1 i1 d2 i2 T = (inr tt, T') -> sound T'.
Proof.
  intros (Hnd & Hrec & Hslots) H. apply connect_devices_inv in H.
  destruct H as (F1 & F2 & ->).
  assert (slot T d1 i1 <> None) as N1 by congruence.
  assert (slot T d2 i2 <> None) as N2 by congruence.
  pose proof (slot_exists_device _ _ _ N1) as A1.
  pose proof (slot_exists_device _ _ _ N2) as A2.
  destruct (slot_connect_post_ends T d1 i1 d2 i2 N1 N2) as [E1 E2].
  split; [|split].
  - destruct (dev_frame_connect_post T d1 i1 d2 i2 N1 N2) as (_ & -> & _).
    exact Hnd.
  - intros d i p pi. rewrite slot_connect_post by assumption.
    destruct ((d2 =? d) && (i2 =? i)) eqn:B2.
    { apply endpoint_eqb in B2. destruct B2 as [-> ->]. now intros [= <- <-]. }
    destruct ((d1 =? d) && (i1 =? i)) eqn:B1.
    { apply endpoint_eqb in B1. destruct B1 as [-> ->]. now intros [= <- <-]. }
    intros Hs. pose proof (Hrec _ _ _ _ Hs) as Hback.
    rewrite slot_connect_post_other; auto.
    simpl. intros [[-> ->]|[-> ->]]; congruence.
  - intros d i p pi. rewrite slot_connect_post by assumption.
    rewrite connections_connect_post, !In_set_add.
    destruct ((d2 =? d) && (i2 =? i)) eqn:B2.
    { apply endpoint_eqb in B2. destruct B2 as [-> ->].
      intros [= <- <-]. right. now left. }
    destruct ((d1 =? d) && (i1 =? i)) eqn:B1.
    { apply endpoint_eqb in B1. destruct B1 as [-> ->].
      intros [= <- <-]. left. now left. }
    intros Hs. destruct (Hslots _ _ _ _ Hs); auto.
Qed.

Lemma sound_disconnect (T T' : NetworkTopology) (d1 i1 d2 i2 : string) :
  sound T -> disconnect_devices d1 i1 d2 i2 T = (inr tt, T') -> sound T'.
Proof.
  intros (Hnd & Hrec & Hslots) H. apply disconnect_devices_inv in H.
  destruct H as (S1 & N2 & ->).
  assert (slot T d1 i1 <> None) as N1 by congruence.
  pose proof (slot_exists_device _ _ _ N1) as A1.
  pose proof (slot_exists_device _ _ _ N2) as A2.
  pose proof (Hrec _ _ _ _ S1) as S2.
  assert (forall d i p pi,
             slot (disconnect_post d1 i1 d2 i2 T) d i = Some (Some (p, pi)) ->
             slot T d i = Some (Some (p, pi)) /\
             ~ (d = d1 /\ i = i1) /\ ~ (d = d2 /\ i = i2)) as Hkeep.
  { intros d i p pi. rewrite slot_disconnect_post by assumption.
    destruct ((d2 =? d) && (i2 =? i)) eqn:B2; [discriminate|].
    destruct ((d1 =? d) && (i1 =? i)) eqn:B1; [discriminate|].
    intros Hs. split; [exact Hs|]. split; intros [-> ->].
    - rewrite !String.eqb_refl in B1. discriminate.
    - rewrite !String.eqb_refl in B2. discriminate. }
  split; [|split].
  - destruct (dev_frame_disconnect_post T d1 i1 d2 i2 N1 N2) as (_ & -> & _).
    exact Hnd.
  - intros d i p pi Hs. destruct (Hkeep _ _ _ _ Hs) as (Hs0 & K1 & K2).
    pose proof (Hrec _ _ _ _ Hs0) as Hback.
    rewrite slot_disconnect_post by assumption.
    rewrite !endpoint_eqb_false; [exact Hback| |].
    + intros [-> ->]. rewrite S1 in Hback. injection Hback as <- <-. tauto.
    + intros [-> ->]. rewrite S2 in Hback. injection Hback as <- <-. tauto.
  - intros d i p pi Hs. destruct (Hkeep _ _ _ _ Hs) as (Hs0 & K1 & K2).
    rewrite connections_disconnect_post, !In_set_remove.
    destruct (Hslots _ _ _ _ Hs0) as [Hin|Hin]; [left|right];
      (split; [exact Hin|]); intros [= -> -> -> ->]; tauto.
Qed.

Lemma dget_ddel_other {V} (k k' : string) (d : dict V) :
  k <> k' -> dget k' (ddel k d) = dget k' d.
Proof.
  intros Hne. induction d as [|[k0 v0] r IH]; simpl; [reflexivity|].
  destruct (String.eqb_spec k0 k) as [->|Hk].
  - apply String.eqb_neq in Hne. now rewrite Hne.
  - simpl. now rewrite IH.
Qed.

Lemma dkeys_ddel_incl {V} (k x : string) (d : dict V) :
  In x (dkeys (ddel k d)) -> In x (dkeys d).
Proof.
  induction d as [|[k0 v0] r IH]; simpl; [tauto|].
  destruct (k0 =? k); simpl; tauto.
Qed.

Lemma NoDup_ddel {V} (k : string) (d : dict V) :
  NoDup (dkeys d) -> NoDup (dkeys (ddel k d)).
Proof.
  induction d as [|[k0 v0] r IH]; simpl; intros Hnd; [constructor|].
  inversion Hnd as [|? ? Hnotin Hnd']; subst.
  destruct (k0 =? k); [assumption|]. simpl. constructor; [|auto].
  intros H. apply Hnotin. eapply dkeys_ddel_incl. exact H.
Qed.

Lemma dget_ddel_same {V} (k : string) (d : dict V) :
  NoDup (dkeys d) -> dget k (ddel k d) = None.
Proof.
  induction d as [|[k0 v0] r IH]; simpl; intros Hnd; [reflexivity|].
  inversion Hnd as [|? ? Hnotin Hnd']; subst.
  destruct (String.eqb_spec k0 k) as [->|Hk].
  - now apply dget_None_iff.
  - simpl. apply String.eqb_neq in Hk. rewrite Hk. auto.
Qed.

Lemma standalone_slots (d : NetworkDevice) (i : string) (c : option Peer) :
  standalone d = true -> dget i (interfaces d) = Some c -> c = None.
Proof.
  unfold standalone. rewrite forallb_forall. intros Hall Hget.
  apply dget_Some_In in Hget. specialize (Hall _ Hget).
  simpl in Hall. now destruct c.
Qed.

Lemma sound_add_device (T T' : NetworkTopology) (d : NetworkDevice) :
  sound T -> standalone d = true -> add_device d T = (inr tt, T') -> sound T'.
Proof.
  intros (Hnd & Hrec & Hslots) Hst H. unfold add_device, dmem in H.
  destruct (dget (device_id d) (devices T)) eqn:E; [discriminate|].
  injection H as <-.
  assert (forall x i,
             slot (with_devices T (dset (device_id d) d (devices T))) x i =
             if device_id d =? x then dget i (interfaces d) else slot T x i)
    as Hslot.
  { intros x i. unfold slot. simpl. rewrite dget_dset.
    now destruct (device_id d =? x). }
  assert (forall x i p pi,
             slot (with_devices T (dset (device_id d) d (devices T))) x i
             = Some (Some (p, pi)) ->
             slot T x i = Some (Some (p, pi))) as Hold.
  { intros x i p pi. rewrite Hslot. destruct (device_id d =? x); [|auto].
    intros Hget. now apply (standalone_slots d i _ Hst) in Hget. }
  split; [|split].
  - simpl. rewrite dset_absent by assumption. rewrite dkeys_app. simpl.
    apply NoDup_app; [assumption|repeat constructor; simpl; tauto|].
    intros x Hx [<-|[]]. now apply dget_None_iff in E.
  - intros x i p pi Hs. apply Hold in Hs. pose proof (Hrec _ _ _ _ Hs) as Hb.
    rewrite Hslot. destruct (String.eqb_spec (device_id d) p) as [<-|_];
      [|exact Hb].
    unfold slot in Hb. rewrite E in Hb. discriminate.
  - intros x i p pi Hs. apply Hold in Hs. exact (Hslots _ _ _ _ Hs).
Qed.

Lemma remove_device_inv (T T' : NetworkTopology) (id : string) :
  remove_device id T = (inr tt, T') ->
  exists device Tn,
    dget id (devices T) = Some device /\
    for_each (interfaces device) (remove_step id) T = (inr tt, Tn) /\
    T' = with_devices Tn (ddel id (devices Tn)).
Proof.
  unfold remove_device.
  destruct (dget id (devices T)) as [device|] eqn:Hdev; [|discriminate].
  unfold bind.
  change (fun '(intf, conn) =>
            match conn with
            | Some (remote_device, remote_intf) =>
                disconnect_devices id intf remote_device remote_intf
            | None => ret tt
            end) with (remove_step id).
  destruct (for_each (interfaces device) (remove_step id) T)
    as [[e|[]] Tn] eqn:Hloop; [discriminate|].
  intros [= <-]. exists device, Tn. repeat split. exact Hloop.
Qed.

Lemma remove_step_monotone (id : string) (e : string * option Peer)
  (T T' : NetworkTopology) r (d i : string) (x : Peer) :
  remove_step id e T = (r, T') ->
  slot T' d i = Some (Some x) -> slot T d i = Some (Some x).
Proof.
  destruct e as [intf [[rd ri]|]]; simpl.
  - apply disconnect_devices_monotone.
  - unfold ret. now intros [= _ <-].
Qed.

Lemma remove_loop_monotone (id : string) (xs : dict (option Peer))
  (T T' : NetworkTopology) r :
  for_each xs (remove_step id) T = (r, T') ->
  forall d i x, slot T' d i = Some (Some x) -> slot T d i = Some (Some x).
Proof.
  intros Hrun.
  refine (for_each_frame
            (fun U U' => forall d i x,
                 slot U' d i = Some (Some x) -> slot U d i = Some (Some x))
            (remove_step id) _ _ xs _ T r T' Hrun).
  - auto.
  - intros T1 T2 T3 H12 H23 d i x H. apply H12. now apply H23.
  - intros e U r0 U' _ H d i x. eapply remove_step_monotone. exact H.
Qed.

Lemma remove_loop_clears (id : string) (xs : dict (option Peer)) :
  forall T T',
    for_each xs (remove_step id) T = (inr tt, T') ->
    forall intf p x,
      In (intf, Some p) xs -> slot T' id intf <> Some (Some x).
Proof.
  induction xs as [|e xs IH]; intros T T' Hrun intf p x Hin; [destruct Hin|].
  simpl in Hrun. unfold bind in Hrun.
  destruct (remove_step id e T) as [[err|[]] T1] eqn:E; [discriminate|].
  destruct Hin as [->|Hin].
  - intros Hs. apply (remove_loop_monotone id xs T1 T' _ Hrun) in Hs.
    destruct p as [rd ri]. simpl in E.
    apply disconnect_devices_inv in E. destruct E as (S1 & N2 & ->).
    rewrite slot_disconnect_post in Hs.
    + rewrite !String.eqb_refl in Hs. simpl in Hs.
      destruct ((rd =? id) && (ri =? intf)); discriminate.
    + apply (slot_exists_device T id intf). congruence.
    + apply (slot_exists_device T rd ri). exact N2.
  - eapply IH; eassumption.
Qed.

Lemma sound_remove_step (id : string) (e : string * option Peer)
  (T T' : NetworkTopology) :
  sound T -> remove_step id e T = (inr tt, T') -> sound T'.
Proof.
  destruct e as [intf [[rd ri]|]]; simpl.
  - intros Hs H. eapply sound_disconnect; eassumption.
  - unfold ret. now intros Hs [= <-].
Qed.

(** After a successful [remove_device] on a sound topology the device is
    gone, the other devices are still there, no remaining slot names the
    removed device, and the slots that are still connected are those that
    were. *)
Lemma remove_device_post (T T' : NetworkTopology) (id : string) :
  sound T -> remove_device id T = (inr tt, T') ->
  sound T' /\
  dget id (devices T') = None /\
  (forall d, d <> id ->
             (dget d (devices T') = None <-> dget d (devices T) = None)) /\
  (forall d i p pi,
      slot T' d i = Some (Some (p, pi)) ->
      p <> id /\ d <> id /\ slot T d i = Some (Some (p, pi))).
Proof.
  intros Hsound H. apply remove_device_inv in H.
  destruct H as (device & Tn & Hdev & Hloop & ->).
  assert (sound Tn) as (Hnd & Hrec & Hslots).
  { apply (for_each_inv sound (remove_step id) (interfaces device)
             (fun e U U' _ HU HE => sound_remove_step id e U U' HU HE)
             T Tn Hsound Hloop). }
  pose proof (remove_loop_monotone id _ T Tn _ Hloop) as Hmono.
  assert (forall intf x, slot Tn id intf <> Some (Some x)) as Hclear.
  { intros intf x Hs. pose proof (Hmono _ _ _ Hs) as Hs0.
    unfold slot in Hs0. rewrite Hdev in Hs0. apply dget_Some_In in Hs0.
    exact (remove_loop_clears id _ T Tn Hloop intf x x Hs0 Hs). }
  assert (forall d i,
             slot (with_devices Tn (ddel id (devices Tn))) d i =
             if id =? d then None else slot Tn d i) as Hslot.
  { intros d i. unfold slot. simpl.
    destruct (String.eqb_spec id d) as [<-|Hne].
    - now rewrite dget_ddel_same.
    - now rewrite dget_ddel_other. }
  assert (forall d i p pi,
             slot (with_devices Tn (ddel id (devices Tn))) d i
             = Some (Some (p, pi)) ->
             p <> id /\ d <> id /\ slot Tn d i = Some (Some (p, pi))) as Hkeep.
  { intros d i p pi. rewrite Hslot.
    destruct (String.eqb_spec id d) as [<-|Hne]; [discriminate|].
    intros Hs. split; [|split; [congruence|exact Hs]].
    intros ->. apply (Hclear pi (d, i)). now apply Hrec. }
  split; [|split; [|split]].
  - split; [|split].
    + simpl. now apply NoDup_ddel.
    + intros d i p pi Hs. destruct (Hkeep _ _ _ _ Hs) as (Hp & Hd & Hs0).
      rewrite Hslot. destruct (String.eqb_spec id p); [congruence|].
      now apply Hrec.
    + intros d i p pi Hs. destruct (Hkeep _ _ _ _ Hs) as (_ & _ & Hs0).
      exact (Hslots _ _ _ _ Hs0).
  - simpl. now apply dget_ddel_same.
  - intros d Hne. simpl. rewrite dget_ddel_other by congruence.
    assert (dev_frame T Tn) as Hframe.
    { revert Hloop.
      apply for_each_frame with (R := dev_frame);
        [apply dev_frame_refl|apply dev_frame_trans|].
      intros [intf [[rd ri]|]] U r U' _; simpl.
      - destruct r as [err|[]]; intros HE.
        + apply disconnect_devices_error_unchanged in HE. subst.
          apply dev_frame_refl.
        + apply disconnect_devices_inv in HE. destruct HE as (A & B & ->).
          apply dev_frame_disconnect_post; congruence.
      - unfold ret. intros [= _ <-]. apply dev_frame_refl. }
    apply (dev_frame_mem _ _ d Hframe).
  - intros d i p pi Hs. destruct (Hkeep _ _ _ _ Hs) as (Hp & Hd & Hs0).
    repeat split; auto.
Qed.

Lemma sound_reachable (T : NetworkTopology) : reachable T -> sound T.
Proof.
  induction 1 as [nm|T op T' Hreach IH Hadm Hrun].
  - split; [constructor|]. split; intros d i p pi H; discriminate H.
  - destruct op as [d|id|d1 i1 d2 i2|d1 i1 d2 i2]; simpl in Hrun, Hadm.
    + eapply sound_add_device; eassumption.
    + now apply (remove_device_post T T' id IH Hrun).
    + eapply sound_connect; eassumption.
    + eapply sound_disconnect; eassumption.
Qed.

(** Invariant 1 of the data model holds in every topology built from an
    empty one by successful public operations: whenever a slot points at a
    peer interface, that interface exists and points back. *)
Theorem reachable_reciprocal (T : NetworkTopology) :
  reachable T -> reciprocal T /\ NoDup (dkeys (devices T)).
Proof.
  intros H. destruct (sound_reachable T H) as (Hnd & Hrec & _). auto.
Qed.

Lemma reachable_reciprocal_witness :
  reciprocal wired_pair /\ NoDup (dkeys (devices wired_pair)).
Proof.
  apply (reachable_reciprocal wired_pair). exact reachable_wired_pair.
Defined.

(** In every such topology a connected slot has a record of its pair in
    [connections], in the orientation of the connect call or the other:
    records can be left behind, but a live connection never lacks one. *)
Theorem reachable_slots_recorded (T : NetworkTopology) :
  reachable T -> slots_recorded T.
Proof.
  intros H. now destruct (sound_reachable T H) as (_ & _ & Hs).
Qed.

Lemma reachable_slots_recorded_witness : slots_recorded wired_pair.
Proof.
  apply (reachable_slots_recorded wired_pair). exact reachable_wired_pair.
Defined.

(** [remove_device] on a missing id fails with DeviceNotFound and changes
    nothing.  When it succeeds on a reachable topology, the device is
    gone, every other device is still present, no remaining interface slot
    names the removed device, and no slot has been newly connected. *)
Theorem remove_device_clears_slots (T : NetworkTopology) (id : string) :
  reachable T ->
  (dget id (devices T) = None ->
   remove_device id T = (inl (DeviceNotFound id), T)) /\
  (forall T',
      remove_device id T = (inr tt, T') ->
      dget id (devices T') = None /\
      (forall d, d <> id ->
                 (dget d (devices T') = None <-> dget d (devices T) = None)) /\
      (forall d i p pi,
          slot T' d i = Some (Some (p, pi)) ->
          p <> id /\ d <> id /\ slot T d i = Some (Some (p, pi)))).
Proof.
  intros Hreach. split.
  - intros Hd. unfold remove_device. now rewrite Hd.
  - intros T' Hrun.
    now destruct (remove_device_post T T' id (sound_reachable T Hreach) Hrun)
      as (_ & A & B & C).
Qed.

Lemma remove_device_clears_slots_witness :
  dget "B" (devices after_remove_B) = None /\
  (forall d, d <> "B" ->
             (dget d (devices after_remove_B) = None <->
              dget d (devices wired_pair) = None)) /\
  (forall d i p pi,
      slot after_remove_B d i = Some (Some (p, pi)) ->
      p <> "B" /\ d <> "B" /\ slot wired_pair d i = Some (Some (p, pi))).
Proof.
  apply (proj2 (remove_device_clears_slots wired_pair "B" reachable_wired_pair)).
  reflexivity.
Defined.

(** ** Kind-specific configuration *)

(** [assign_ip_to_host] on a host stores the address and the mask and
    nothing else: the other properties (a MAC address among them), the
    interfaces, the other devices and the records are untouched.  On a
    device that is not a host it fails as a type mismatch, on a missing id
    as a missing device, and then changes nothing. *)
Theorem assign_ip_to_host_outcomes
  (T : NetworkTopology) (id : string) (ip mask : PyVal) :
  (forall dev,
      dget id (devices T) = Some dev -> device_type dev = "host" ->
      exists T' dev',
        assign_ip_to_host id ip mask T = (inr tt, T') /\
        dget id (devices T') = Some dev' /\
        get_property dev' "ip_address" = Some ip /\
        get_property dev' "subnet_mask" = Some mask /\
        (forall k, k <> "ip_address" -> k <> "subnet_mask" ->
                   get_property dev' k = get_property dev k) /\
        interfaces dev' = interfaces dev /\
        connections T' = connections T /\
        (forall d, d <> id -> dget d (devices T') = dget d (devices T))) /\
  (forall dev,
      dget id (devices T) = Some dev -> device_type dev <> "host" ->
      assign_ip_to_host id ip mask T = (inl (TypeMismatch id), T)) /\
  (dget id (devices T) = None ->
   assign_ip_to_host id ip mask T = (inl (DeviceNotFound id), T)).
Proof.
  unfold assign_ip_to_host. split; [|split].
  - intros dev Hd Hty. rewrite Hd, Hty. simpl.
    eexists. eexists. split; [reflexivity|]. simpl.
    rewrite dget_dset_same. split; [reflexivity|].
    unfold get_property, set_property. simpl.
    split; [now rewrite dget_dset_other, dget_dset_same by discriminate|].
    split; [now rewrite dget_dset_same|].
    split; [|split; [reflexivity|split; [reflexivity|]]].
    + intros k H1 H2. now rewrite !dget_dset_other by congruence.
    + intros d Hne. apply dget_dset_other. congruence.
  - intros dev Hd Hty. rewrite Hd. apply String.eqb_neq in Hty.
    now rewrite Hty.
  - intros Hd. now rewrite Hd.
Qed.

Lemma assign_ip_to_host_outcomes_witness :
  assign_ip_to_host "A" (VStr "10.0.0.1") (VStr "255.255.255.0") wired_pair
  = (inl (TypeMismatch "A"), wired_pair).
Proof.
  eapply (proj1 (proj2 (assign_ip_to_host_outcomes wired_pair "A"
                          (VStr "10.0.0.1") (VStr "255.255.255.0")))).
  - vm_compute. reflexivity.
  - vm_compute. discriminate.
Defined.

(** [configure_vlan] on a switch whose ['vlans'] property is a dictionary
    writes the entry of the given VLAN id and keeps every other VLAN, every
    other property, the interfaces and the records; the port names are
    stored as given, whether or not the switch has such ports. *)
Theorem configure_vlan_merges
  (T : NetworkTopology) (id vlan_id vlan_name : string) (ports : list string)
  (dev : NetworkDevice) (items : dict PyVal) :
  dget id (devices T) = Some dev -> device_type dev = "switch" ->
  get_property dev "vlans" = Some (VDict items) ->
  exists T' dev',
    configure_vlan id vlan_id vlan_name ports T = (inr tt, T') /\
    dget id (devices T') = Some dev' /\
    py_getitem (get_property dev' "vlans") vlan_id
      = Some (VDict [("name", VStr vlan_name);
                     ("ports", VList (map VStr ports))]) /\
    (forall v, v <> vlan_id ->
               py_getitem (get_property dev' "vlans") v = dget v items) /\
    (forall k, k <> "vlans" -> get_property dev' k = get_property dev k) /\
    interfaces dev' = interfaces dev /\
    connections T' = connections T.
Proof.
  intros Hd Hty Hv. unfold configure_vlan. rewrite Hd, Hty, Hv. simpl.
  eexists. eexists. split; [reflexivity|]. simpl.
  rewrite dget_dset_same. split; [reflexivity|].
  unfold get_property, set_property. simpl. rewrite dget_dset_same. simpl.
  split; [apply dget_dset_same|].
  split; [|split; [|split; reflexivity]].
  - intros v Hne. apply dget_dset_other. congruence.
  - intros k Hne. apply dget_dset_other. congruence.
Qed.

Lemma configure_vlan_merges_witness :
  exists T' dev',
    configure_vlan "A" "10" "lab" ["port2"; "port9"] wired_pair = (inr tt, T') /\
    dget "A" (devices T') = Some dev' /\
    py_getitem (get_property dev' "vlans") "10"
      = Some (VDict [("name", VStr "lab");
                     ("ports", VList (map VStr ["port2"; "port9"]))]) /\
    (forall v, v <> "10" ->
               py_getitem (get_property dev' "vlans") v
               = dget v [("1", VDict [("name", VStr "default");
                                      ("ports",
                                       VList [VStr "port1"; VStr "port2"])])]) /\
    (forall k, k <> "vlans" ->
               get_property dev' k
               = get_property
                   (mkDevice "A" "switch" "A"
                      [("port1", Some ("B", "port1")); ("port2", None)]
                      (switch_defaults 2 (VStr "l2"))) k) /\
    interfaces dev' = [("port1", Some ("B", "port1")); ("port2", None)] /\
    connections T' = connections wired_pair.
Proof.
  apply (configure_vlan_merges wired_pair "A" "10" "lab" ["port2"; "port9"]
           (mkDevice "A" "switch" "A"
              [("port1", Some ("B", "port1")); ("port2", None)]
              (switch_defaults 2 (VStr "l2")))
           [("1", VDict [("name", VStr "default");
                         ("ports", VList [VStr "port1"; VStr "port2"])])]);
    reflexivity.
Defined.

(** [configure_routing] needs a switch whose ['switch_type'] is ['l3']: on
    such a switch it writes the route and keeps the other routes,
    starting from an empty table when the switch has none; on any other
    device it fails as a type mismatch and changes nothing. *)
Theorem configure_routing_needs_l3
  (T : NetworkTopology) (id dest next_hop : string) (metric : Z)
  (dev : NetworkDevice) :
  dget id (devices T) = Some dev ->
  (device_type dev = "switch" ->
   get_property dev "switch_type" = Some (VStr "l3") ->
   forall items,
     get_property dev "routing_table" = Some (VDict items) \/
     (get_property dev "routing_table" = None /\ items = []) ->
     exists T' dev',
       configure_routing id dest next_hop metric T = (inr tt, T') /\
       dget id (devices T') = Some dev' /\
       py_getitem (get_property dev' "routing_table") dest
         = Some (VDict [("next_hop", VStr next_hop); ("metric", VInt metric)]) /\
       (forall x, x <> dest ->
                  py_getitem (get_property dev' "routing_table") x
                  = dget x items) /\
       connections T' = connections T) /\
  (device_type dev <> "switch" \/
   is_l3 (get_property dev "switch_type") = false ->
   configure_routing id dest next_hop metric T
   = (inl (ValueError (TypeMismatch id)), T)).
Proof.
  intros Hd. unfold configure_routing. rewrite Hd. split.
  - intros Hty Hl3 items Hrt. rewrite Hty, Hl3. simpl.
    assert (match get_property dev "routing_table" with
            | Some v => v
            | None => VDict []
            end = VDict items) as ->.
    { destruct Hrt as [->|[-> ->]]; reflexivity. }
    simpl. eexists. eexists. split; [reflexivity|]. simpl.
    rewrite dget_dset_same. split; [reflexivity|].
    unfold get_property, set_property. simpl. rewrite dget_dset_same. simpl.
    split; [apply dget_dset_same|]. split; [|reflexivity].
    intros x Hne. apply dget_dset_other. congruence.
  - intros [Hty|Hl3].
    + apply String.eqb_neq in Hty. now rewrite Hty.
    + rewrite Hl3. now rewrite orb_true_r.
Qed.

Lemma configure_routing_needs_l3_witness :
  configure_routing "A" "10.0.0.0/8" "10.0.0.1" 1 wired_pair
  = (inl (ValueError (TypeMismatch "A")), wired_pair).
Proof.
  apply (proj2 (configure_routing_needs_l3 wired_pair "A" "10.0.0.0/8"
                  "10.0.0.1" 1
                  (mkDevice "A" "switch" "A"
                     [("port1", Some ("B", "port1")); ("port2", None)]
                     (switch_defaults 2 (VStr "l2")))
                  eq_refl)).
  right. reflexivity.
Defined.

(** A configuration method that fails, for whatever reason (missing
    device, wrong kind, or a stored ['vlans'] or ['routing_table'] value
    that is not a dictionary), leaves the topology unchanged; and none of
    the three ever touches a slot or a record. *)
Theorem configuration_keeps_structure (T : NetworkTopology) (id : string) :
  (forall v nm ports r T',
      configure_vlan id v nm ports T = (r, T') ->
      (forall e, r = inl e -> T' = T) /\
      connections T' = connections T /\
      (forall d i, slot T' d i = slot T d i)) /\
  (forall prio r T',
      configure_stp id prio T = (r, T') ->
      (forall e, r = inl e -> T' = T) /\
      connections T' = connections T /\
      (forall d i, slot T' d i = slot T d i)) /\
  (forall dest hop metric r T',
      configure_routing id dest hop metric T = (r, T') ->
      (forall e, r = inl e -> T' = T) /\
      connections T' = connections T /\
      (forall d i, slot T' d i = slot T d i)).
Proof.
  assert (forall dev ps d i,
             dget id (devices T) = Some dev ->
             slot (with_devices T
                     (dset id (with_properties dev ps) (devices T))) d i
             = slot T d i) as Hslot.
  { intros dev ps d i Hd. unfold slot. simpl. rewrite dget_dset.
    destruct (String.eqb_spec id d) as [<-|_]; [|reflexivity].
    now rewrite Hd. }
  split; [|split].
  - intros v nm ports r T'. unfold configure_vlan.
    destruct (dget id (devices T)) as [dev|] eqn:Hd;
      [|intros [= <- <-]; repeat split].
    destruct (negb (device_type dev =? "switch"));
      [intros [= <- <-]; repeat split|].
    destruct (py_setitem _ _ _) as [vl|]; [|intros [= <- <-]; repeat split].
    intros [= <- <-]. split; [discriminate|]. split; [reflexivity|].
    intros d i. now apply Hslot.
  - intros prio r T'. unfold configure_stp.
    destruct (dget id (devices T)) as [dev|] eqn:Hd;
      [|intros [= <- <-]; repeat split].
    destruct (negb (device_type dev =? "switch"));
      [intros [= <- <-]; repeat split|].
    intros [= <- <-]. split; [discriminate|]. split; [reflexivity|].
    intros d i. now apply Hslot.
  - intros dest hop metric r T'. unfold configure_routing.
    destruct (dget id (devices T)) as [dev|] eqn:Hd;
      [|intros [= <- <-]; repeat split].
    destruct (negb (device_type dev =? "switch")
              || negb (is_l3 (get_property dev "switch_type")));
      [intros [= <- <-]; repeat split|].
    destruct (py_setitem _ _ _) as [rt|]; [|intros [= <- <-]; repeat split].
    intros [= <- <-]. split; [discriminate|]. split; [reflexivity|].
    intros d i. now apply Hslot.
Qed.
(* ===================================================================== *)
(** * The line and mesh generators *)
(* ===================================================================== *)

(** ** The part the three generators share *)

Lemma for_each_flat_map {A B} (f : A -> list B) (xs : list A)
  (body : B -> M unit) :
  forall T,
    for_each (flat_map f xs) body T =
    for_each xs (fun x => for_each (f x) body) T.
Proof.
  induction xs as [|x xs IH]; intros T; [reflexivity|].
  cbn [flat_map for_each]. rewrite for_each_app. unfold bind.
  destruct (for_each (f x) body T) as [[e|[]] T1]; [reflexivity|apply IH].
Qed.

Lemma script_devices (nm : string) (n h : Z) rng :
  (for_each (seq 1 (Z.to_nat n)) (fun i => add_device (ring_switch i)) ;;;
   for_each (seq 1 (Z.to_nat h)) (fun i => add_device (ring_host rng i)))
    (NetworkTopology_init nm)
  = (inr tt, named_base nm (Z.to_nat n) (Z.to_nat h) rng).
Proof.
  unfold bind.
  rewrite (add_devices_spec ring_switch).
  - rewrite (add_devices_spec (ring_host rng)).
    + unfold named_base, ring_base, with_devices, NetworkTopology_init.
      cbn [devices topo_name connections app].
      rewrite (map_ext (fun i => (device_id (ring_switch i), ring_switch i))
                 (fun i => (switch_id i, ring_switch i)))
        by (intros i; now rewrite device_id_ring_switch).
      rewrite (map_ext (fun i => (device_id (ring_host rng i), ring_host rng i))
                 (fun i => (host_id i, ring_host rng i)))
        by (intros i; now rewrite device_id_ring_host).
      reflexivity.
    + apply NoDup_map_injective; [|apply seq_NoDup].
      intros x y. rewrite !device_id_ring_host. apply host_id_inj.
    + intros j _. rewrite device_id_ring_host.
      unfold with_devices, NetworkTopology_init.
      cbn [devices topo_name connections app].
      apply dget_map_key_None. intros a _. rewrite device_id_ring_switch.
      apply switch_id_not_host_id.
  - apply NoDup_map_injective; [|apply seq_NoDup].
    intros x y. rewrite !device_id_ring_switch. apply switch_id_inj.
  - intros i _. reflexivity.
Qed.

Lemma named_base_ok (nm : string) (N H : nat) rng :
  base_ok (named_base nm N H rng).
Proof. exact (ring_base_ok N H rng). Qed.

Lemma named_base_unwired (nm : string) (N H : nat) rng :
  represents (named_base nm N H rng) no_wiring (named_base nm N H rng).
Proof.
  apply represents_unwired; [|reflexivity].
  intros d dev Hd. exact (ring_base_fresh N H rng d dev Hd).
Qed.

(** The wiring does not depend on the name of the topology. *)
Lemma link_all_named_base (nm : string) (N H : nat) rng
  (pairs : list (string * string)) :
  forall w,
    link_all (named_base nm N H rng) pairs w =
    link_all (ring_base N H rng) pairs w.
Proof.
  induction pairs as [|[d1 d2] r IH]; intros w; [reflexivity|].
  unfold link_all in *. cbn [fold_left]. rewrite IH. reflexivity.
Qed.

Lemma represents_as_ring (nm : string) (N H : nat) rng (w : Wiring)
  (T : NetworkTopology) :
  represents (named_base nm N H rng) w T ->
  represents (ring_base N H rng) w (as_ring T).
Proof.
  intros ((_ & Hk & Hd) & Hc & Hr & Hs).
  split; [|split; [|split]].
  - split; [reflexivity|]. split; [exact Hk|exact Hd].
  - exact Hc.
  - exact Hr.
  - exact Hs.
Qed.

(** With at least one switch, the shared loops followed by any loop [fin]
    that makes the calls [pairs] never raise, and wire the devices first-fit
    along the host pairs and then along [pairs]. *)
Lemma generator_refines (nm : string) (n h : Z) rng (fin : M unit)
  (pairs : list (string * string)) :
  (1 <= n)%Z ->
  (forall T, fin T = for_each pairs (fun '(d1, d2) => connect_available d1 d2) T) ->
  (forall d1 d2, In (d1, d2) pairs ->
     dget d1 (devices (ring_base (Z.to_nat n) (Z.to_nat h) rng)) <> None /\
     dget d2 (devices (ring_base (Z.to_nat n) (Z.to_nat h) rng)) <> None) ->
  exists T,
    (for_each (seq 1 (Z.to_nat n)) (fun i => add_device (ring_switch i)) ;;;
     for_each (seq 1 (Z.to_nat h)) (fun i => add_device (ring_host rng i)) ;;;
     (if (n =? 0)%Z then raise ZeroDivisionError else ret tt) ;;;
     for_each
       (combine (seq 0 (List.length (map host_id (seq 1 (Z.to_nat h)))))
          (map host_id (seq 1 (Z.to_nat h))))
       (fun '(i, host) =>
          match py_index (map switch_id (seq 1 (Z.to_nat n)))
                  (Z.min (Z.of_nat i / Z.max 1 (h / n)) (n - 1)) with
          | None => raise IndexError
          | Some switch => connect_available host switch
          end) ;;;
     fin) (NetworkTopology_init nm) = (inr tt, T) /\
    topo_name T = nm /\
    represents (ring_base (Z.to_nat n) (Z.to_nat h) rng)
      (link_all (ring_base (Z.to_nat n) (Z.to_nat h) rng) pairs
         (link_all (ring_base (Z.to_nat n) (Z.to_nat h) rng) (host_pairs n h)
            no_wiring))
      (as_ring T).
Proof.
  intros Hn Hfin Hpairs.
  set (B := named_base nm (Z.to_nat n) (Z.to_nat h) rng).
  pose proof (named_base_ok nm (Z.to_nat n) (Z.to_nat h) rng) as Hok.
  pose proof (named_base_unwired nm (Z.to_nat n) (Z.to_nat h) rng) as Hrep0.
  fold B in Hok, Hrep0.
  destruct (link_all_refines B (host_pairs n h) Hok
              (fun a b H => host_pairs_in_base n h rng a b Hn H) _ _ Hrep0)
    as (T1 & Hrun1 & Hrep1).
  destruct (link_all_refines B pairs Hok Hpairs _ _ Hrep1)
    as (T2 & Hrun2 & Hrep2).
  exists T2. split; [|split].
  - pose proof (script_devices nm n h rng) as Hdev. fold B in Hdev.
    unfold bind in Hdev |- *.
    destruct (for_each (seq 1 (Z.to_nat n)) _ _) as [[e|[]] Ta];
      [discriminate Hdev|].
    rewrite Hdev.
    destruct (Z.eqb_spec n 0) as [?|_]; [lia|]. unfold ret.
    rewrite (host_loop_pairs n h B Hn), Hrun1.
    rewrite Hfin. exact Hrun2.
  - destruct Hrep2 as ((Hname & _) & _). exact Hname.
  - apply (represents_as_ring nm). unfold B in Hrep2.
    rewrite !link_all_named_base in Hrep2. exact Hrep2.
Qed.

(** Without switches the shared loops divide by zero, or index an empty
    list as soon as there is a host; otherwise only [fin] runs. *)
Lemma generator_no_switch (nm : string) (n h : Z) rng (fin : M unit) :
  (n <= 0)%Z ->
  built
    (for_each (seq 1 (Z.to_nat n)) (fun i => add_device (ring_switch i)) ;;;
     for_each (seq 1 (Z.to_nat h)) (fun i => add_device (ring_host rng i)) ;;;
     (if (n =? 0)%Z then raise ZeroDivisionError else ret tt) ;;;
     for_each
       (combine (seq 0 (List.length (map host_id (seq 1 (Z.to_nat h)))))
          (map host_id (seq 1 (Z.to_nat h))))
       (fun '(i, host) =>
          match py_index (map switch_id (seq 1 (Z.to_nat n)))
                  (Z.min (Z.of_nat i / Z.max 1 (h / n)) (n - 1)) with
          | None => raise IndexError
          | Some switch => connect_available host switch
          end) ;;;
     fin) (NetworkTopology_init nm) =
  if (n =? 0)%Z then inl ZeroDivisionError
  else if (h <=? 0)%Z then built fin (NetworkTopology_init nm)
       else inl IndexError.
Proof.
  intros Hn. unfold built.
  pose proof (script_devices nm n h rng) as Hdev.
  unfold bind in Hdev |- *.
  destruct (for_each (seq 1 (Z.to_nat n)) _ _) as [[e|[]] Ta];
    [discriminate Hdev|].
  rewrite Hdev.
  destruct (Z.eqb_spec n 0) as [E|Hne]; [reflexivity|]. unfold ret.
  replace (Z.to_nat n) with 0 by lia. rewrite length_map, length_seq.
  destruct (Z.leb_spec h 0) as [Hh|Hh].
  - replace (Z.to_nat h) with 0 by lia. reflexivity.
  - destruct (Z.to_nat h) as [|H'] eqn:EH; [lia|].
    cbn [seq map combine for_each]. unfold bind.
    rewrite py_index_nil. reflexivity.
Qed.

(** ** The calls of the line and mesh loops *)

Lemma line_loop_pairs (n : Z) (T : NetworkTopology) :
  for_each
    (seq 0 (Z.to_nat
              (Z.of_nat (List.length (map switch_id (seq 1 (Z.to_nat n)))) - 1)))
    (fun i =>
       match py_index (map switch_id (seq 1 (Z.to_nat n))) (Z.of_nat i),
             py_index (map switch_id (seq 1 (Z.to_nat n))) (Z.of_nat i + 1) with
       | Some switch1, Some switch2 => connect_available switch1 switch2
       | _, _ => raise IndexError
       end) T
  = for_each (line_pairs n) (fun '(d1, d2) => connect_available d1 d2) T.
Proof.
  rewrite length_map, length_seq.
  replace (Z.to_nat (Z.of_nat (Z.to_nat n) - 1)) with (Z.to_nat n - 1) by lia.
  unfold line_pairs. rewrite for_each_map.
  apply for_each_ext. intros i Hi T0. apply in_seq in Hi.
  rewrite !py_index_switches by lia.
  rewrite Nat2Z.id.
  replace (Z.to_nat (Z.of_nat i + 1) + 1) with (i + 2) by lia.
  reflexivity.
Qed.

Lemma mesh_loop_pairs (n : Z) (T : NetworkTopology) :
  for_each (seq 0 (Z.to_nat n))
    (fun i =>
       for_each (seq (i + 1) (Z.to_nat n - (i + 1)))
         (fun j =>
            match py_index (map switch_id (seq 1 (Z.to_nat n))) (Z.of_nat i),
                  py_index (map switch_id (seq 1 (Z.to_nat n))) (Z.of_nat j) with
            | Some switch1, Some switch2 => connect_available switch1 switch2
            | _, _ => raise IndexError
            end)) T
  = for_each (mesh_pairs n) (fun '(d1, d2) => connect_available d1 d2) T.
Proof.
  unfold mesh_pairs. rewrite for_each_flat_map.
  apply for_each_ext. intros i Hi T0. apply in_seq in Hi.
  rewrite for_each_map.
  apply for_each_ext. intros j Hj T1. apply in_seq in Hj.
  rewrite !py_index_switches by lia.
  rewrite !Nat2Z.id. reflexivity.
Qed.

Lemma line_pairs_spec (n : Z) (d1 d2 : string) :
  In (d1, d2) (line_pairs n) ->
  exists a, 1 <= a /\ a + 1 <= Z.to_nat n /\
            d1 = switch_id a /\ d2 = switch_id (a + 1).
Proof.
  intros Hin. unfold line_pairs in Hin. apply in_map_iff in Hin.
  destruct Hin as (i & E & Hi). injection E as <- <-. apply in_seq in Hi.
  exists (i + 1). repeat split; try lia.
  f_equal. lia.
Qed.

Lemma mesh_pairs_spec (n : Z) (d1 d2 : string) :
  In (d1, d2) (mesh_pairs n) ->
  exists a b, 1 <= a /\ a < b /\ b <= Z.to_nat n /\
              d1 = switch_id a /\ d2 = switch_id b.
Proof.
  intros Hin. unfold mesh_pairs in Hin. apply in_flat_map in Hin.
  destruct Hin as (i & Hi & Hin). apply in_map_iff in Hin.
  destruct Hin as (j & E & Hj). injection E as <- <-.
  apply in_seq in Hi. apply in_seq in Hj.
  exists (i + 1), (j + 1). repeat split; lia.
Qed.

(** ** Counting the switch-to-switch records of a generated topology *)

Lemma deg_absent (d : string) (pairs : list (string * string)) :
  (forall d1 d2, In (d1, d2) pairs -> d1 <> d /\ d2 <> d) ->
  deg d pairs = 0.
Proof.
  intros H. unfold deg. rewrite !filter_none; [reflexivity| |].
  - intros [d1 d2] Hin. apply String.eqb_neq. now apply (H d1 d2).
  - intros [d1 d2] Hin. apply String.eqb_neq. now apply (H d1 d2).
Qed.

Lemma count_le_one {A} (p : A -> bool) (l : list A) :
  NoDup l ->
  (forall x y, In x l -> In y l -> p x = true -> p y = true -> x = y) ->
  List.length (filter p l) <= 1.
Proof.
  intros Hnd Huniq.
  destruct (filter p l) as [|x r] eqn:E; [simpl; lia|].
  assert (In x (filter p l)) as Hx by (rewrite E; now left).
  apply filter_In in Hx. destruct Hx as [Hx Hpx].
  rewrite <- E. rewrite (count_unique p l x Hnd Hx Hpx); [lia|].
  intros y Hy Hpy. now apply Huniq.
Qed.

Lemma switch_pairs_in_base (n h : Z) rng (pairs : list (string * string)) :
  switch_pairs (Z.to_nat n) pairs ->
  forall d1 d2, In (d1, d2) pairs ->
    dget d1 (devices (ring_base (Z.to_nat n) (Z.to_nat h) rng)) <> None /\
    dget d2 (devices (ring_base (Z.to_nat n) (Z.to_nat h) rng)) <> None.
Proof.
  intros Hsp d1 d2 Hin.
  destruct (Hsp d1 d2 Hin) as (a & b & Ha & Hb & _ & -> & ->).
  rewrite !ring_base_switch by lia. split; discriminate.
Qed.

(** A base wired along the host pairs and then along switch pairs has at
    most one switch-to-switch record per pair, and, when every switch has
    a port for each of its hosts and of its pairs, exactly one per pair;
    the list holds them in the order of the calls. *)
Lemma switch_pairs_records (n h : Z) rng (pairs : list (string * string))
  (T : NetworkTopology) :
  (1 <= n)%Z ->
  switch_pairs (Z.to_nat n) pairs ->
  represents (ring_base (Z.to_nat n) (Z.to_nat h) rng)
    (link_all (ring_base (Z.to_nat n) (Z.to_nat h) rng) pairs
       (link_all (ring_base (Z.to_nat n) (Z.to_nat h) rng) (host_pairs n h)
          no_wiring)) T ->
  List.length (ss_records T) <= List.length pairs /\
  ((forall a, 1 <= a <= Z.to_nat n ->
      hosts_on n h a + deg (switch_id a) pairs <= 24) ->
   map conn_devices (ss_records T) = pairs).
Proof.
  intros Hn Hsp Hrep.
  destruct (host_wiring_represented n h rng Hn) as (T1 & Hrep1).
  set (B := ring_base (Z.to_nat n) (Z.to_nat h) rng) in *.
  set (w1 := link_all B (host_pairs n h) no_wiring) in *.
  pose proof Hrep as (Hframe & Hconn & _ & _).
  destruct (link_all_recs B (host_pairs n h) no_wiring) as (ex1 & E1 & _ & P1).
  fold w1 in E1. cbn [recs no_wiring] in E1. rewrite app_nil_l in E1.
  pose proof (host_records_not_switch n h rng T ex1 Hframe P1) as Hex1.
  split.
  - destruct (link_all_recs B pairs w1) as (ex2 & E2 & L2 & _).
    unfold ss_records. rewrite Hconn, E2, E1.
    rewrite filter_app, length_app, Hex1. cbn [List.length Nat.add].
    pose proof (filter_length_le (switch_to_switch T) ex2). lia.
  - intros Hcap.
    destruct (link_all_exact B pairs) with (w := w1)
      as ((ex2 & E2 & M2) & _).
    { intros d1 d2 Hin.
      destruct (Hsp d1 d2 Hin) as (a & b & Ha & Hb & Hab & -> & ->).
      split; [|now apply (switch_pairs_in_base n h rng pairs Hsp)].
      intros E. apply Hab. now apply switch_id_inj. }
    { intros d dev Hd.
      destruct (ring_base_device _ _ _ d dev Hd)
        as [(a & Ha & -> & ->)|(j & Hj & -> & ->)].
      - destruct (link_all_peers B (host_pairs n h) (switch_id a) no_wiring)
          as (sp & E & L & _).
        fold w1 in E. rewrite deg_host_pairs in L. rewrite E.
        cbn [peers no_wiring]. rewrite app_nil_l.
        rewrite ring_switch_spec. cbn [interfaces]. unfold fresh_interfaces.
        rewrite !length_map, length_seq. specialize (Hcap a Ha). lia.
      - rewrite deg_absent, Nat.add_0_r.
        + destruct Hrep1 as (_ & _ & _ & Hs). now destruct (Hs _ _ Hd).
        + intros d1 d2 Hin.
          destruct (Hsp d1 d2 Hin) as (a & b & _ & _ & _ & -> & ->).
          split; apply switch_id_not_host_id. }
    unfold ss_records. rewrite Hconn, E2, E1.
    rewrite filter_app, Hex1, app_nil_l.
    rewrite filter_all; [exact M2|].
    intros c Hc. apply (in_map conn_devices) in Hc. rewrite M2 in Hc.
    destruct (conn_devices c) as [d1 d2] eqn:Ec.
    destruct (Hsp d1 d2 Hc) as (a & b & Ha & Hb & _ & -> & ->).
    unfold switch_to_switch. rewrite Ec. cbn [fst snd].
    rewrite !(is_switch_frame B T _ Hframe).
    assert (forall x, 1 <= x <= Z.to_nat n -> is_switch B (switch_id x) = true)
      as Hsw by (intros x Hx; apply is_switch_ring_base; eauto).
    now rewrite (Hsw a Ha), (Hsw b Hb).
Qed.

Lemma dkeys_ring_base (N H : nat) rng :
  dkeys (devices (ring_base N H rng)) =
  (map switch_id (seq 1 N) ++ map host_id (seq 1 H))%list.
Proof.
  unfold ring_base, dkeys. cbn [devices].
  rewrite map_app, !map_map. reflexivity.
Qed.

(** ** The line generator *)

Lemma line_switch_pairs (n : Z) : switch_pairs (Z.to_nat n) (line_pairs n).
Proof.
  intros d1 d2 Hin.
  destruct (line_pairs_spec n d1 d2 Hin) as (a & Ha & Hb & -> & ->).
  exists a, (a + 1). repeat split; lia.
Qed.

Lemma deg_line_pairs (n : Z) (a : nat) : deg (switch_id a) (line_pairs n) <= 2.
Proof.
  unfold deg, line_pairs. rewrite !filter_map_length. cbn [fst snd].
  pose proof (count_le_one (fun i => switch_id (i + 1) =? switch_id a)
                (seq 0 (Z.to_nat n - 1)) (seq_NoDup _ _)) as H1.
  pose proof (count_le_one (fun i => switch_id (i + 2) =? switch_id a)
                (seq 0 (Z.to_nat n - 1)) (seq_NoDup _ _)) as H2.
  cbv beta in H1, H2.
  assert (forall k x y : nat,
             (switch_id (x + k) =? switch_id a) = true ->
             (switch_id (y + k) =? switch_id a) = true -> x = y) as Hinj.
  { intros k x y Hx Hy. rewrite switch_id_eqb in Hx, Hy.
    apply Nat.eqb_eq in Hx. apply Nat.eqb_eq in Hy. lia. }
  specialize (H1 (fun x y _ _ => Hinj 1 x y)).
  specialize (H2 (fun x y _ _ => Hinj 2 x y)).
  lia.
Qed.

Lemma create_simple_network_wired (n h : Z) rng :
  (1 <= n)%Z ->
  exists T,
    create_simple_network n h rng = inr T /\
    topo_name T = "Simple Network" /\
    represents (ring_base (Z.to_nat n) (Z.to_nat h) rng)
      (link_all (ring_base (Z.to_nat n) (Z.to_nat h) rng) (line_pairs n)
         (link_all (ring_base (Z.to_nat n) (Z.to_nat h) rng) (host_pairs n h)
            no_wiring))
      (as_ring T).
Proof.
  intros Hn.
  destruct (generator_refines "Simple Network" n h rng _ (line_pairs n) Hn
              (line_loop_pairs n)
              (switch_pairs_in_base n h rng _ (line_switch_pairs n)))
    as (T & Hrun & Hname & Hrep).
  exists T. split; [|split; assumption].
  unfold create_simple_network, built, simple_script. cbv zeta.
  now rewrite Hrun.
Qed.

(** [create_simple_network] with at least one switch returns a topology
    named "Simple Network" whose devices are switch1 .. switchn followed by
    host1 .. hosth, with at most n - 1 switch-to-switch records; when the
    last switch is left two free ports by its hosts, there are exactly
    n - 1 of them, one for each switch i with switch i + 1. *)
Theorem create_simple_network_line (n h : Z) (rng : nat -> nat * nat * nat) :
  (1 <= n)%Z ->
  exists T,
    create_simple_network n h rng = inr T /\
    topo_name T = "Simple Network" /\
    dkeys (devices T) =
      (map switch_id (seq 1 (Z.to_nat n)) ++
       map host_id (seq 1 (Z.to_nat h)))%list /\
    List.length (ss_records T) <= Z.to_nat n - 1 /\
    ((h - (n - 1) * Z.max 1 (h / n) <= 22)%Z ->
     List.length (ss_records T) = Z.to_nat n - 1 /\
     Permutation (map conn_devices (ss_records T))
       (map (fun i => (switch_id i, switch_id (i + 1)))
          (seq 1 (Z.to_nat n - 1)))).
Proof.
  intros Hn.
  destruct (create_simple_network_wired n h rng Hn) as (T & Hrun & Hname & Hrep).
  exists T. split; [exact Hrun|]. split; [exact Hname|].
  destruct (switch_pairs_records n h rng (line_pairs n) (as_ring T) Hn
              (line_switch_pairs n) Hrep) as [Hle Hex].
  change (ss_records (as_ring T)) with (ss_records T) in Hle, Hex.
  destruct Hrep as ((_ & Hk & _) & _).
  split; [|split].
  - rewrite <- dkeys_ring_base with (rng := rng). exact Hk.
  - unfold line_pairs in Hle. now rewrite length_map, length_seq in Hle.
  - intros Hcap.
    assert (map conn_devices (ss_records T) = line_pairs n) as E.
    { apply Hex. intros a Ha.
      pose proof (hosts_on_bound n h a Hn Ha Hcap).
      pose proof (deg_line_pairs n a). lia. }
    split.
    + rewrite <- (length_map conn_devices), E. unfold line_pairs.
      now rewrite length_map, length_seq.
    + rewrite E. unfold line_pairs. rewrite <- seq_shift, map_map.
      erewrite map_ext; [apply Permutation_refl|].
      intros i. cbv beta.
      replace (i + 1) with (S i) by lia.
      replace (i + 2) with (S i + 1) by lia. reflexivity.
Qed.

Lemma create_simple_network_line_witness :
  exists T,
    create_simple_network 2 4 fixed_rng = inr T /\
    topo_name T = "Simple Network" /\
    dkeys (devices T) =
      (map switch_id (seq 1 (Z.to_nat 2)) ++
       map host_id (seq 1 (Z.to_nat 4)))%list /\
    List.length (ss_records T) <= Z.to_nat 2 - 1 /\
    ((4 - (2 - 1) * Z.max 1 (4 / 2) <= 22)%Z ->
     List.length (ss_records T) = Z.to_nat 2 - 1 /\
     Permutation (map conn_devices (ss_records T))
       (map (fun i => (switch_id i, switch_id (i + 1)))
          (seq 1 (Z.to_nat 2 - 1)))).
Proof.
  apply (create_simple_network_line 2 4 fixed_rng). lia.
Defined.

(** ** The mesh generator *)

Lemma mesh_switch_pairs (n : Z) : switch_pairs (Z.to_nat n) (mesh_pairs n).
Proof.
  intros d1 d2 Hin.
  destruct (mesh_pairs_spec n d1 d2 Hin) as (a & b & Ha & Hab & Hb & -> & ->).
  exists a, b. repeat split; lia.
Qed.

Lemma deg_app (d : string) (l1 l2 : list (string * string)) :
  deg d (l1 ++ l2) = deg d l1 + deg d l2.
Proof. unfold deg. rewrite !filter_app, !length_app. lia. Qed.

Lemma deg_flat_map {A} (d : string) (f : A -> list (string * string))
  (l : list A) :
  deg d (flat_map f l) = list_sum (map (fun x => deg d (f x)) l).
Proof.
  induction l as [|x l IH]; [reflexivity|].
  cbn [flat_map map]. change (list_sum (?x :: ?l)) with (x + list_sum l).
  now rewrite deg_app, IH.
Qed.

(** Row [i] of the mesh loop gives switch number [a] all its pairs when
    [a] is the row's own switch, and one pair when [a] comes later. *)
Lemma deg_mesh_row (N i a : nat) :
  deg (switch_id a)
    (map (fun j => (switch_id (i + 1), switch_id (j + 1)))
       (seq (i + 1) (N - (i + 1))))
  <= if (i + 1 =? a)%nat then N - a
     else if (i + 1 <? a)%nat then 1 else 0.
Proof.
  unfold deg. rewrite !filter_map_length. cbn [fst snd].
  destruct (Nat.eqb_spec (i + 1) a) as [E|Hne].
  - rewrite filter_all by (intros j _; rewrite switch_id_eqb; now apply Nat.eqb_eq).
    rewrite filter_none.
    + rewrite length_seq. simpl. lia.
    + intros j Hj. apply in_seq in Hj. rewrite switch_id_eqb.
      apply Nat.eqb_neq. lia.
  - rewrite (filter_none (fun _ => switch_id (i + 1) =? switch_id a))
      by (intros j _; rewrite switch_id_eqb; now apply Nat.eqb_neq).
    cbn [List.length Nat.add].
    destruct (Nat.ltb_spec (i + 1) a) as [Hlt|Hge].
    + apply count_le_one; [apply seq_NoDup|].
      intros x y _ _ Hx Hy. rewrite switch_id_eqb in Hx, Hy.
      apply Nat.eqb_eq in Hx. apply Nat.eqb_eq in Hy. lia.
    + rewrite filter_none; [simpl; lia|].
      intros j Hj. apply in_seq in Hj. rewrite switch_id_eqb.
      apply Nat.eqb_neq. lia.
Qed.

Lemma mesh_rows_sum (N a : nat) :
  1 <= a ->
  forall m s,
    list_sum
      (map (fun i => if (i + 1 =? a)%nat then N - a
                     else if (i + 1 <? a)%nat then 1 else 0) (seq s m))
    <= (Nat.min (s + m) (a - 1) - Nat.min s (a - 1)) +
       (if ((s + 1 <=? a) && (a <=? s + m))%nat then N - a else 0).
Proof.
  intros Ha. induction m as [|m IH]; intros s.
  - simpl. lia.
  - cbn [seq map]. specialize (IH (S s)).
    change (list_sum (?x :: ?l)) with (x + list_sum l).
    destruct (Nat.eqb_spec (s + 1) a), (Nat.ltb_spec (s + 1) a),
      (Nat.leb_spec (s + 1) a), (Nat.leb_spec a (s + S m)),
      (Nat.leb_spec (S s + 1) a), (Nat.leb_spec a (S s + m));
      cbn [andb] in *; lia.
Qed.

Lemma deg_mesh_pairs (n : Z) (a : nat) :
  1 <= a <= Z.to_nat n ->
  deg (switch_id a) (mesh_pairs n) <= Z.to_nat n - 1.
Proof.
  intros Ha. unfold mesh_pairs. rewrite deg_flat_map.
  apply Nat.le_trans with
    (list_sum
       (map (fun i => if (i + 1 =? a)%nat then Z.to_nat n - a
                      else if (i + 1 <? a)%nat then 1 else 0)
          (seq 0 (Z.to_nat n)))).
  - generalize (seq 0 (Z.to_nat n)). intros l.
    induction l as [|i l IH]; [simpl; lia|].
    cbn [map]. change (list_sum (?x :: ?l)) with (x + list_sum l).
    pose proof (deg_mesh_row (Z.to_nat n) i a). lia.
  - pose proof (mesh_rows_sum (Z.to_nat n) a ltac:(lia) (Z.to_nat n) 0) as Hs.
    destruct (Nat.leb_spec (0 + 1) a), (Nat.leb_spec a (0 + Z.to_nat n));
      cbn [andb] in Hs; lia.
Qed.

Lemma length_mesh_rows (N : nat) :
  forall m s,
    s + m = N ->
    2 * list_sum (map (fun i => N - (i + 1)) (seq s m)) = m * (m - 1).
Proof.
  induction m as [|m IH]; intros s Hs; [reflexivity|].
  cbn [seq map]. change (list_sum (?x :: ?l)) with (x + list_sum l).
  specialize (IH (S s) ltac:(lia)).
  replace (N - (s + 1)) with m by lia.
  destruct m as [|m]; [simpl in *; lia|].
  replace (S (S m) - 1) with (S m) by lia.
  replace (S m - 1) with m in IH by lia. nia.
Qed.

Lemma length_mesh_pairs (n : Z) :
  2 * List.length (mesh_pairs n) = Z.to_nat n * (Z.to_nat n - 1).
Proof.
  unfold mesh_pairs. rewrite length_flat_map.
  rewrite (map_ext _ (fun i => Z.to_nat n - (i + 1)))
    by (intros i; now rewrite length_map, length_seq).
  now apply length_mesh_rows.
Qed.

(** A switch gets no more hosts than [c] when the last switch does. *)
Lemma hosts_on_le (n h c : Z) (a : nat) :
  (1 <= n)%Z -> 1 <= a <= Z.to_nat n -> (1 <= c)%Z ->
  (h - (n - 1) * Z.max 1 (h / n) <= c)%Z ->
  hosts_on n h a <= Z.to_nat c.
Proof.
  intros Hn Ha Hc Hcap. unfold hosts_on.
  set (hps := Z.max 1 (h / n)) in *.
  assert (1 <= hps)%Z as Hhps by (unfold hps; lia).
  assert (hps <= c)%Z as Hhpsc.
  { unfold hps in *. destruct (Z.max_spec 1 (h / n)) as [[_ E]|[_ E]];
      rewrite E in *; [|lia].
    pose proof (Z.mul_div_le h n ltac:(lia)). lia. }
  assert (0 <= (n - 1) * hps)%Z as Hprod
    by (apply Z.mul_nonneg_nonneg; lia).
  destruct (Nat.eq_dec a (Z.to_nat n)) as [Elast|Hnot].
  - apply Nat.le_trans
      with (Z.to_nat h - Z.to_nat ((n - 1) * hps)); [|lia].
    apply (count_in_interval _ _ (Z.to_nat ((n - 1) * hps))).
    + apply seq_NoDup.
    + intros i Hi E. apply in_seq in Hi. apply Nat.eqb_eq in E.
      unfold assigned in E. fold hps in E.
      pose proof (Z.mul_div_le (Z.of_nat i) hps ltac:(lia)) as Hm.
      assert (0 <= Z.of_nat i / hps)%Z as Hq0 by (apply Z.div_pos; lia).
      remember (Z.of_nat i / hps)%Z as q eqn:Eq.
      assert (n - 1 <= q)%Z as Hq by lia.
      assert ((n - 1) * hps <= hps * q)%Z as Hmono.
      { rewrite (Z.mul_comm (n - 1) hps).
        apply Z.mul_le_mono_nonneg_l; lia. }
      lia.
  - apply Nat.le_trans with (Z.to_nat hps); [|lia].
    apply (count_in_interval _ _ (Z.to_nat ((Z.of_nat a - 1) * hps))).
    + apply seq_NoDup.
    + intros i Hi E. apply Nat.eqb_eq in E.
      unfold assigned in E. fold hps in E.
      assert (0 <= Z.of_nat i / hps)%Z as Hq0 by (apply Z.div_pos; lia).
      pose proof (Z.div_mod (Z.of_nat i) hps ltac:(lia)) as Hdm.
      pose proof (Z.mod_pos_bound (Z.of_nat i) hps ltac:(lia)) as Hmb.
      remember (Z.of_nat i / hps)%Z as q eqn:Eq.
      remember (Z.of_nat i mod hps)%Z as r eqn:Er.
      assert (q = Z.of_nat a - 1)%Z as Hq by lia.
      rewrite Hq in Hdm.
      rewrite (Z.mul_comm hps (Z.of_nat a - 1)) in Hdm.
      assert (0 <= (Z.of_nat a - 1) * hps)%Z by (apply Z.mul_nonneg_nonneg; lia).
      lia.
Qed.

Lemma mesh_rows_shift (N : nat) :
  forall m s,
    flat_map
      (fun i => map (fun j => (switch_id (i + 1), switch_id (j + 1)))
                  (seq (i + 1) (N - (i + 1))))
      (seq s m) =
    flat_map
      (fun i => map (fun j => (switch_id i, switch_id j)) (seq (i + 1) (N - i)))
      (seq (S s) m).
Proof.
  induction m as [|m IH]; intros s; [reflexivity|].
  cbn [seq flat_map]. rewrite IH. f_equal.
  replace (S s + 1) with (S (s + 1)) by lia.
  replace (N - S s) with (N - (s + 1)) by lia.
  rewrite <- seq_shift, map_map.
  apply map_ext. intros j.
  replace (s + 1) with (S s) by lia.
  replace (j + 1) with (S j) by lia. reflexivity.
Qed.

Lemma mesh_pairs_rows (n : Z) :
  mesh_pairs n =
  flat_map
    (fun i => map (fun j => (switch_id i, switch_id j))
                (seq (i + 1) (Z.to_nat n - i)))
    (seq 1 (Z.to_nat n)).
Proof. unfold mesh_pairs. apply mesh_rows_shift. Qed.

Lemma create_mesh_network_wired (n h : Z) rng :
  (1 <= n)%Z ->
  exists T,
    create_mesh_network n h rng = inr T /\
    topo_name T = "Mesh Network" /\
    represents (ring_base (Z.to_nat n) (Z.to_nat h) rng)
      (link_all (ring_base (Z.to_nat n) (Z.to_nat h) rng) (mesh_pairs n)
         (link_all (ring_base (Z.to_nat n) (Z.to_nat h) rng) (host_pairs n h)
            no_wiring))
      (as_ring T).
Proof.
  intros Hn.
  destruct (generator_refines "Mesh Network" n h rng _ (mesh_pairs n) Hn
              (mesh_loop_pairs n)
              (switch_pairs_in_base n h rng _ (mesh_switch_pairs n)))
    as (T & Hrun & Hname & Hrep).
  exists T. split; [|split; assumption].
  unfold create_mesh_network, built, mesh_script. cbv zeta.
  now rewrite Hrun.
Qed.

(** [create_mesh_network] with at least one switch returns a topology
    named "Mesh Network" whose devices are switch1 .. switchn followed by
    host1 .. hosth, with at most n (n - 1) / 2 switch-to-switch records;
    when every switch keeps n - 1 free ports after its hosts, there are
    exactly n (n - 1) / 2 of them, one for every pair of switches
    i < j. *)
Theorem create_mesh_network_full (n h : Z) (rng : nat -> nat * nat * nat) :
  (1 <= n)%Z ->
  exists T,
    create_mesh_network n h rng = inr T /\
    topo_name T = "Mesh Network" /\
    dkeys (devices T) =
      (map switch_id (seq 1 (Z.to_nat n)) ++
       map host_id (seq 1 (Z.to_nat h)))%list /\
    2 * List.length (ss_records T) <= Z.to_nat n * (Z.to_nat n - 1) /\
    ((n <= 24)%Z -> (h - (n - 1) * Z.max 1 (h / n) <= 25 - n)%Z ->
     2 * List.length (ss_records T) = Z.to_nat n * (Z.to_nat n - 1) /\
     Permutation (map conn_devices (ss_records T))
       (flat_map
          (fun i => map (fun j => (switch_id i, switch_id j))
                      (seq (i + 1) (Z.to_nat n - i)))
          (seq 1 (Z.to_nat n)))).
Proof.
  intros Hn.
  destruct (create_mesh_network_wired n h rng Hn) as (T & Hrun & Hname & Hrep).
  exists T. split; [exact Hrun|]. split; [exact Hname|].
  destruct (switch_pairs_records n h rng (mesh_pairs n) (as_ring T) Hn
              (mesh_switch_pairs n) Hrep) as [Hle Hex].
  change (ss_records (as_ring T)) with (ss_records T) in Hle, Hex.
  destruct Hrep as ((_ & Hk & _) & _).
  pose proof (length_mesh_pairs n) as Hlen.
  split; [|split].
  - rewrite <- dkeys_ring_base with (rng := rng). exact Hk.
  - lia.
  - intros Hn24 Hcap.
    assert (map conn_devices (ss_records T) = mesh_pairs n) as E.
    { apply Hex. intros a Ha.
      pose proof (hosts_on_le n h (25 - n) a Hn Ha ltac:(lia) Hcap).
      pose proof (deg_mesh_pairs n a Ha). lia. }
    split.
    + rewrite <- (length_map conn_devices), E. exact Hlen.
    + rewrite E, mesh_pairs_rows. apply Permutation_refl.
Qed.

Lemma create_mesh_network_full_witness :
  exists T,
    create_mesh_network 4 4 fixed_rng = inr T /\
    topo_name T = "Mesh Network" /\
    dkeys (devices T) =
      (map switch_id (seq 1 (Z.to_nat 4)) ++
       map host_id (seq 1 (Z.to_nat 4)))%list /\
    2 * List.length (ss_records T) <= Z.to_nat 4 * (Z.to_nat 4 - 1) /\
    ((4 <= 24)%Z -> (4 - (4 - 1) * Z.max 1 (4 / 4) <= 25 - 4)%Z ->
     2 * List.length (ss_records T) = Z.to_nat 4 * (Z.to_nat 4 - 1) /\
     Permutation (map conn_devices (ss_records T))
       (flat_map
          (fun i => map (fun j => (switch_id i, switch_id j))
                      (seq (i + 1) (Z.to_nat 4 - i)))
          (seq 1 (Z.to_nat 4)))).
Proof.
  apply (create_mesh_network_full 4 4 fixed_rng). lia.
Defined.

(** ** Consistency is kept by adding and connecting *)

Lemma consistent_connect (T T' : NetworkTopology) (d1 i1 d2 i2 : string) :
  consistent T -> connect_devices d1 i1 d2 i2 T = (inr tt, T') ->
  consistent T'.
Proof.
  intros [Hrec Hslot] Hrun. apply connect_devices_inv in Hrun.
  destruct Hrun as (F1 & F2 & ->).
  destruct (records_have_slots_connect_post T d1 i1 d2 i2 Hrec F1 F2)
    as (Hrec' & Hn1 & Hn2).
  split; [exact Hrec'|].
  assert (dget d1 (devices T) <> None) as A1
    by (apply (slot_exists_device T d1 i1); congruence).
  assert (dget d2 (devices T) <> None) as A2
    by (apply (slot_exists_device T d2 i2); congruence).
  intros d i p pi Hs. unfold matching_records.
  rewrite connections_connect_post, set_add_new by exact Hn1.
  rewrite filter_app, length_app.
  rewrite slot_connect_post in Hs by assumption.
  assert (forall a b x y,
             ~ In (a, b, x, y) (connections T) ->
             ~ In (x, y, a, b) (connections T) ->
             filter (pair_match a b x y) (connections T) = []) as Hnone.
  { intros a b x y N1 N2. apply filter_none. intros c Hin.
    destruct (pair_match a b x y c) eqn:E; [|reflexivity].
    apply pair_match_iff in E. destruct E as [-> | ->]; contradiction. }
  destruct ((d2 =? d) && (i2 =? i)) eqn:E2.
  - apply endpoint_eqb in E2. destruct E2 as [-> ->].
    injection Hs as <- <-.
    rewrite (Hnone d2 i2 d1 i1 Hn2 Hn1). cbn [filter].
    assert (pair_match d2 i2 d1 i1 (d1, i1, d2, i2) = true) as ->
      by (apply pair_match_iff; now right).
    reflexivity.
  - destruct ((d1 =? d) && (i1 =? i)) eqn:E1.
    + apply endpoint_eqb in E1. destruct E1 as [-> ->].
      injection Hs as <- <-.
      rewrite (Hnone d1 i1 d2 i2 Hn1 Hn2). cbn [filter].
      assert (pair_match d1 i1 d2 i2 (d1, i1, d2, i2) = true) as ->
        by (apply pair_match_iff; now left).
      reflexivity.
    + pose proof (Hslot d i p pi Hs) as H1. unfold matching_records in H1.
      rewrite H1. cbn [filter].
      destruct (pair_match d i p pi (d1, i1, d2, i2)) eqn:E; [|reflexivity].
      exfalso. apply pair_match_iff in E. destruct E as [E|E]; injection E as -> -> -> ->.
      * rewrite !String.eqb_refl in E1. discriminate E1.
      * rewrite !String.eqb_refl in E2. discriminate E2.
Qed.

Lemma consistent_add_device (T T' : NetworkTopology) (d : NetworkDevice) :
  consistent T -> standalone d = true ->
  add_device d T = (inr tt, T') -> consistent T'.
Proof.
  intros [Hrec Hslot] Hst H. unfold add_device, dmem in H.
  destruct (dget (device_id d) (devices T)) eqn:E; [discriminate|].
  injection H as <-.
  assert (forall x i,
             slot (with_devices T (dset (device_id d) d (devices T))) x i =
             if device_id d =? x then dget i (interfaces d) else slot T x i)
    as Hs.
  { intros x i. unfold slot. simpl. rewrite dget_dset.
    now destruct (device_id d =? x). }
  assert (forall x i v, slot T x i = Some v ->
             slot (with_devices T (dset (device_id d) d (devices T))) x i
             = Some v) as Hkeep.
  { intros x i v Hx. rewrite Hs.
    destruct (String.eqb_spec (device_id d) x) as [<-|_]; [|exact Hx].
    unfold slot in Hx. rewrite E in Hx. discriminate Hx. }
  split.
  - intros [[[a b] x] y] Hin. destruct (Hrec _ Hin) as [S1 S2].
    split; now apply Hkeep.
  - intros x i p pi Hx. apply (Hslot x i p pi).
    rewrite Hs in Hx. destruct (device_id d =? x); [|exact Hx].
    now apply (standalone_slots d i _ Hst) in Hx.
Qed.

Lemma consistent_init (nm : string) : consistent (NetworkTopology_init nm).
Proof.
  split.
  - intros c [].
  - intros d i p pi H. discriminate H.
Qed.

Lemma bind_inv {A} (m : M A) (k : M unit) (T T' : NetworkTopology) :
  (m ;;; k) T = (inr tt, T') ->
  exists x T1, m T = (inr x, T1) /\ k T1 = (inr tt, T').
Proof.
  unfold bind. destruct (m T) as [[e|x] T1]; [discriminate|]. eauto.
Qed.

Lemma built_inv (m : M unit) (T0 T : NetworkTopology) :
  built m T0 = inr T -> m T0 = (inr tt, T).
Proof.
  unfold built. destruct (m T0) as [[e|[]] T1]; [discriminate|].
  now intros [= ->].
Qed.

Lemma standalone_fresh (id ty nm : string) (names : list string)
  (ps : dict PyVal) :
  standalone (mkDevice id ty nm (fresh_interfaces names) ps) = true.
Proof.
  unfold standalone, fresh_interfaces. cbn [interfaces].
  apply forallb_forall. intros x Hin. apply in_map_iff in Hin.
  destruct Hin as (k & <- & _). reflexivity.
Qed.

Lemma standalone_ring_switch (i : nat) : standalone (ring_switch i) = true.
Proof. rewrite ring_switch_spec. apply standalone_fresh. Qed.

Lemma standalone_ring_host rng (i : nat) : standalone (ring_host rng i) = true.
Proof.
  destruct (ring_host_spec rng i) as (nm & ps & ->). apply standalone_fresh.
Qed.

Lemma well_built_add_device (T T' : NetworkTopology) (d : NetworkDevice) :
  standalone d = true -> well_built T ->
  add_device d T = (inr tt, T') -> well_built T'.
Proof.
  intros Hst [Hr Hc] Hrun. split.
  - exact (reach_step T (OpAddDevice d) T' Hr Hst Hrun).
  - exact (consistent_add_device T T' d Hc Hst Hrun).
Qed.

Lemma well_built_connect_available (T T' : NetworkTopology) (d1 d2 : string) :
  well_built T -> connect_available d1 d2 T = (inr tt, T') -> well_built T'.
Proof.
  intros [Hr Hc] Hrun. unfold connect_available in Hrun.
  destruct (dget d1 (devices T)) as [dev1|]; [|discriminate Hrun].
  destruct (dget d2 (devices T)) as [dev2|]; [|discriminate Hrun].
  destruct (get_available_interface dev1) as [i1|];
    [|injection Hrun as <-; now split].
  destruct (get_available_interface dev2) as [i2|];
    [|injection Hrun as <-; now split].
  destruct (truthy (Some i1) && truthy (Some i2));
    [|injection Hrun as <-; now split].
  split.
  - exact (reach_step T (OpConnect d1 i1 d2 i2) T' Hr I Hrun).
  - exact (consistent_connect T T' d1 i1 d2 i2 Hc Hrun).
Qed.

(** The shared loops keep the topology well built. *)
Lemma well_built_shared (nm : string) (n h : Z) rng (fin : M unit)
  (T : NetworkTopology) :
  (forall T1 T2, well_built T1 -> fin T1 = (inr tt, T2) -> well_built T2) ->
  (for_each (seq 1 (Z.to_nat n)) (fun i => add_device (ring_switch i)) ;;;
   for_each (seq 1 (Z.to_nat h)) (fun i => add_device (ring_host rng i)) ;;;
   (if (n =? 0)%Z then raise ZeroDivisionError else ret tt) ;;;
   for_each
     (combine (seq 0 (List.length (map host_id (seq 1 (Z.to_nat h)))))
        (map host_id (seq 1 (Z.to_nat h))))
     (fun '(i, host) =>
        match py_index (map switch_id (seq 1 (Z.to_nat n)))
                (Z.min (Z.of_nat i / Z.max 1 (h / n)) (n - 1)) with
        | None => raise IndexError
        | Some switch => connect_available host switch
        end) ;;;
   fin) (NetworkTopology_init nm) = (inr tt, T) ->
  well_built T.
Proof.
  intros Hfin Hrun.
  apply bind_inv in Hrun. destruct Hrun as ([] & T1 & H1 & Hrun).
  apply bind_inv in Hrun. destruct Hrun as ([] & T2 & H2 & Hrun).
  apply bind_inv in Hrun. destruct Hrun as ([] & T3 & H3 & Hrun).
  apply bind_inv in Hrun. destruct Hrun as ([] & T4 & H4 & Hrun).
  apply (Hfin T4 T); [|exact Hrun].
  assert (well_built T1) as W1.
  { apply (for_each_inv well_built _ _
             (fun i U U' _ HU => well_built_add_device U U' _
                                   (standalone_ring_switch i) HU) _ _
             (conj (reach_init nm) (consistent_init nm)) H1). }
  assert (well_built T2) as W2.
  { apply (for_each_inv well_built _ _
             (fun i U U' _ HU => well_built_add_device U U' _
                                   (standalone_ring_host rng i) HU) _ _
             W1 H2). }
  assert (T3 = T2) as ->.
  { destruct (n =? 0)%Z; [discriminate H3|]. now injection H3. }
  refine (for_each_inv well_built _ _ _ _ _ W2 H4).
  intros [i host] U U' _ HU Hbody.
  destruct (py_index _ _) as [switch|]; [|discriminate Hbody].
  exact (well_built_connect_available U U' host switch HU Hbody).
Qed.

(** Every topology a generator returns is reachable through the public
    operations and consistent: each record has both its slots pointing at
    each other, and each connected slot has exactly one record of its
    pair. *)
Theorem generated_topologies_consistent
  (n h : Z) (rng : nat -> nat * nat * nat) (T : NetworkTopology) :
  create_simple_network n h rng = inr T \/
  create_ring_network n h rng = inr T \/
  create_mesh_network n h rng = inr T ->
  reachable T /\ consistent T.
Proof.
  intros [H|[H|H]]; apply built_inv in H;
    apply (well_built_shared _ n h rng _ T) in H; try exact H.
  - intros T1 T2 W. apply for_each_inv; [|exact W].
    intros i U U' _ HU Hbody.
    destruct (py_index _ _) as [s1|]; [|discriminate Hbody].
    destruct (py_index _ _) as [s2|]; [|discriminate Hbody].
    exact (well_built_connect_available U U' s1 s2 HU Hbody).
  - intros T1 T2 W. apply for_each_inv; [|exact W].
    intros i U U' _ HU Hbody.
    destruct (py_index _ _) as [s1|]; [|discriminate Hbody].
    destruct (py_index _ _) as [s2|]; [|discriminate Hbody].
    exact (well_built_connect_available U U' s1 s2 HU Hbody).
  - intros T1 T2 W. apply for_each_inv; [|exact W].
    intros i U U' _ HU. apply for_each_inv; [|exact HU].
    intros j V V' _ HV Hbody.
    destruct (py_index _ _) as [s1|]; [|discriminate Hbody].
    destruct (py_index _ _) as [s2|]; [|discriminate Hbody].
    exact (well_built_connect_available V V' s1 s2 HV Hbody).
Qed.

Lemma generated_topologies_consistent_witness :
  exists T,
    create_mesh_network 3 5 fixed_rng = inr T /\
    reachable T /\ consistent T.
Proof.
  eexists. split; [vm_compute; reflexivity|].
  apply (generated_topologies_consistent 3 5 fixed_rng).
  right. right. vm_compute. reflexivity.
Defined.

(** A sequence of [add_device] (of devices straight from a constructor)
    and [connect_devices] calls that all succeed takes a consistent
    topology to a consistent one: without [disconnect_devices] and
    [remove_device] no record goes stale and no link is recorded twice. *)
Theorem growing_ops_keep_consistent
  (ops : list Op) (T T' : NetworkTopology) :
  consistent T ->
  forallb grows ops = true ->
  run_ops ops T = (inr tt, T') ->
  consistent T'.
Proof.
  intros Hc Hops Hrun. rewrite forallb_forall in Hops.
  refine (for_each_inv consistent run_op ops _ T T' Hc Hrun).
  intros op U U' Hin HU Hstep. specialize (Hops op Hin).
  destruct op as [d|id|d1 i1 d2 i2|d1 i1 d2 i2]; cbn [grows run_op] in *;
    try discriminate Hops.
  - exact (consistent_add_device U U' d HU Hops Hstep).
  - exact (consistent_connect U U' d1 i1 d2 i2 HU Hstep).
Qed.

Lemma growing_ops_keep_consistent_witness : consistent wired_pair.
Proof.
  apply (growing_ops_keep_consistent two_switch_ops
           (NetworkTopology_init "t") wired_pair).
  - apply consistent_init.
  - vm_compute. reflexivity.
  - vm_compute. reflexivity.
Defined.

(** Without switches [create_simple_network] and [create_mesh_network]
    raise ZeroDivisionError for numSwitches = 0; for a negative numSwitches
    they raise IndexError as soon as there is a host, and return an empty
    topology otherwise. *)
Theorem generators_without_switches
  (n h : Z) (rng : nat -> nat * nat * nat) :
  (n <= 0)%Z ->
  create_simple_network n h rng =
    (if (n =? 0)%Z then inl ZeroDivisionError
     else if (h <=? 0)%Z then inr (NetworkTopology_init "Simple Network")
          else inl IndexError) /\
  create_mesh_network n h rng =
    (if (n =? 0)%Z then inl ZeroDivisionError
     else if (h <=? 0)%Z then inr (NetworkTopology_init "Mesh Network")
          else inl IndexError).
Proof.
  intros Hn. split.
  - unfold create_simple_network, simple_script. cbv zeta.
    rewrite generator_no_switch by exact Hn.
    destruct (n =? 0)%Z; [reflexivity|].
    destruct (h <=? 0)%Z; [|reflexivity].
    replace (Z.to_nat n) with 0 by lia. reflexivity.
  - unfold create_mesh_network, mesh_script. cbv zeta.
    rewrite generator_no_switch by exact Hn.
    destruct (n =? 0)%Z; [reflexivity|].
    destruct (h <=? 0)%Z; [|reflexivity].
    replace (Z.to_nat n) with 0 by lia. reflexivity.
Qed.

Lemma generators_without_switches_witness :
  create_simple_network 0 4 fixed_rng = inl ZeroDivisionError /\
  create_mesh_network 0 4 fixed_rng = inl ZeroDivisionError.
Proof.
  apply (generators_without_switches 0 4 fixed_rng). lia.
Defined.
(** ** What a load returns *)

Lemma standalone_load_device (id : string) (dd : DeviceData) rnd
  (dev : NetworkDevice) :
  load_device id dd rnd = Some dev -> standalone dev = true.
Proof.
  unfold load_device, standalone.
  destruct (dd_type dd =? "switch").
  - intros [= <-].
    match goal with |- context [replay_properties ?ps ?d] =>
      destruct (replay_properties_fields ps d) as (_ & _ & _ & ->) end.
    rewrite Switch_spec. apply (standalone_fresh id "switch").
  - destruct (dd_type dd =? "host"); [|discriminate].
    intros [= <-].
    match goal with |- context [replay_properties ?ps ?d] =>
      destruct (replay_properties_fields ps d) as (_ & _ & _ & ->) end.
    rewrite Host_spec. apply (standalone_fresh id "host").
Qed.

Lemma add_device_connections (d : NetworkDevice) (T T' : NetworkTopology) r :
  add_device d T = (r, T') -> connections T' = connections T.
Proof.
  unfold add_device. destruct (dmem (device_id d) (devices T));
    intros [= _ <-]; reflexivity.
Qed.

Lemma well_built_load_devices (ds : dict DeviceData) rng
  (T T' : NetworkTopology) :
  well_built T /\ connections T = [] ->
  load_devices ds rng T = (inr tt, T') ->
  well_built T' /\ connections T' = [].
Proof.
  unfold load_devices.
  apply (for_each_inv (fun U => well_built U /\ connections U = [])).
  intros [k [id dd]] U U' _ [HU HC] Hbody.
  destruct (load_device id dd (rng k)) as [dev|] eqn:E.
  - split.
    + exact (well_built_add_device U U' dev
               (standalone_load_device id dd (rng k) dev E) HU Hbody).
    + now rewrite (add_device_connections dev U U' _ Hbody).
  - injection Hbody as <-. now split.
Qed.

Lemma well_built_load_connections (cs : list Conn) :
  forall T T',
    well_built T -> load_connections cs T = (inr tt, T') ->
    well_built T' /\ connections T' = (connections T ++ cs)%list.
Proof.
  unfold load_connections.
  induction cs as [|[[[d1 i1] d2] i2] r IH]; intros T T' W Hrun.
  - injection Hrun as <-. now rewrite app_nil_r.
  - cbn [for_each] in Hrun. apply bind_inv in Hrun.
    destruct Hrun as ([] & T1 & H1 & Hrun).
    assert (well_built T1) as W1.
    { destruct W as [Hr Hc]. split.
      - exact (reach_step T (OpConnect d1 i1 d2 i2) T1 Hr I H1).
      - exact (consistent_connect T T1 d1 i1 d2 i2 Hc H1). }
    destruct (IH T1 T' W1 Hrun) as [W' E]. split; [exact W'|].
    rewrite E. apply connect_devices_inv in H1.
    destruct H1 as (F1 & F2 & ->).
    destruct W as [_ [Hrec _]].
    destruct (records_have_slots_connect_post T d1 i1 d2 i2 Hrec F1 F2)
      as (_ & Hn1 & _).
    rewrite connections_connect_post, set_add_new by exact Hn1.
    now rewrite <- app_assoc.
Qed.

(** Every topology [load_from_file] returns is reachable through the
    public operations and consistent, and its records are the records of
    the document, each of them once; so no two records of a document that
    loads use the same interface. *)
Theorem loaded_topology_consistent
  (data : Document) (rng : nat -> nat * nat * nat) (T : NetworkTopology) :
  load_from_file data rng = inr T ->
  reachable T /\ consistent T /\
  Permutation (connections T) (doc_connections data) /\
  pairwise_disjoint (doc_connections data).
Proof.
  intros H. unfold load_from_file in H. apply built_inv in H.
  apply bind_inv in H. destruct H as ([] & T1 & H1 & H2).
  destruct (well_built_load_devices _ rng _ T1
              (conj (conj (reach_init _) (consistent_init _)) eq_refl) H1)
    as [W1 C1].
  destruct (well_built_load_connections _ T1 T W1 H2) as [[Hr Hc] E].
  rewrite C1, app_nil_l in E.
  split; [exact Hr|]. split; [exact Hc|].
  split; [rewrite E; apply Permutation_refl|].
  rewrite <- E. now apply consistent_pairwise_disjoint.
Qed.

Lemma loaded_topology_consistent_witness :
  exists T,
    load_from_file (to_dict wired_pair) fixed_rng = inr T /\
    reachable T /\ consistent T /\
    Permutation (connections T) (doc_connections (to_dict wired_pair)) /\
    pairwise_disjoint (doc_connections (to_dict wired_pair)).
Proof.
  eexists. split; [vm_compute; reflexivity|].
  apply (loaded_topology_consistent (to_dict wired_pair) fixed_rng).
  vm_compute. reflexivity.
Defined.

(** ** Device properties *)

(** [get_property] after [set_property] returns the value just stored under
    that key and what was there before under any other key; the key keeps
    its place among the properties when it was set before and goes last
    when it is new; identity, type, name and interfaces are untouched. *)
Theorem set_property_then_get_property
  (d : NetworkDevice) (key : string) (value : PyVal) :
  (forall k, get_property (set_property d key value) k =
             if key =? k then Some value else get_property d k) /\
  (get_property d key <> None ->
   dkeys (properties (set_property d key value)) = dkeys (properties d)) /\
  (get_property d key = None ->
   properties (set_property d key value)
   = (properties d ++ [(key, value)])%list) /\
  device_id (set_property d key value) = device_id d /\
  device_type (set_property d key value) = device_type d /\
  name (set_property d key value) = name d /\
  interfaces (set_property d key value) = interfaces d.
Proof.
  unfold get_property, set_property. destruct d as [id ty nm ifs ps].
  cbn [with_properties properties device_id device_type name interfaces].
  split; [|split; [|split]].
  - intros k. apply dget_dset.
  - apply dkeys_dset_present.
  - apply dset_absent.
  - repeat split.
Qed.

(** ** Where the generators attach the hosts *)

Lemma deg_host_pairs_host (n h : Z) (j : nat) :
  deg (host_id j) (host_pairs n h) <= 1.
Proof.
  unfold deg, host_pairs. rewrite !filter_map_length. cbn [fst snd].
  rewrite (filter_none (fun i => switch_id (assigned n h i) =? host_id j)).
  - rewrite Nat.add_0_r. apply count_le_one; [apply seq_NoDup|].
    intros x y _ _ Hx Hy.
    apply String.eqb_eq, host_id_inj in Hx.
    apply String.eqb_eq, host_id_inj in Hy. lia.
  - intros i _. rewrite String.eqb_sym. apply host_id_eqb_switch_id.
Qed.

(** In a base wired along the host pairs and then along pairs of switches,
    the records that are not switch-to-switch are those of the host pairs
    when no switch is given more than 24 hosts; the list holds them in the
    order of the calls. *)
Lemma host_pairs_records (n h : Z) rng (pairs : list (string * string))
  (T : NetworkTopology) :
  (1 <= n)%Z ->
  (h - (n - 1) * Z.max 1 (h / n) <= 24)%Z ->
  (forall d1 d2, In (d1, d2) pairs ->
     exists a b, 1 <= a <= Z.to_nat n /\ 1 <= b <= Z.to_nat n /\
                 d1 = switch_id a /\ d2 = switch_id b) ->
  represents (ring_base (Z.to_nat n) (Z.to_nat h) rng)
    (link_all (ring_base (Z.to_nat n) (Z.to_nat h) rng) pairs
       (link_all (ring_base (Z.to_nat n) (Z.to_nat h) rng) (host_pairs n h)
          no_wiring)) T ->
  map conn_devices
    (filter (fun c => negb (switch_to_switch T c)) (connections T))
  = host_pairs n h.
Proof.
  intros Hn Hcap Hsp Hrep.
  set (B := ring_base (Z.to_nat n) (Z.to_nat h) rng) in *.
  set (w1 := link_all B (host_pairs n h) no_wiring) in *.
  pose proof Hrep as (Hframe & Hconn & _ & _).
  assert (forall x, 1 <= x <= Z.to_nat n -> is_switch B (switch_id x) = true)
    as Hsw by (intros x Hx; apply is_switch_ring_base; eauto).
  assert (forall j, is_switch B (host_id j) = false) as Hho.
  { intros j. destruct (is_switch B (host_id j)) eqn:Es; [|reflexivity].
    apply is_switch_ring_base in Es. destruct Es as (b & _ & Eb).
    symmetry in Eb. now apply switch_id_not_host_id in Eb. }
  destruct (link_all_exact B (host_pairs n h)) with (w := no_wiring)
    as ((ex1 & E1 & M1) & _).
  { intros d1 d2 Hin. split; [|now apply (host_pairs_in_base n h rng)].
    destruct (host_pairs_spec n h d1 d2 Hin) as (j & a & -> & ->).
    intros E. symmetry in E. now apply switch_id_not_host_id in E. }
  { intros d dev Hd. cbn [peers no_wiring List.length Nat.add].
    destruct (ring_base_device _ _ _ d dev Hd)
      as [(a & Ha & -> & ->)|(j & Hj & -> & ->)].
    - rewrite deg_host_pairs, ring_switch_spec. cbn [interfaces].
      unfold fresh_interfaces. rewrite !length_map, length_seq.
      pose proof (hosts_on_le n h 24 a Hn Ha ltac:(lia) Hcap). lia.
    - destruct (ring_host_spec rng j) as (nm & ps & ->). cbn [interfaces].
      apply deg_host_pairs_host. }
  fold w1 in E1. cbn [recs no_wiring] in E1. rewrite app_nil_l in E1.
  destruct (link_all_recs B pairs w1) as (ex2 & E2 & _ & P2).
  rewrite Hconn, E2, E1, filter_app.
  rewrite (filter_all _ ex1), (filter_none _ ex2).
  - now rewrite app_nil_r.
  - intros c Hc. specialize (P2 c Hc).
    destruct (conn_devices c) as [d1 d2] eqn:Ec.
    destruct (Hsp d1 d2 P2) as (a & b & Ha & Hb & -> & ->).
    unfold switch_to_switch. rewrite Ec. cbn [fst snd].
    rewrite !(is_switch_frame B T _ Hframe).
    now rewrite (Hsw a Ha), (Hsw b Hb).
  - intros c Hc. apply (in_map conn_devices) in Hc. rewrite M1 in Hc.
    destruct (conn_devices c) as [d1 d2] eqn:Ec.
    destruct (host_pairs_spec n h d1 d2 Hc) as (j & a & -> & ->).
    unfold switch_to_switch. rewrite Ec. cbn [fst snd].
    rewrite (is_switch_frame B T _ Hframe).
    now rewrite Hho.
Qed.

Lemma switch_pairs_switches (N : nat) (pairs : list (string * string)) :
  switch_pairs N pairs ->
  forall d1 d2, In (d1, d2) pairs ->
    exists a b, 1 <= a <= N /\ 1 <= b <= N /\
                d1 = switch_id a /\ d2 = switch_id b.
Proof.
  intros Hsp d1 d2 Hin.
  destruct (Hsp d1 d2 Hin) as (a & b & Ha & Hb & _ & E1 & E2).
  exists a, b. auto.
Qed.

Lemma ring_pairs_switches (n : Z) :
  (1 <= n)%Z ->
  forall d1 d2, In (d1, d2) (ring_pairs n) ->
    exists a b, 1 <= a <= Z.to_nat n /\ 1 <= b <= Z.to_nat n /\
                d1 = switch_id a /\ d2 = switch_id b.
Proof.
  intros Hn d1 d2 Hin. unfold ring_pairs in Hin. apply in_map_iff in Hin.
  destruct Hin as (i & E & Hi). injection E as <- <-. apply in_seq in Hi.
  exists (i + 1), (next_switch n i).
  pose proof (next_switch_range n i Hn). repeat split; lia.
Qed.

(** All three generators attach the hosts in the same way.  With at least
    one switch and no more than 24 hosts for the last switch, the records
    that are not switch-to-switch are one per host: that of host i + 1
    with switch min(i // hosts_per_switch, numSwitches - 1) + 1, where
    hosts_per_switch = max(1, numHosts // numSwitches). *)
Theorem generators_attach_hosts
  (n h : Z) (rng : nat -> nat * nat * nat) (T : NetworkTopology) :
  (1 <= n)%Z ->
  (h - (n - 1) * Z.max 1 (h / n) <= 24)%Z ->
  create_simple_network n h rng = inr T \/
  create_ring_network n h rng = inr T \/
  create_mesh_network n h rng = inr T ->
  Permutation
    (map conn_devices
       (filter (fun c => negb (switch_to_switch T c)) (connections T)))
    (map (fun i =>
            (host_id (i + 1),
             switch_id
               (Z.to_nat (Z.min (Z.of_nat i / Z.max 1 (h / n)) (n - 1)) + 1)))
       (seq 0 (Z.to_nat h))).
Proof.
  intros Hn Hcap Hgen.
  change (Permutation
            (map conn_devices
               (filter (fun c => negb (switch_to_switch T c)) (connections T)))
            (host_pairs n h)).
  match goal with |- Permutation ?l _ => assert (l = host_pairs n h) as E end;
    [|rewrite E; apply Permutation_refl].
  destruct Hgen as [H|[H|H]].
  - destruct (create_simple_network_wired n h rng Hn) as (T' & Hrun & _ & Hrep).
    rewrite Hrun in H. injection H as ->.
    exact (host_pairs_records n h rng (line_pairs n) (as_ring T) Hn Hcap
             (switch_pairs_switches _ _ (line_switch_pairs n)) Hrep).
  - destruct (create_ring_network_wired n h rng Hn) as (T' & Hrun & Hrep).
    rewrite Hrun in H. injection H as ->.
    exact (host_pairs_records n h rng (ring_pairs n) T Hn Hcap
             (ring_pairs_switches n Hn) Hrep).
  - destruct (create_mesh_network_wired n h rng Hn) as (T' & Hrun & _ & Hrep).
    rewrite Hrun in H. injection H as ->.
    exact (host_pairs_records n h rng (mesh_pairs n) (as_ring T) Hn Hcap
             (switch_pairs_switches _ _ (mesh_switch_pairs n)) Hrep).
Qed.

Lemma generators_attach_hosts_witness :
  exists T,
    create_simple_network 2 5 fixed_rng = inr T /\
    Permutation
      (map conn_devices
         (filter (fun c => negb (switch_to_switch T c)) (connections T)))
      (map (fun i =>
              (host_id (i + 1),
               switch_id
                 (Z.to_nat (Z.min (Z.of_nat i / Z.max 1 (5 / 2)) (2 - 1)) + 1)))
         (seq 0 (Z.to_nat 5))).
Proof.
  eexists. split; [vm_compute; reflexivity|].
  apply (generators_attach_hosts 2 5 fixed_rng).
  - lia.
  - vm_compute. discriminate.
  - left. vm_compute. reflexivity.
Defined.

(* ===================================================================== *)
(** ** Rings of one and of two switches *)

(** A device without a free interface keeps its wiring. *)
Lemma link_full (B : NetworkTopology) (d1 d2 : string) (w : Wiring)
  (d : string) :
  free_name B w d = None ->
  peers (link B d1 d2 w) d = peers w d.
Proof.
  intros Hfull.
  destruct (link_cases B d1 d2 w) as [(i1 & i2 & F1 & F2 & ->)|[_ ->]];
    [|reflexivity].
  cbn [peers]. unfold upd.
  destruct (String.eqb_spec d2 d) as [->|_]; [congruence|].
  destruct (String.eqb_spec d1 d) as [->|_]; [congruence|reflexivity].
Qed.

Lemma free_name_peers (B : NetworkTopology) (w w' : Wiring) (d : string) :
  peers w' d = peers w d -> free_name B w' d = free_name B w d.
Proof. unfold free_name. now intros ->. Qed.

Lemma link_all_full (B : NetworkTopology) (pairs : list (string * string))
  (d : string) :
  forall w,
    free_name B w d = None ->
    peers (link_all B pairs w) d = peers w d.
Proof.
  induction pairs as [|[d1 d2] r IH]; intros w Hfull; [reflexivity|].
  unfold link_all in *. cbn [fold_left].
  pose proof (link_full B d1 d2 w d Hfull) as E.
  rewrite IH; [exact E|].
  rewrite (free_name_peers B w (link B d1 d2 w) d E). exact Hfull.
Qed.

Lemma link_all_app (B : NetworkTopology) (l1 l2 : list (string * string))
  (w : Wiring) :
  link_all B (l1 ++ l2) w = link_all B l2 (link_all B l1 w).
Proof. unfold link_all. apply fold_left_app. Qed.

Lemma assigned_one (h : Z) (i : nat) : assigned 1 h i = 1.
Proof.
  unfold assigned.
  assert (0 <= Z.of_nat i / Z.max 1 (h / 1))%Z by (apply Z.div_pos; lia).
  lia.
Qed.

Lemma hosts_on_one (h : Z) : hosts_on 1 h 1 = Z.to_nat h.
Proof.
  unfold hosts_on. rewrite filter_all.
  - apply length_seq.
  - intros i _. rewrite assigned_one. reflexivity.
Qed.

Lemma ring_pairs_one : ring_pairs 1 = [(switch_id 1, switch_id 1)].
Proof. reflexivity. Qed.

Lemma nth_error_ports (k : nat) :
  nth_error (dkeys (interfaces (ring_switch 1))) k =
  if (k <? 24)%nat then Some (port (k + 1)) else None.
Proof.
  rewrite ring_switch_spec. cbn [interfaces]. rewrite dkeys_fresh_interfaces.
  rewrite nth_error_map, nth_error_seq.
  destruct (k <? 24)%nat; [|reflexivity].
  simpl. f_equal. f_equal. lia.
Qed.
Lemma deg_host_slice_switch (n h : Z) (a s len : nat) :
  deg (switch_id a)
    (map (fun i => (host_id (i + 1), switch_id (assigned n h i))) (seq s len))
  = List.length (filter (fun i => (assigned n h i =? a)%nat) (seq s len)).
Proof.
  unfold deg. rewrite !filter_map_length. cbn [fst snd].
  rewrite filter_none by (intros; apply host_id_eqb_switch_id).
  cbn [List.length Nat.add]. f_equal. apply filter_ext. intros i.
  apply switch_id_eqb.
Qed.

Lemma deg_host_slice_host (n h : Z) (j s len : nat) :
  deg (host_id j)
    (map (fun i => (host_id (i + 1), switch_id (assigned n h i))) (seq s len))
  <= 1.
Proof.
  unfold deg. rewrite !filter_map_length. cbn [fst snd].
  rewrite (filter_none (fun i => switch_id (assigned n h i) =? host_id j)).
  - rewrite Nat.add_0_r. apply count_le_one; [apply seq_NoDup|].
    intros x y _ _ Hx Hy.
    apply String.eqb_eq, host_id_inj in Hx.
    apply String.eqb_eq, host_id_inj in Hy. lia.
  - intros i _. rewrite String.eqb_sym. apply host_id_eqb_switch_id.
Qed.

(** The wiring of the hosts of a ring of one switch gives the switch a peer
    per host, up to its 24 ports. *)
Lemma one_switch_hosts (h : Z) rng :
  List.length
    (peers (link_all (ring_base (Z.to_nat 1) (Z.to_nat h) rng)
              (host_pairs 1 h) no_wiring) (switch_id 1))
  = Nat.min (Z.to_nat h) 24.
Proof.
  set (B := ring_base (Z.to_nat 1) (Z.to_nat h) rng).
  set (H := Z.to_nat h).
  set (f := fun i => (host_id (i + 1), switch_id (assigned 1 h i))).
  assert (forall s len, s + len <= H ->
            forall d1 d2, In (d1, d2) (map f (seq s len)) ->
              d1 <> d2 /\ dget d1 (devices B) <> None /\
              dget d2 (devices B) <> None) as Hin.
  { intros s len Hle d1 d2 Hi. apply in_map_iff in Hi.
    destruct Hi as (i & E & Hi). injection E as <- <-. apply in_seq in Hi.
    split.
    - intros E. symmetry in E. now apply switch_id_not_host_id in E.
    - unfold B. rewrite assigned_one.
      rewrite ring_base_switch, ring_base_host by (fold H; lia).
      split; discriminate. }
  assert (forall s len, len <= 24 ->
            forall d dev, dget d (devices B) = Some dev ->
              List.length (peers no_wiring d) + deg d (map f (seq s len))
              <= List.length (interfaces dev)) as Hcap.
  { intros s len Hle d dev Hd. cbn [peers no_wiring List.length Nat.add].
    destruct (ring_base_device _ _ _ d dev Hd)
      as [(a & Ha & -> & ->)|(j & Hj & -> & ->)].
    - unfold f. rewrite deg_host_slice_switch, ring_switch_spec.
      cbn [interfaces]. unfold fresh_interfaces.
      rewrite !length_map, length_seq.
      pose proof (filter_length_le (fun i => (assigned 1 h i =? a)%nat)
                    (seq s len)) as L.
      rewrite length_seq in L. lia.
    - destruct (ring_host_spec rng j) as (nm & ps & ->). cbn [interfaces].
      apply deg_host_slice_host. }
  assert (forall len, deg (switch_id 1) (map f (seq 0 len)) = len) as Hdeg1.
  { intros len. unfold f. rewrite deg_host_slice_switch, filter_all.
    - apply length_seq.
    - intros i _. now rewrite assigned_one. }
  destruct (Nat.le_gt_cases H 24) as [Hle|Hgt].
  - destruct (link_all_exact B (map f (seq 0 H)) (Hin 0 H ltac:(lia))
                no_wiring (Hcap 0 H Hle)) as [_ Hd].
    unfold host_pairs. fold H f. rewrite Hd, Hdeg1.
    cbn [peers no_wiring List.length]. lia.
  - unfold host_pairs. fold H f.
    replace H with (24 + (H - 24)) at 1 by lia.
    rewrite seq_app, map_app, link_all_app.
    destruct (link_all_exact B (map f (seq 0 24)) (Hin 0 24 ltac:(lia))
                no_wiring (Hcap 0 24 ltac:(lia))) as [_ Hd].
    specialize (Hd (switch_id 1)). rewrite Hdeg1 in Hd.
    cbn [peers no_wiring List.length Nat.add] in Hd.
    rewrite link_all_full.
    + rewrite Nat.min_r by lia. exact Hd.
    + unfold free_name, B. rewrite ring_base_switch by lia.
      fold B. etransitivity; [|exact (nth_error_ports 24)].
      f_equal. exact Hd.
Qed.

(** A ring of one switch: the ring loop connects the first free port of
    switch1 to itself when the hosts have left one, and adds nothing
    otherwise. *)
Lemma one_switch_ring (h : Z) rng :
  exists T,
    create_ring_network 1 h rng = inr T /\
    ((h <= 23)%Z ->
     ss_records T =
     [(switch_id 1, port (Z.to_nat h + 1), switch_id 1, port (Z.to_nat h + 1))]) /\
    ((24 <= h)%Z -> ss_records T = []).
Proof.
  destruct (create_ring_network_wired 1 h rng ltac:(lia)) as (T & Hrun & Hrep).
  exists T. split; [exact Hrun|].
  unfold ring_wiring in Hrep. rewrite ring_pairs_one in Hrep.
  pose proof (one_switch_hosts h rng) as Hlen.
  set (B := ring_base (Z.to_nat 1) (Z.to_nat h) rng) in *.
  set (w1 := link_all B (host_pairs 1 h) no_wiring) in *.
  destruct (link_all_recs B (host_pairs 1 h) no_wiring)
    as (ex1 & E1 & _ & P1).
  fold w1 in E1. cbn [recs no_wiring] in E1. rewrite app_nil_l in E1.
  destruct Hrep as (Hframe & Hconn & _ & _).
  pose proof (host_records_not_switch 1 h rng T ex1 Hframe P1) as Hex1.
  assert (free_name B w1 (switch_id 1) =
          if (Z.to_nat h <? 24)%nat then Some (port (Z.to_nat h + 1)) else None)
    as Hfree.
  { unfold free_name, B. rewrite ring_base_switch by lia.
    fold B. fold w1. rewrite Hlen, nth_error_ports.
    destruct (Nat.ltb_spec (Z.to_nat h) 24) as [Hlt|Hge].
    - rewrite Nat.min_l by lia.
      destruct (Nat.ltb_spec (Z.to_nat h) 24); [reflexivity|lia].
    - rewrite Nat.min_r by lia. reflexivity. }
  unfold link_all in Hconn at 1. cbn [fold_left] in Hconn.
  unfold link in Hconn. rewrite Hfree in Hconn.
  split.
  - intros Hh.
    destruct (Nat.ltb_spec (Z.to_nat h) 24) as [_|?]; [|lia].
    cbn [recs] in Hconn. unfold ss_records.
    rewrite Hconn, E1, filter_app, Hex1, app_nil_l. cbn [filter].
    assert (switch_to_switch T
              (switch_id 1, port (Z.to_nat h + 1), switch_id 1,
               port (Z.to_nat h + 1)) = true) as ->; [|reflexivity].
    unfold switch_to_switch. cbn [conn_devices fst snd].
    rewrite (is_switch_frame B T _ Hframe).
    assert (is_switch B (switch_id 1) = true) as ->; [|reflexivity].
    apply is_switch_ring_base. exists 1. split; [lia|reflexivity].
  - intros Hh.
    destruct (Nat.ltb_spec (Z.to_nat h) 24) as [?|_]; [lia|].
    unfold ss_records. rewrite Hconn. fold w1. rewrite E1. exact Hex1.
Qed.

(** A ring of two switches whose hosts leave every switch two free ports
    has the two records of the ring loop: switch1 with switch2, and
    switch2 with switch1 on the next ports. *)
Lemma two_switch_ring (h : Z) rng :
  (h - Z.max 1 (h / 2) <= 22)%Z ->
  exists T,
    create_ring_network 2 h rng = inr T /\
    map conn_devices (ss_records T) =
    [(switch_id 1, switch_id 2); (switch_id 2, switch_id 1)].
Proof.
  intros Hcap.
  destruct (create_ring_network_wired 2 h rng ltac:(lia)) as (T & Hrun & Hrep).
  exists T. split; [exact Hrun|].
  unfold ring_wiring in Hrep.
  assert (switch_pairs (Z.to_nat 2) (ring_pairs 2)) as Hsp.
  { intros d1 d2 Hin.
    destruct (ring_pairs_spec 2 d1 d2 ltac:(lia) Hin)
      as (a & b & Ha & Hb & Hab & E1 & E2).
    exists a, b. auto. }
  destruct (switch_pairs_records 2 h rng (ring_pairs 2) T ltac:(lia) Hsp Hrep)
    as [_ Hex].
  rewrite Hex; [reflexivity|].
  intros a Ha.
  pose proof (hosts_on_bound 2 h a ltac:(lia) Ha ltac:(lia)).
  rewrite deg_ring_pairs_switch by (try lia; exact Ha). lia.
Qed.

(** C5 (amended).  For every numSwitches n <= 2 and every numHosts h:
    with n = 0 the ring generator raises ZeroDivisionError; with a
    negative n it raises IndexError when h >= 1 and returns an empty
    topology otherwise; with n = 1 or n = 2 it returns a topology with at
    most n switch-to-switch records.  With n = 1 and h <= 23 there is
    exactly one, the self-loop of switch1 on its first free port,
    port(max(h, 0) + 1), and with h >= 24 there is none.  With n = 2 and two ports
    left free on every switch, h - max(1, h // 2) <= 22, there are exactly
    two, one of switch1 with switch2 and one of switch2 with switch1. *)
Theorem ring_small_switch_counts (n h : Z) (rng : nat -> nat * nat * nat) :
  (n <= 2)%Z ->
  (n = 0%Z -> create_ring_network n h rng = inl ZeroDivisionError) /\
  ((n < 0)%Z ->
   create_ring_network n h rng =
   if (h <=? 0)%Z then inr (NetworkTopology_init "Ring Network")
   else inl IndexError) /\
  ((1 <= n)%Z ->
   exists T,
     create_ring_network n h rng = inr T /\
     List.length (ss_records T) <= Z.to_nat n /\
     (n = 1%Z -> (h <= 23)%Z ->
      List.length (ss_records T) = 1 /\
      In (switch_id 1, port (Z.to_nat h + 1),
          switch_id 1, port (Z.to_nat h + 1)) (ss_records T)) /\
     (n = 1%Z -> (24 <= h)%Z -> ss_records T = []) /\
     (n = 2%Z -> (h - Z.max 1 (h / 2) <= 22)%Z ->
      List.length (ss_records T) = 2 /\
      Permutation (map conn_devices (ss_records T))
        [(switch_id 1, switch_id 2); (switch_id 2, switch_id 1)])).
Proof.
  intros Hn2. split; [|split].
  - intros ->. now rewrite create_ring_network_no_switch.
  - intros Hn. rewrite create_ring_network_no_switch by lia.
    destruct (Z.eqb_spec n 0); [lia|reflexivity].
  - intros Hn1.
    destruct (ring_ss_records_bound n h rng Hn1) as (T & Hrun & Hle).
    exists T. split; [exact Hrun|]. split; [exact Hle|].
    split; [|split].
    + intros -> Hh.
      destruct (one_switch_ring h rng) as (T' & Hrun' & Hone & _).
      rewrite Hrun in Hrun'. injection Hrun' as <-.
      rewrite (Hone Hh). split; [reflexivity|now left].
    + intros -> Hh.
      destruct (one_switch_ring h rng) as (T' & Hrun' & _ & Hnone).
      rewrite Hrun in Hrun'. injection Hrun' as <-.
      exact (Hnone Hh).
    + intros -> Hcap.
      destruct (two_switch_ring h rng Hcap) as (T' & Hrun' & Htwo).
      rewrite Hrun in Hrun'. injection Hrun' as <-.
      split.
      * rewrite <- (length_map conn_devices), Htwo. reflexivity.
      * rewrite Htwo. apply Permutation_refl.
Qed.

Lemma ring_small_switch_counts_witness :
  exists T,
    create_ring_network 2 4 fixed_rng = inr T /\
    List.length (ss_records T) = 2 /\
    Permutation (map conn_devices (ss_records T))
      [(switch_id 1, switch_id 2); (switch_id 2, switch_id 1)].
Proof.
  destruct (proj2 (proj2 (ring_small_switch_counts 2 4 fixed_rng ltac:(lia)))
              ltac:(lia))
    as (T & Hrun & _ & _ & _ & Htwo).
  exists T. split; [exact Hrun|].
  apply Htwo; [reflexivity|vm_compute; discriminate].
Defined.
